(** * Track-Your-Time: the tracking engine of [tracker.py] and [gui_tracker.py]

    A shallow embedding of the time-accounting core of the application:
    the classifier [categorize_app], the accounting store mutated by
    [record_time] and [manual_time_entry], the streak ledger maintained by
    [update_streaks], the read-side aggregations ([export_csv],
    [display_insights], [list_previous_days]) and the two sampling loops
    ([TimeTracker.run] and [TimeTrackerGUI.run_tracker]).  Around this
    core it embeds the readers and writers that share the store: the
    daily report ([display_day]), the goal notifications
    ([check_goal_notifications]), the GUI's [stop_tracking],
    [save_settings] and [update_analytics], and the CSV report of
    [ui/email_reports.py].  Three further parts embed what the first
    embedding abstracts: the accounting on Python's integers and floats
    ([Accounting]), the classifier with [str.lower] beyond ASCII
    ([categorize_app_utf8]) and the data file as a JSON text ([Json]).

    Modelling conventions.
    - [self.data] is whatever [json.load] returned, so it is embedded as a
      dynamically typed JSON [value]; Python dictionaries keep insertion
      order and are association lists.
    - Python operations that can raise return a [result]; the methods of
      [TimeTracker] run in a state-and-exception monad [M] over the
      [tracker] object, in which a raised exception keeps every mutation
      made before it.
    - Seconds and hours are Python floats in the source; in the store of
      JSON values they are embedded as exact rationals [Q], so rounding is
      outside that model.  What depends on the rounding is stated on
      [Accounting], where a number is a Python [int] or a binary64 float
      with the additions of IEEE 754.
    - Strings are byte strings; [lower] lower-cases the letters A-Z, as
      [str.lower] does on ASCII strings.  [lower_utf8] reads the bytes as
      UTF-8 and follows [str.lower] on ASCII and on the Greek alphabet.
    - [json.dump] and [json.load] are library code; [Json] embeds them
      from their documentation, on the tokens of the text.  In the
      tracker object the data file is kept as the value written to it.
    - The clock, the date and the two operating-system probes are inputs of
      each loop iteration ([sample]).  An iteration has one clock value,
      where the source reads the clock again, a moment later, to restart
      its timer after a flush.
    - Console output, the tray icon and the live dashboard are left out:
      they change neither the store nor the session.  The notification
      checks made every sixth iteration of [TimeTracker.run] are not part
      of the model of the loop; they can raise, which ends that loop like
      any other exception.  [check_goal_notifications] is embedded on its
      own, over the keys it remembers and the notifications it displays.
    - A report is embedded by what it prints or returns when it ends; the
      lines printed before an exception are not kept.  The daily report
      is embedded by its lines and the stored seconds behind them, not by
      the rounded hours and percentages that are printed. *)

From Stdlib Require Import String Ascii List Bool ZArith QArith Lia.
From Stdlib Require Import Permutation Sorted.
From Stdlib Require SpecFloat.
Import ListNotations.
Local Open Scope string_scope.

(** ** Strings *)

Definition lower_char (c : ascii) : ascii :=
  if (Ascii.leb "A" c && Ascii.leb c "Z")%bool
  then ascii_of_N (N_of_ascii c + 32)
  else c.

(** [s.lower()] *)
Fixpoint lower (s : string) : string :=
  match s with
  | EmptyString => EmptyString
  | String c s' => String (lower_char c) (lower s')
  end.

(** [x in s] for two strings: [x] occurs in [s] as a contiguous substring. *)
Fixpoint str_in (x s : string) : bool :=
  (prefix x s ||
   match s with
   | EmptyString => false
   | String _ s' => str_in x s'
   end)%bool.

(** [any(x in s for x in keywords)] *)
Definition any_in (keywords : list string) (s : string) : bool :=
  existsb (fun x => str_in x s) keywords.

(** Truth value of an optional string ([if project], [if self.current_app]):
    [None] and the empty string are false. *)
Definition truthy (o : option string) : bool :=
  match o with
  | Some s => negb (s =? "")
  | None => false
  end.

(** ** Configuration ([tracker_config.json]) *)

Record config : Type := mkConfig {
  goals : list (string * Q);
  custom_categories : list (string * string);
  excluded_apps : list string;
  focus_mode_blocked : list string;
  productive_categories : list string
}.

(** ** The classifier: keyword tables of [categorize_app] *)

Definition coding_keywords : list string :=
  ["vscode"; "visual studio code"; "pycharm"; "intellij"; "webstorm";
   "phpstorm"; "goland"; "rider"; "clion"; "datagrip"; "rubymine";
   "appcode"; "eclipse"; "netbeans"; "android studio"; "xcode"; "sublime";
   "atom"; "brackets"; "notepad++"; "vim"; "emacs"; "nano"; "gedit";
   "code.exe"; "code - insiders"; "jupyter"; "spyder"; "rstudio"; "matlab";
   "octave"; "postman"; "insomnia"; "swagger"; "terminal"; "iterm";
   "cmd.exe"; "powershell"; "wsl"; "bash"; "zsh"; "windows terminal";
   "hyper"; "alacritty"; "kitty"; "terminator"; "putty"; "winscp";
   "filezilla"; "gitkraken"; "sourcetree"; "github desktop"; "tower";
   "smartgit"; "tortoisegit"; "git gui"; "dbeaver"; "mysql workbench";
   "pgadmin"; "sequel pro"; "tableplus"; "mongodb compass"; "redis";
   "robo 3t"; "docker"; "kubernetes"; "vagrant"; "virtualbox"; "vmware";
   "wireshark"; "fiddler"; "charles proxy"].

Definition browser_keywords : list string :=
  ["chrome"; "firefox"; "safari"; "edge"; "brave"; "opera"; "vivaldi";
   "arc"; "chromium"; "iexplore"; "internet explorer"].

Definition browser_coding_sites : list string :=
  ["github"; "gitlab"; "bitbucket"; "stackoverflow"; "stack overflow";
   "leetcode"; "hackerrank"; "codepen"; "codesandbox"; "repl.it";
   "jsfiddle"; "glitch"; "stackblitz"; "playcode"; "codeanywhere"; "mdn";
   "w3schools"; "devdocs"; "docs.python"; "docs.microsoft";
   "developer.mozilla"; "documentation"; "api reference"; "tutorial";
   "udemy"; "coursera"; "edx"; "pluralsight"; "skillshare"; "freecodecamp";
   "khan academy"; "codecademy"; "udacity"; "egghead"; "frontend masters";
   "laracasts"; "treehouse"; "lynda"; "datacamp"; "educative"; "vercel";
   "netlify"; "heroku"; "railway"; "render"; "fly.io"; "aws console";
   "azure portal"; "google cloud"; "digitalocean"; "cloudflare";
   "mongodb atlas"; "supabase"; "planetscale"; "sentry"; "datadog";
   "new relic"; "grafana"; "prometheus"].

Definition browser_social_sites : list string :=
  ["facebook"; "twitter"; "instagram"; "tiktok"; "snapchat"; "reddit";
   "pinterest"; "tumblr"; "linkedin"; "mastodon"; "threads"; "bluesky";
   "whatsapp web"; "telegram web"].

Definition browser_entertainment_sites : list string :=
  ["youtube"; "netflix"; "twitch"; "hulu"; "disney"; "prime video";
   "spotify"; "soundcloud"; "apple music"; "pandora"; "tidal";
   "crunchyroll"; "funimation"; "hbo"; "peacock"; "paramount"].

Definition browser_reading_sites : list string :=
  ["news"; "bbc"; "cnn"; "nytimes"; "guardian"; "reuters"; "medium";
   "substack"; "forbes"; "techcrunch"; "hacker news"; "ycombinator";
   "wikipedia"; "wikihow"].

Definition browser_shopping_sites : list string :=
  ["amazon"; "ebay"; "etsy"; "aliexpress"; "walmart"; "target"; "shop";
   "store"; "cart"; "checkout"].

Definition browser_productivity_sites : list string :=
  ["gmail"; "outlook"; "calendar"; "google docs"; "google sheets";
   "google drive"; "dropbox"; "notion"; "todoist"; "trello"; "asana";
   "jira"; "monday.com"; "clickup"; "linear"; "airtable"; "coda"; "miro";
   "figma"; "figjam"; "whimsical"; "lucidchart"; "canva - edit";
   "excalidraw"; "obsidian publish"].

Definition communication_keywords : list string :=
  ["slack"; "discord"; "teams"; "microsoft teams"; "zoom"; "skype";
   "telegram"; "whatsapp"; "signal"; "element"; "matrix"; "messenger";
   "wechat"; "line"; "viber"; "groupme"; "rocketchat"; "mattermost";
   "zulip"; "gitter"; "chanty"; "flock"; "thunderbird"; "outlook"; "mail";
   "spark"; "mailspring"; "mailbird"; "em client"; "postbox"; "claws mail";
   "webex"; "gotomeeting"; "bluejeans"; "jitsi"; "meet"; "facetime";
   "google meet"; "whereby"; "around"; "mmhmm"; "discord - voice";
   "hangouts"].

Definition productivity_keywords : list string :=
  ["word"; "winword"; "excel"; "powerpoint"; "onenote"; "access";
   "publisher"; "outlook"; "microsoft 365"; "office"; "teams - calendar";
   "google docs"; "google sheets"; "google slides"; "google drive";
   "google calendar"; "google keep"; "pages"; "numbers"; "keynote";
   "reminders"; "libreoffice"; "openoffice"; "wps office"; "calligra";
   "onlyoffice"; "notion"; "obsidian"; "evernote"; "onenote"; "simplenote";
   "bear"; "roam"; "logseq"; "joplin"; "standard notes"; "remnote";
   "typora"; "mark text"; "notable"; "craft"; "amplenote"; "mem";
   "reflect"; "tana"; "capacities"; "anytype"; "acrobat"; "pdf"; "foxit";
   "preview"; "sumatra"; "pdf-xchange"; "trello"; "asana"; "monday";
   "clickup"; "basecamp"; "notion calendar"; "jira"; "confluence";
   "linear"; "height"; "shortcut"; "pivotal tracker"; "youtrack";
   "airtable"; "smartsheet"; "wrike"; "teamwork"; "todoist"; "things";
   "any.do"; "microsoft to do"; "ticktick"; "omnifocus"; "taskwarrior";
   "2do"; "remember the milk"; "airtable"; "coda"; "excel";
   "notion database"; "fibery"; "toggl"; "rescuetime"; "timely";
   "clockify"; "harvest"; "miro"; "mural"; "figjam"; "whimsical";
   "lucidchart"; "draw.io"; "excalidraw"; "tldraw"].

Definition design_keywords : list string :=
  ["photoshop"; "illustrator"; "indesign"; "lightroom"; "acrobat"; "gimp";
   "inkscape"; "krita"; "affinity photo"; "affinity designer"; "sketch";
   "figma"; "adobe xd"; "invision"; "framer"; "pixelmator"; "paint.net";
   "paintshop"; "corel draw"; "canva"; "penpot"; "lunacy"; "photopea";
   "fotor"; "pixlr"; "premiere"; "after effects"; "davinci resolve";
   "final cut"; "imovie"; "filmora"; "camtasia"; "shotcut"; "kdenlive";
   "vegas"; "avid"; "blender"; "olive"; "openshot"; "maya"; "cinema 4d";
   "zbrush"; "houdini"; "3ds max"; "unity"; "unreal"; "godot";
   "substance painter"; "marmoset"; "audacity"; "logic pro"; "ableton";
   "fl studio"; "reaper"; "pro tools"; "garage band"; "cubase";
   "studio one"; "ardour"; "lmms"; "caustic"; "penpot"; "figma"; "sketch";
   "axure"; "balsamiq"; "mockplus"; "principle"; "protopie"; "flinto";
   "origami studio"].

Definition entertainment_keywords : list string :=
  ["spotify"; "apple music"; "itunes"; "music"; "vlc"; "windows media";
   "quicktime"; "netflix"; "youtube"; "twitch"; "hulu"; "disney+"; "plex";
   "kodi"; "jellyfin"; "emby"; "amazon prime video"; "hbo max";
   "paramount+"; "peacock"; "apple tv"; "crunchyroll"; "steam";
   "epic games"; "epicgameslauncher"; "gog galaxy"; "origin"; "uplay";
   "battle.net"; "battlenet"; "blizzard"; "riot client";
   "riotclientservices"; "xbox"; "playstation"; "ea app";
   "rockstar games launcher"; "bethesda launcher"; "itch.io"; "playnite";
   "minecraft"; "fortnite"; "valorant"; "league of legends";
   "leagueoflegends"; "dota"; "dota2"; "counter-strike"; "csgo"; "cs2";
   "overwatch"; "apex legends"; "apexlegends"; "rocket league"; "roblox";
   "among us"; "fall guys"; "wow"; "world of warcraft"; "destiny";
   "call of duty"; "gta"; "grand theft auto"; "red dead"; "elden ring";
   "baldurs gate"; "cyberpunk"; "witcher"; "skyrim"; "fallout"; "halo";
   "warzone"; "game"; ".exe - "; "soundcloud"; "pandora"; "tidal";
   "deezer"; "youtube music"; "foobar2000"; "winamp"; "clementine";
   "rhythmbox"].

Definition social_keywords : list string :=
  ["facebook"; "twitter"; "instagram"; "tiktok"; "snapchat"; "reddit";
   "pinterest"; "linkedin"; "mastodon"; "threads"].

Definition education_keywords : list string :=
  ["anki"; "quizlet"; "duolingo"; "rosetta stone"; "mathematica"; "maple";
   "geogebra"; "desmos"; "moodle"; "canvas"; "blackboard"; "schoology";
   "zoom"; "google classroom"].

Definition utility_keywords : list string :=
  ["calculator"; "notepad"; "textedit"; "finder"; "explorer"; "settings";
   "control panel"; "system preferences"; "task manager";
   "activity monitor"; "resource monitor"; "7-zip"; "winrar"; "winzip";
   "archive utility"; "snipping tool"; "screenshot"; "greenshot";
   "lightshot"].

Definition finance_keywords : list string :=
  ["quickbooks"; "quicken"; "mint"; "ynab"; "personal capital"; "coinbase";
   "robinhood"; "webull"; "etrade"; "fidelity"; "paypal"; "venmo";
   "cash app"; "crypto"].

Definition reading_keywords : list string :=
  ["kindle"; "apple books"; "calibre"; "goodreads"; "pocket"; "instapaper";
   "readwise"; "reader"].

(** The body of [categorize_app] after the custom rules: ordered keyword
    groups, the browser group with its second-level site tables. *)
Definition categorize_builtin (app_lower : string) : string :=
  if any_in coding_keywords app_lower then "Coding"
  else if any_in browser_keywords app_lower then
    if any_in browser_coding_sites app_lower then "Coding"
    else if any_in browser_social_sites app_lower then "Social Media"
    else if any_in browser_entertainment_sites app_lower then "Entertainment"
    else if any_in browser_reading_sites app_lower then "Reading"
    else if any_in browser_shopping_sites app_lower then "Shopping"
    else if any_in browser_productivity_sites app_lower then "Productivity"
    else "Browsing"
  else if any_in communication_keywords app_lower then "Communication"
  else if any_in productivity_keywords app_lower then "Productivity"
  else if any_in design_keywords app_lower then "Design"
  else if any_in entertainment_keywords app_lower then "Entertainment"
  else if any_in social_keywords app_lower then "Social Media"
  else if any_in education_keywords app_lower then "Education"
  else if any_in utility_keywords app_lower then "Utilities"
  else if any_in finance_keywords app_lower then "Finance"
  else if any_in reading_keywords app_lower then "Reading"
  else "Other".

(** [pattern.lower() in app_lower] for one custom rule. *)
Definition rule_matches (app_lower : string) (rule : string * string) : bool :=
  str_in (lower (fst rule)) app_lower.

(** [TimeTracker.categorize_app]: the custom rules are tried first, in the
    insertion order of the [custom_categories] dictionary. *)
Definition categorize_app (cfg : config) (app_name : string) : string :=
  let app_lower := lower app_name in
  match find (rule_matches app_lower) (custom_categories cfg) with
  | Some (_, category) => category
  | None => categorize_builtin app_lower
  end.

(** ** JSON values and the Python operations applied to them *)

Inductive exn : Type :=
| TypeError
| KeyError
| AttributeError
| OSError.

Inductive result (A : Type) : Type :=
| Ok (a : A)
| Raise (e : exn).
Arguments Ok {A} a.
Arguments Raise {A} e.

(** What [json.load] produces: [None], booleans, numbers, strings, lists
    and dictionaries with string keys. *)
#[warnings="-register-all"]
Inductive value : Type :=
| VNone
| VBool (b : bool)
| VNum (q : Q)
| VStr (s : string)
| VList (l : list value)
| VDict (d : list (string * value)).

Definition dict : Type := list (string * value).

Fixpoint dict_get (k : string) (d : dict) : option value :=
  match d with
  | [] => None
  | (k', x) :: d' => if k' =? k then Some x else dict_get k d'
  end.

Definition dict_has (k : string) (d : dict) : bool :=
  match dict_get k d with
  | Some _ => true
  | None => false
  end.

(** [d[k] = x]: an existing key keeps its position, a new key goes last. *)
Fixpoint dict_set (k : string) (x : value) (d : dict) : dict :=
  match d with
  | [] => [(k, x)]
  | (k', y) :: d' =>
      if k' =? k then (k', x) :: d' else (k', y) :: dict_set k x d'
  end.

Definition is_str (s : string) (v : value) : bool :=
  match v with
  | VStr s' => s' =? s
  | _ => false
  end.

(** [k in v] for a string [k]. *)
Definition py_contains (k : string) (v : value) : result bool :=
  match v with
  | VDict d => Ok (dict_has k d)
  | VStr s => Ok (str_in k s)
  | VList l => Ok (existsb (is_str k) l)
  | VNone | VBool _ | VNum _ => Raise TypeError
  end.

(** [v[k]] for a string [k]. *)
Definition py_getitem (v : value) (k : string) : result value :=
  match v with
  | VDict d =>
      match dict_get k d with
      | Some x => Ok x
      | None => Raise KeyError
      end
  | _ => Raise TypeError
  end.

(** [v[k] = x] for a string [k]; the result is the mutated container. *)
Definition py_setitem (v : value) (k : string) (x : value) : result value :=
  match v with
  | VDict d => Ok (VDict (dict_set k x d))
  | _ => Raise TypeError
  end.

(** [v.get(k, default)] *)
Definition py_get (v : value) (k : string) (default : value) : result value :=
  match v with
  | VDict d =>
      match dict_get k d with
      | Some x => Ok x
      | None => Ok default
      end
  | _ => Raise AttributeError
  end.

(** [v.items()], [v.values()], [v.keys()] *)
Definition py_items (v : value) : result (list (string * value)) :=
  match v with
  | VDict d => Ok d
  | _ => Raise AttributeError
  end.

Definition py_values (v : value) : result (list value) :=
  match v with
  | VDict d => Ok (map snd d)
  | _ => Raise AttributeError
  end.

Definition py_keys (v : value) : result (list string) :=
  match v with
  | VDict d => Ok (map fst d)
  | _ => Raise AttributeError
  end.

(** The number a value stands for as an operand of [+], [/], [<] or [>]
    against a number; booleans are the integers 0 and 1. *)
Definition as_number (v : value) : result Q :=
  match v with
  | VNum q => Ok q
  | VBool b => Ok (if b then 1 else 0)
  | _ => Raise TypeError
  end.

(** [v + x] for a number [x]. *)
Definition py_add (v : value) (x : Q) : result value :=
  match as_number v with
  | Ok q => Ok (VNum (q + x))
  | Raise e => Raise e
  end.

Definition Qltb (a b : Q) : bool := negb (Qle_bool b a).

Definition rbind {A B : Type} (r : result A) (f : A -> result B) : result B :=
  match r with
  | Ok a => f a
  | Raise e => Raise e
  end.

Notation "'let*' x ':=' r 'in' k" := (rbind r (fun x => k))
  (at level 10, x name, r at level 100, k at level 200).

(** [a > b] where one of the operands is known to be a number: Python
    compares when the other one is a number too and raises otherwise. *)
Definition py_gt (a b : value) : result bool :=
  let* x := as_number a in
  let* y := as_number b in
  Ok (Qltb y x).

(** [sum(...)] over values: [0 + v1 + ... + vn]. *)
Fixpoint py_sum (l : list value) : result Q :=
  match l with
  | [] => Ok 0
  | v :: l' =>
      let* q := as_number v in
      let* rest := py_sum l' in
      Ok (q + rest)
  end.

(** Truth value of a JSON value ([if not self.data]). *)
Definition py_truthy (v : value) : bool :=
  match v with
  | VNone => false
  | VBool b => b
  | VNum q => negb (Qeq_bool q 0)
  | VStr s => negb (s =? "")
  | VList l => match l with [] => false | _ => true end
  | VDict d => match d with [] => false | _ => true end
  end.

(** [root[k1]...[kn]] *)
Fixpoint get_path (p : list string) (root : value) : result value :=
  match p with
  | [] => Ok root
  | k :: p' =>
      match py_getitem root k with
      | Ok child => get_path p' child
      | Raise e => Raise e
      end
  end.

(** [root[k1]...[kn][k] = x].  The dictionaries on the way are shared
    objects in Python: the assignment is seen through [root], which is
    what writing the changed child back at its key expresses. *)
Fixpoint assign (p : list string) (k : string) (x : value) (root : value)
  : result value :=
  match p with
  | [] => py_setitem root k x
  | k0 :: p' =>
      match py_getitem root k0 with
      | Ok child =>
          match assign p' k x child with
          | Ok child' => py_setitem root k0 child'
          | Raise e => Raise e
          end
      | Raise e => Raise e
      end
  end.

(** [k in root[k1]...[kn]] *)
Definition contains_at (p : list string) (k : string) (root : value)
  : result bool :=
  match get_path p root with
  | Ok c => py_contains k c
  | Raise e => Raise e
  end.

(** [root[k1]...[kn][k] += x] for a number [x]. *)
Definition aug_assign (p : list string) (k : string) (x : Q) (root : value)
  : result value :=
  match get_path p root with
  | Ok c =>
      match py_getitem c k with
      | Ok old =>
          match py_add old x with
          | Ok new => assign p k new root
          | Raise e => Raise e
          end
      | Raise e => Raise e
      end
  | Raise e => Raise e
  end.

(** ** The tracker object and its monad *)

Record tracker : Type := mkTracker {
  data : value;                   (* self.data *)
  cfg : config;                   (* self.config *)
  current_app : option string;
  start_time : option Q;
  idle_threshold : Q;
  is_paused : bool;
  current_project : option string;
  focus_mode : bool;
  unknown_apps : list string;
  data_file : option value        (* what time_tracking.json holds *)
}.

Definition set_data (d : value) (t : tracker) : tracker :=
  mkTracker d (cfg t) (current_app t) (start_time t) (idle_threshold t)
    (is_paused t) (current_project t) (focus_mode t) (unknown_apps t)
    (data_file t).

Definition set_session (app : option string) (start : option Q)
  (t : tracker) : tracker :=
  mkTracker (data t) (cfg t) app start (idle_threshold t)
    (is_paused t) (current_project t) (focus_mode t) (unknown_apps t)
    (data_file t).

Definition set_start_time (start : option Q) (t : tracker) : tracker :=
  set_session (current_app t) start t.

Definition set_is_paused (b : bool) (t : tracker) : tracker :=
  mkTracker (data t) (cfg t) (current_app t) (start_time t)
    (idle_threshold t) b (current_project t) (focus_mode t)
    (unknown_apps t) (data_file t).

Definition set_unknown_apps (l : list string) (t : tracker) : tracker :=
  mkTracker (data t) (cfg t) (current_app t) (start_time t)
    (idle_threshold t) (is_paused t) (current_project t) (focus_mode t)
    l (data_file t).

Definition set_data_file (f : option value) (t : tracker) : tracker :=
  mkTracker (data t) (cfg t) (current_app t) (start_time t)
    (idle_threshold t) (is_paused t) (current_project t) (focus_mode t)
    (unknown_apps t) f.

(** A method of the tracker: it returns or raises, and yields the object
    as the mutations made so far left it. *)
Definition M (A : Type) : Type := tracker -> result A * tracker.

Definition ret {A : Type} (a : A) : M A := fun t => (Ok a, t).

Definition bind {A B : Type} (m : M A) (f : A -> M B) : M B :=
  fun t =>
    match m t with
    | (Ok a, t') => f a t'
    | (Raise e, t') => (Raise e, t')
    end.

Declare Scope py_scope.
Delimit Scope py_scope with py.
Notation "x <- m ;; k" := (bind m (fun x => k))
  (at level 61, m at next level, right associativity) : py_scope.
Notation "m ;; k" := (bind m (fun _ => k))
  (at level 61, right associativity) : py_scope.

(** An expression over [self.data]. *)
Definition eval {A : Type} (f : value -> result A) : M A :=
  fun t => (f (data t), t).

(** A statement that mutates [self.data]. *)
Definition exec (f : value -> result value) : M unit :=
  fun t =>
    match f (data t) with
    | Ok d => (Ok tt, set_data d t)
    | Raise e => (Raise e, t)
    end.

Definition when (b : bool) (m : M unit) : M unit :=
  if b then m else ret tt.

Local Open Scope py_scope.

(** ** The accounting store: [record_time] and [manual_time_entry] *)

(** [any(excluded in app_name.lower() for excluded in excluded_apps)] *)
Definition is_excluded (c : config) (app_name : string) : bool :=
  existsb (fun excluded => str_in excluded (lower app_name)) (excluded_apps c).

(** [self.unknown_apps.add(app_name)] on a set kept as a list. *)
Definition set_add (x : string) (l : list string) : list string :=
  if existsb (String.eqb x) l then l else (l ++ [x])%list.

(** [TimeTracker.log_unknown_app] *)
Definition log_unknown_app (app_name : string) : M unit :=
  fun t =>
    if categorize_app (cfg t) app_name =? "Other"
    then (Ok tt, set_unknown_apps (set_add app_name (unknown_apps t)) t)
    else (Ok tt, t).

(** The bucket literal of [record_time]:
    [{"total_seconds": 0, "apps": {}, "projects": {} if project else None}] *)
Definition new_bucket (project : option string) : value :=
  VDict [("total_seconds", VNum 0);
         ("apps", VDict []);
         ("projects", if truthy project then VDict [] else VNone)].

(** The bucket literal of [manual_time_entry]. *)
Definition manual_bucket : value :=
  VDict [("total_seconds", VNum 0); ("apps", VDict []); ("projects", VDict [])].

(** [record_time] and [manual_time_entry] share three runs of statements,
    written out once here.

    "Initialize data structure":
    [if date not in self.data: self.data[date] = {}] and
    [if category not in self.data[date]: self.data[date][category] = bucket] *)
Definition ensure_bucket (date category : string) (bucket : value) : M unit :=
  has_date <- eval (py_contains date) ;;
  when (negb has_date) (exec (assign [] date (VDict []))) ;;
  has_category <- eval (contains_at [date] category) ;;
  when (negb has_category) (exec (assign [date] category bucket)).

(** "Add time": the app's entry is created at 0 when missing, then
    [apps[app_name] += duration_seconds] and
    [total_seconds += duration_seconds], in this order. *)
Definition add_app_time (date category app_name : string) (duration_seconds : Q)
  : M unit :=
  has_app <- eval (contains_at [date; category; "apps"] app_name) ;;
  when (negb has_app)
    (exec (assign [date; category; "apps"] app_name (VNum 0))) ;;
  exec (aug_assign [date; category; "apps"] app_name duration_seconds) ;;
  exec (aug_assign [date; category] "total_seconds" duration_seconds).

(** [if project not in ...["projects"]: ...["projects"][project] = 0] and
    [...["projects"][project] += duration_seconds] *)
Definition add_project_time (date category project : string)
  (duration_seconds : Q) : M unit :=
  has_project <- eval (contains_at [date; category; "projects"] project) ;;
  when (negb has_project)
    (exec (assign [date; category; "projects"] project (VNum 0))) ;;
  exec (aug_assign [date; category; "projects"] project duration_seconds).

(** "Track by project if specified":
    [if project and "projects" in self.data[today][category]: ...] *)
Definition track_project (today category : string) (project : option string)
  (duration_seconds : Q) : M unit :=
  match project with
  | Some p =>
      if p =? "" then ret tt
      else
        has_projects <- eval (contains_at [today; category] "projects") ;;
        when has_projects (add_project_time today category p duration_seconds)
  | None => ret tt
  end.

(** [TimeTracker.record_time]; [today] is what
    [datetime.now().strftime("%Y-%m-%d")] returns during the call. *)
Definition record_time (today app_name : string) (duration_seconds : Q)
  (project : option string) : M unit :=
  fun t =>
    if is_excluded (cfg t) app_name then (Ok tt, t)
    else
      (let category := categorize_app (cfg t) app_name in
       log_unknown_app app_name ;;
       ensure_bucket today category (new_bucket project) ;;
       add_app_time today category app_name duration_seconds ;;
       track_project today category project duration_seconds) t.

(** [TimeTracker.save_data]: the file holds the JSON document of
    [self.data]. *)
Definition save_data : M unit :=
  fun t => (Ok tt, set_data_file (Some (data t)) t).

(** [TimeTracker.manual_time_entry]; [today] is used when [date] is
    [None]. *)
Definition manual_time_entry (today app_name category : string)
  (duration_minutes : Q) (project : option string) (date : option string)
  : M unit :=
  let date := match date with Some d => d | None => today end in
  ensure_bucket date category manual_bucket ;;
  let duration_seconds := duration_minutes * 60 in
  add_app_time date category app_name duration_seconds ;;
  (* if project: *)
  match project with
  | Some p =>
      if p =? "" then ret tt
      else add_project_time date category p duration_seconds
  | None => ret tt
  end ;;
  save_data.

(** What [TimeTracker.__init__] leaves in a tracker whose data file does
    not exist yet. *)
Definition fresh_ledger : value :=
  VDict [("current", VNum 0); ("longest", VNum 0); ("last_date", VNone)].

Definition fresh_data : value := VDict [("streaks", fresh_ledger)].

Definition init (c : config) (threshold : Q) : tracker :=
  mkTracker fresh_data c None None threshold false None false [] None.

(** ** Streaks: [update_streaks] *)

(** The [for category, goal_hours in goals.items()] loop of
    [update_streaks] with its [break]; the result is [goals_met]. *)
Fixpoint goals_met_loop (goal_items : list (string * Q))
  (productive : list string) (yesterday : string) (d : value) : result bool :=
  match goal_items with
  | [] => Ok true
  | (category, goal_hours) :: rest =>
      if existsb (String.eqb category) productive then
        let* day := py_getitem d yesterday in
        let* bucket := py_get day category (VDict []) in
        let* seconds := py_get bucket "total_seconds" (VNum 0) in
        let* q := as_number seconds in
        let actual_hours := q / 3600 in
        if Qltb actual_hours goal_hours then Ok false
        else goals_met_loop rest productive yesterday d
      else goals_met_loop rest productive yesterday d
  end.

(** [TimeTracker.update_streaks]; [today] and [yesterday] are the two
    formatted dates computed from [datetime.now()]. *)
Definition update_streaks (today yesterday : string) : M unit :=
  last_date <-
    eval (fun d => let* s := py_getitem d "streaks" in
                   py_get s "last_date" VNone) ;;
  if negb (is_str today last_date) then
    has_yesterday <- eval (py_contains yesterday) ;;
    if has_yesterday then
      goals_met <-
        (fun t => eval (goals_met_loop (goals (cfg t))
                          (productive_categories (cfg t)) yesterday) t) ;;
      (if goals_met then
         (if is_str yesterday last_date
          then exec (aug_assign ["streaks"] "current" 1)
          else exec (assign ["streaks"] "current" (VNum 1))) ;;
         record <-
           eval (fun d => let* c := get_path ["streaks"; "current"] d in
                          let* l := get_path ["streaks"; "longest"] d in
                          py_gt c l) ;;
         when record
           (c <- eval (get_path ["streaks"; "current"]) ;;
            exec (assign ["streaks"] "longest" c))
       else
         _ <- eval (fun d => let* c := get_path ["streaks"; "current"] d in
                             py_gt c (VNum 0)) ;;
         exec (assign ["streaks"] "current" (VNum 0))) ;;
      exec (assign ["streaks"] "last_date" (VStr today)) ;;
      save_data
    else ret tt
  else ret tt.

(** ** Read-side aggregations over the date keys *)

Fixpoint insert_sorted (x : string) (l : list string) : list string :=
  match l with
  | [] => [x]
  | y :: l' => if String.leb x y then x :: l else y :: insert_sorted x l'
  end.

(** [sorted(keys)] *)
Definition sorted (l : list string) : list string :=
  fold_right insert_sorted [] l.

(** A row of the CSV file: date, category, app, hours. *)
Definition row : Type := (string * string * string * Q)%type.

(** An operation that writes rows one by one: the rows written, and how
    it ended. *)
Definition written (r : list row * result unit) (more : list row * result unit)
  : list row * result unit :=
  match r with
  | (rows, Ok _) => ((rows ++ fst more)%list, snd more)
  | (rows, Raise e) => (rows, Raise e)
  end.

Fixpoint export_apps (date category : string) (apps : list (string * value))
  : list row * result unit :=
  match apps with
  | [] => ([], Ok tt)
  | (app, seconds) :: rest =>
      match as_number seconds with
      | Ok q =>
          written ([(date, category, app, q / 3600)], Ok tt)
                  (export_apps date category rest)
      | Raise e => ([], Raise e)
      end
  end.

Fixpoint export_categories (date : string) (cats : list (string * value))
  : list row * result unit :=
  match cats with
  | [] => ([], Ok tt)
  | (category, bucket) :: rest =>
      match (let* apps := py_getitem bucket "apps" in py_items apps) with
      | Ok apps =>
          written (export_apps date category apps)
                  (export_categories date rest)
      | Raise e => ([], Raise e)
      end
  end.

Fixpoint export_dates (d : value) (dates : list string)
  : list row * result unit :=
  match dates with
  | [] => ([], Ok tt)
  | date :: rest =>
      match (let* day := py_getitem d date in py_items day) with
      | Ok cats =>
          written (export_categories date cats) (export_dates d rest)
      | Raise e => ([], Raise e)
      end
  end.

(** [TimeTracker.export_csv]: the rows written after the header row, and
    whether the method returned or raised. *)
Definition export_csv (t : tracker) : list row * result unit :=
  match py_keys (data t) with
  | Ok keys => export_dates (data t) (sorted keys)
  | Raise e => ([], Raise e)
  end.

(** [sum(self.data[date].get(cat, {}).get("total_seconds", 0) for cat in cats)] *)
Fixpoint sum_categories (d : value) (date : string) (cats : list string)
  : result Q :=
  match cats with
  | [] => Ok 0
  | cat :: rest =>
      let* day := py_getitem d date in
      let* bucket := py_get day cat (VDict []) in
      let* seconds := py_get bucket "total_seconds" (VNum 0) in
      let* q := as_number seconds in
      let* more := sum_categories d date rest in
      Ok (q + more)
  end.

(** [sum(data["total_seconds"] for data in self.data[date].values())] *)
Fixpoint sum_totals (buckets : list value) : result Q :=
  match buckets with
  | [] => Ok 0
  | bucket :: rest =>
      let* seconds := py_getitem bucket "total_seconds" in
      let* q := as_number seconds in
      let* more := sum_totals rest in
      Ok (q + more)
  end.

Definition day_total (d : value) (date : string) : result Q :=
  let* day := py_getitem d date in
  let* buckets := py_values day in
  sum_totals buckets.

(** [l[-n:]] *)
Definition last_n {A : Type} (n : nat) (l : list A) : list A :=
  skipn (length l - n) l.

(** The per-date figures of [display_insights]: productive, unproductive
    and total hours of each of the last seven keys. *)
Fixpoint insights_dates (d : value) (dates : list string)
  : result (list (Q * Q * Q)) :=
  match dates with
  | [] => Ok []
  | date :: rest =>
      let* prod_time := sum_categories d date ["Coding"; "Productivity"] in
      let* unprod_time := sum_categories d date ["Entertainment"] in
      let* total_time := day_total d date in
      let* more := insights_dates d rest in
      Ok ((prod_time / 3600, unprod_time / 3600, total_time / 3600) :: more)
  end.

(** [TimeTracker.display_insights] up to the figures it prints for the
    last seven keys; [None] is the early return on an empty store. *)
Definition display_insights (t : tracker)
  : result (option (list (Q * Q * Q))) :=
  if negb (py_truthy (data t)) then Ok None
  else
    let* keys := py_keys (data t) in
    let dates := last_n 7 (sorted keys) in
    let* figures := insights_dates (data t) dates in
    Ok (Some figures).

Fixpoint previous_days (d : value) (dates : list string)
  : result (list (string * Q * list string)) :=
  match dates with
  | [] => Ok []
  | date :: rest =>
      let* total_seconds := day_total d date in
      let* day := py_getitem d date in
      let* categories := py_keys day in
      let* more := previous_days d rest in
      Ok ((date, total_seconds / 3600, categories) :: more)
  end.

(** [TimeTracker.list_previous_days]: the lines it prints.  The keys of a
    dictionary are distinct, so [sorted(..., reverse=True)] is the
    reversed sorted list. *)
Definition list_previous_days (num_days : nat) (t : tracker)
  : result (list (string * Q * list string)) :=
  let* keys := py_keys (data t) in
  let dates := firstn num_days (rev (sorted keys)) in
  previous_days (data t) dates.

(** ** The sampling loops *)

(** What one iteration of a loop reads from its environment. *)
Record sample : Type := mkSample {
  now : Q;                        (* time.time() *)
  today : string;                 (* datetime.now().strftime("%Y-%m-%d") *)
  idle_probe : result Q;          (* self.get_idle_time() *)
  window_probe : result string    (* self.get_active_window() *)
}.

Definition probe {A : Type} (r : result A) : M A := fun t => (r, t).

Definition get {A : Type} (f : tracker -> A) : M A := fun t => (Ok (f t), t).

Definition modify (f : tracker -> tracker) : M unit := fun t => (Ok tt, f t).

(** [TimeTracker.is_app_blocked] *)
Definition is_app_blocked (t : tracker) (app_name : string) : bool :=
  if negb (focus_mode t) then false
  else any_in (focus_mode_blocked (cfg t)) (lower app_name).

(** [self.current_app == app] *)
Definition is_current (t : tracker) (app : string) : bool :=
  match current_app t with
  | Some a => a =? app
  | None => false
  end.

(** [time.time() - self.start_time] *)
Definition elapsed_since_start (s : sample) : M Q :=
  fun t =>
    match start_time t with
    | Some t0 => (Ok (now s - t0), t)
    | None => (Raise TypeError, t)
    end.

(** The flush of the current app before a switch and in [stop_tracking]:
    [if self.current_app: elapsed = ...; self.record_time(...)] with the
    given way of computing [elapsed]. *)
Definition flush_current (elapsed : M Q) (s : sample) : M unit :=
  fun t =>
    match current_app t with
    | Some a =>
        if a =? "" then (Ok tt, t)
        else (e <- elapsed ;;
              record_time (today s) a e (current_project t)) t
    | None => (Ok tt, t)
    end.

(** [TimeTracker.stop_tracking] *)
Definition stop_tracking (s : sample) : M unit :=
  flush_current (elapsed_since_start s) s ;;
  save_data.

(** The body of [while True] in [TimeTracker.run]. *)
Definition run_iteration (check_interval : Q) (s : sample) : M unit :=
  fun t =>
    if is_paused t then (Ok tt, t)
    else
      (idle_time <- probe (idle_probe s) ;;
       threshold <- get idle_threshold ;;
       if Qltb idle_time threshold then
         app <- probe (window_probe s) ;;
         if (negb (app =? "") && negb (app =? "Unknown"))%bool then
           blocked <- get (fun t => is_app_blocked t app) ;;
           if blocked then ret tt
           else
             same <- get (fun t => is_current t app) ;;
             if same then
               elapsed <- elapsed_since_start s ;;
               when (Qle_bool check_interval elapsed)
                 (project <- get current_project ;;
                  record_time (today s) app elapsed project ;;
                  modify (set_start_time (Some (now s))) ;;
                  save_data)
             else
               flush_current (elapsed_since_start s) s ;;
               modify (set_session (Some app) (Some (now s)))
         else ret tt
       else
         tracking <- get (fun t => truthy (current_app t)) ;;
         when tracking (modify (set_session None None))) t.

(** What happens around the loop of [TimeTracker.run]: samples taken by
    the loop, the tray menu toggling [is_paused] from its thread, and
    Ctrl-C. *)
Inductive event : Type :=
| Tick (s : sample)
| TogglePause
| CtrlC (s : sample).

(** [TimeTracker.run] from the first iteration on.  The loop sits in a
    [try] whose only handler is [except KeyboardInterrupt], which calls
    [stop_tracking]; any other exception leaves [run].  The end of the
    list is the end of the observation, with the loop still running. *)
Fixpoint run (check_interval : Q) (events : list event) : M unit :=
  match events with
  | [] => ret tt
  | Tick s :: rest => run_iteration check_interval s ;; run check_interval rest
  | TogglePause :: rest =>
      modify (fun t => set_is_paused (negb (is_paused t)) t) ;;
      run check_interval rest
  | CtrlC s :: _ => stop_tracking s
  end.

(** [get_current_elapsed_time], attached to [TimeTracker] by
    [gui_tracker.py]. *)
Definition get_current_elapsed_time (s : sample) : M Q :=
  fun t =>
    match start_time t with
    | Some t0 => if Qeq_bool t0 0 then (Ok 0, t) else (Ok (now s - t0), t)
    | None => (Ok 0, t)
    end.

(** The [try] block inside [while self.is_tracking] of
    [TimeTrackerGUI.run_tracker]. *)
Definition run_tracker_body (s : sample) : M unit :=
  idle_time <- probe (idle_probe s) ;;
  threshold <- get idle_threshold ;;
  if Qltb idle_time threshold then
    app <- probe (window_probe s) ;;
    if (negb (app =? "") && negb (app =? "Unknown"))%bool then
      blocked <- get (fun t => is_app_blocked t app) ;;
      if blocked then ret tt
      else
        same <- get (fun t => is_current t app) ;;
        if same then
          elapsed <- get_current_elapsed_time s ;;
          when (Qle_bool 5 elapsed)
            (project <- get current_project ;;
             record_time (today s) app elapsed project ;;
             modify (set_start_time (Some (now s))) ;;
             save_data)
        else
          flush_current (get_current_elapsed_time s) s ;;
          modify (set_session (Some app) (Some (now s)))
    else ret tt
  else
    tracking <- get (fun t => truthy (current_app t)) ;;
    when tracking (modify (set_session None None)).

(** The GUI object as far as the loop uses it: the tracker, and the
    errors the loop logged ([logger.error], [self.last_error]). *)
Record gui : Type := mkGui {
  tracker_of : tracker;
  last_error : option exn;
  logged : list exn
}.

(** One iteration of [while self.is_tracking]: the body under
    [except Exception as e], which logs and goes on. *)
Definition run_tracker_iteration (s : sample) (g : gui) : gui :=
  match run_tracker_body s (tracker_of g) with
  | (Ok _, t') => mkGui t' (last_error g) (logged g)
  | (Raise e, t') => mkGui t' (Some e) (logged g ++ [e])%list
  end.

(** [TimeTrackerGUI.run_tracker] for the iterations made while
    [self.is_tracking] holds. *)
Definition run_tracker (samples : list sample) (g : gui) : gui :=
  fold_left (fun g s => run_tracker_iteration s g) samples
    (mkGui (set_is_paused false (tracker_of g)) (last_error g) (logged g)).

(** ** Properties of stores *)

(** [bucket["total_seconds"]] and [sum(bucket["apps"].values())] *)
Definition bucket_total (b : value) : result Q :=
  let* seconds := py_getitem b "total_seconds" in
  as_number seconds.

Definition bucket_apps_sum (b : value) : result Q :=
  let* apps := py_getitem b "apps" in
  let* seconds := py_values apps in
  py_sum seconds.

(** The accounting invariant of a category bucket of rationals:
    [total_seconds == sum(apps.values())]. *)
Definition conserved (b : value) : Prop :=
  exists total sum,
    bucket_total b = Ok total /\ bucket_apps_sum b = Ok sum /\ total == sum.

(** A day record all of whose buckets satisfy the invariant. *)
Definition good_day (day : value) : Prop :=
  exists cats, day = VDict cats /\ Forall (fun kv => conserved (snd kv)) cats.

(** A store in which every entry other than the streak ledger is such a
    day record. *)
Definition store_inv (d : value) : Prop :=
  exists entries,
    d = VDict entries /\
    Forall (fun kv => fst kv <> "streaks" -> good_day (snd kv)) entries.

(** [d] with the value found along the path [p] replaced by [c]. *)
Fixpoint plug (p : list string) (c : value) (d : value) : value :=
  match p with
  | [] => c
  | k :: p' =>
      match d with
      | VDict entries =>
          match dict_get k entries with
          | Some child => VDict (dict_set k (plug p' c child) entries)
          | None => d
          end
      | _ => d
      end
  end.

(** What [add_app_time] does to the bucket it addresses, when nothing
    raises. *)
Definition bucket_add_app (app_name : string) (x : Q) (b : value)
  : result value :=
  let* has_app := contains_at ["apps"] app_name b in
  let* b1 := (if has_app then Ok b else assign ["apps"] app_name (VNum 0) b) in
  let* b2 := aug_assign ["apps"] app_name x b1 in
  aug_assign [] "total_seconds" x b2.

(** [apps.get(app_name, 0)] of a bucket, as a number. *)
Definition app_seconds (app_name : string) (b : value) : result Q :=
  let* apps := py_getitem b "apps" in
  let* seconds := py_get apps app_name (VNum 0) in
  as_number seconds.

(** A method keeps a property of [self.data], whether it returns or
    raises. *)
Definition preserves (P : value -> Prop) {A : Type} (m : M A) : Prop :=
  forall t, P (data t) -> P (data (snd (m t))).

(** [pattern] is a case-insensitive substring of [app_id]. *)
Definition ci_substring (pattern app_id : string) : bool :=
  str_in (lower pattern) (lower app_id).

(** ** Example configurations and stores *)

(** The default configuration written by [load_config]. *)
Definition default_config : config :=
  mkConfig [("Coding", 4); ("Entertainment", 2)] [] []
    ["facebook"; "twitter"; "instagram"; "tiktok"; "youtube"; "netflix";
     "game"]
    ["Coding"; "Productivity"; "Education"].

Definition with_custom_rules (rules : list (string * string)) (c : config)
  : config :=
  mkConfig (goals c) rules (excluded_apps c) (focus_mode_blocked c)
    (productive_categories c).

Definition with_excluded_apps (patterns : list string) (c : config) : config :=
  mkConfig (goals c) (custom_categories c) patterns (focus_mode_blocked c)
    (productive_categories c).


(** [self.data[today][category]["projects"]] *)
Definition projects_field (today category : string) (d : value)
  : result value :=
  get_path [today; category; "projects"] d.

Definition is_mapping (v : value) : Prop := exists d, v = VDict d.

(** The tracker after a first sample of vim, in which the Coding bucket
    of 2024-01-02 was created without a project. *)
Definition example_tracker : tracker :=
  Eval vm_compute in
    snd (record_time "2024-01-02" "vim" 5 None (init default_config 300)).

(** [app_id] matches some pattern of the excluded-apps list under
    case-insensitive substring matching. *)
Definition matches_exclusion (c : config) (app_id : string) : bool :=
  existsb (fun pattern => ci_substring pattern app_id) (excluded_apps c).

(** A tracker whose user excluded "Steam" in the settings. *)
Definition steam_tracker : tracker :=
  init (with_excluded_apps ["Steam"] default_config) 300.

Definition set_current_project (p : option string) (t : tracker) : tracker :=
  mkTracker (data t) (cfg t) (current_app t) (start_time t)
    (idle_threshold t) (is_paused t) p (focus_mode t)
    (unknown_apps t) (data_file t).

(** A sample at time [n] on 2024-01-02 with [i] idle seconds and window
    title [w]. *)
Definition sample_at (n : Q) (w : string) (i : Q) : sample :=
  mkSample n "2024-01-02" (Ok i) (Ok w).

(** [example_tracker] after the user chose the project "thesis": the
    Coding bucket of the day exists and has no projects dictionary. *)
Definition thesis_tracker : tracker :=
  set_current_project (Some "thesis") example_tracker.

Definition thesis_samples : list sample :=
  [sample_at 100 "vim" 0; sample_at 105 "vim" 0;
   sample_at 110 "vim" 400; sample_at 115 "chrome.exe" 0].

(** A session in which tracking is paused from the tray menu between the
    samples at 105 and 605 seconds. *)
Definition paused_session : list event :=
  [Tick (sample_at 100 "vim" 0); Tick (sample_at 105 "vim" 0);
   TogglePause;
   Tick (sample_at 110 "vim" 0); Tick (sample_at 600 "vim" 0);
   TogglePause;
   Tick (sample_at 605 "vim" 0)].

(** The sentence of the specification about idle ticks, for a loop body
    [iteration]: on a tick with at least [idle_threshold] idle seconds
    while an app is tracked, the store becomes what one [record_time] call
    with the time elapsed since [start_time] makes of it, and
    [current_app] becomes [None]. *)
Definition flushes_on_idle (iteration : sample -> M unit) : Prop :=
  forall (t : tracker) (s : sample) (idle : Q) (app : string) (t0 : Q),
    is_paused t = false ->
    idle_probe s = Ok idle -> idle_threshold t <= idle ->
    current_app t = Some app -> app <> "" -> start_time t = Some t0 ->
    let flushed :=
      snd (record_time (today s) app (now s - t0) (current_project t) t) in
    let t' := snd (iteration s t) in
    data t' = data flushed /\ current_app t' = None.

(** A sample taken when the user has been idle for at least [threshold]
    seconds. *)
Definition idle_sample (threshold : Q) (s : sample) : Prop :=
  exists idle, idle_probe s = Ok idle /\ threshold <= idle.

(** What the idle branch of both loops does to the tracker. *)
Definition idle_state (t : tracker) : tracker :=
  if truthy (current_app t) then set_session None None t else t.

(** A fresh tracker that has been on "vim" since 100 seconds. *)
Definition vim_tracker : tracker :=
  set_session (Some "vim") (Some 100) (init default_config 300).

(** Yesterday has no recorded data at all: there is no day record, or it
    is empty. *)
Definition no_data (yesterday : string) (d : value) : Prop :=
  py_contains yesterday d = Ok false \/ get_path [yesterday] d = Ok (VDict []).

(** The sentence of the specification about a goal without data: when
    [update_streaks] runs with [last_date != today], a productive category
    has a goal and yesterday has no data, the current streak is reset to
    0. *)
Definition resets_streak_without_data : Prop :=
  forall (t : tracker) (today yesterday category : string) (goal_hours : Q)
         (last_date : value),
    get_path ["streaks"; "last_date"] (data t) = Ok last_date ->
    is_str today last_date = false ->
    In (category, goal_hours) (goals (cfg t)) ->
    In category (productive_categories (cfg t)) ->
    no_data yesterday (data t) ->
    get_path ["streaks"; "current"]
      (data (snd (update_streaks today yesterday t)))
    = Ok (VNum 0).

Definition coding_day : value :=
  VDict [("Coding",
          VDict [("total_seconds", VNum 18000);
                 ("apps", VDict [("vim", VNum 18000)]);
                 ("projects", VNone)])].

Definition browsing_day : value :=
  VDict [("Browsing",
          VDict [("total_seconds", VNum 600);
                 ("apps", VDict [("chrome.exe", VNum 600)]);
                 ("projects", VNone)])].

(** A three-day streak reached on 2024-01-01, and nothing tracked since. *)
Definition gap_tracker : tracker :=
  set_data
    (VDict [("streaks",
             VDict [("current", VNum 3); ("longest", VNum 5);
                    ("last_date", VStr "2024-01-01")]);
            ("2024-01-01", coding_day)])
    (init default_config 300).

(** The same streak, with a day of browsing on 2024-01-02. *)
Definition browsing_tracker : tracker :=
  set_data
    (VDict [("streaks",
             VDict [("current", VNum 3); ("longest", VNum 5);
                    ("last_date", VStr "2024-01-02")]);
            ("2024-01-01", coding_day);
            ("2024-01-02", browsing_day)])
    (init default_config 300).

(** A tracker whose only goal is 0 hours of Coding, with a day of
    browsing on 2024-01-02. *)
Definition zero_goal_tracker : tracker :=
  mkTracker (data browsing_tracker)
    (mkConfig [("Coding", 0)] [] [] [] ["Coding"])
    None None 300 false None false [] None.

(** ** Further properties of the store and the loops *)

(** [self.data[date][category]["apps"].get(app_name, 0)] and
    [self.data[date][category]["total_seconds"]], read as 0 where the
    store has no such bucket. *)
Definition app_seconds_at (date category app_name : string) (d : value) : Q :=
  match get_path [date; category] d with
  | Ok b => match app_seconds app_name b with Ok q => q | Raise _ => 0 end
  | Raise _ => 0
  end.

Definition total_seconds_at (date category : string) (d : value) : Q :=
  match get_path [date; category] d with
  | Ok b => match bucket_total b with Ok q => q | Raise _ => 0 end
  | Raise _ => 0
  end.

(** A method keeps a field (or any view) of the tracker, whether it
    returns or raises. *)
Definition keeps {V A : Type} (view : tracker -> V) (m : M A) : Prop :=
  forall t, view (snd (m t)) = view t.

(** The session variables of the tracker and its settings: everything but
    the store, the set of unknown apps and the data file. *)
Definition session (t : tracker)
  : option string * option Q * Q * bool * option string * bool * config :=
  (current_app t, start_time t, idle_threshold t, is_paused t,
   current_project t, focus_mode t, cfg t).

(** A sample that the loops skip in the state [t]: the user is active and
    the window is unknown, or blocked in focus mode. *)
Definition skipped_sample (t : tracker) (s : sample) : Prop :=
  exists idle app,
    idle_probe s = Ok idle /\ Qltb idle (idle_threshold t) = true /\
    window_probe s = Ok app /\
    (app = "" \/ app = "Unknown" \/ is_app_blocked t app = true).

(** [vim_tracker] in focus mode. *)
Definition focus_tracker : tracker :=
  mkTracker (data vim_tracker) (cfg vim_tracker) (current_app vim_tracker)
    (start_time vim_tracker) (idle_threshold vim_tracker) false None true
    [] None.

(** [self.data["streaks"][k]] read as a number. *)
Definition ledger_number (k : string) (d : value) : result Q :=
  let* v := get_path ["streaks"; k] d in
  as_number v.

(** [TimeTrackerGUI.stop_tracking], on the tracker: [is_paused] is set and
    [TimeTracker.stop_tracking] is called; [s] holds the clock and the
    date it reads. *)
Definition gui_stop_tracking (s : sample) : M unit :=
  modify (set_is_paused true) ;;
  stop_tracking s.

(** The streak ledger with the three keys [__init__] gives it. *)
Definition ledger_of (current longest last_date : value) : value :=
  VDict [("current", current); ("longest", longest);
         ("last_date", last_date)].

(** ** The settings tab of the GUI: [TimeTrackerGUI.save_settings] *)

(** [c.isspace()] for an ASCII character. *)
Definition is_space (c : ascii) : bool :=
  let n := N_of_ascii c in
  ((9 <=? n) && (n <=? 13) || (28 <=? n) && (n <=? 32))%N%bool.

Fixpoint lstrip (s : string) : string :=
  match s with
  | EmptyString => EmptyString
  | String c s' => if is_space c then lstrip s' else s
  end.

Fixpoint rstrip (s : string) : string :=
  match s with
  | EmptyString => EmptyString
  | String c s' =>
      match rstrip s' with
      | EmptyString => if is_space c then EmptyString else String c EmptyString
      | r => String c r
      end
  end.

(** [s.strip()] *)
Definition strip (s : string) : string := rstrip (lstrip s).

(** [s.split(sep)] for a separator of one character. *)
Fixpoint split_on (sep : ascii) (s : string) : list string :=
  match s with
  | EmptyString => [EmptyString]
  | String c s' =>
      if Ascii.eqb c sep then EmptyString :: split_on sep s'
      else
        match split_on sep s' with
        | h :: rest => String c h :: rest
        | [] => [String c EmptyString]
        end
  end.

Definition set_idle_threshold (threshold : Q) (t : tracker) : tracker :=
  mkTracker (data t) (cfg t) (current_app t) (start_time t) threshold
    (is_paused t) (current_project t) (focus_mode t) (unknown_apps t)
    (data_file t).

Definition set_cfg (c : config) (t : tracker) : tracker :=
  mkTracker (data t) c (current_app t) (start_time t) (idle_threshold t)
    (is_paused t) (current_project t) (focus_mode t) (unknown_apps t)
    (data_file t).

(** The list stored under ["excluded_apps"] for the text of the entry. *)
Definition parse_excluded (excluded_entry : string) : list string :=
  let excluded_text := strip excluded_entry in
  if excluded_text =? "" then []
  else map strip (split_on "," excluded_text).

(** [TimeTrackerGUI.save_settings] on the tracker.  [idle_entry] and
    [break_entry] are what [int(...)] makes of the two number entries,
    [None] when it raises [ValueError]; the handler of [ValueError] keeps
    what was assigned before. *)
Definition save_settings (idle_entry break_entry : option Z)
  (excluded_entry : string) (t : tracker) : tracker :=
  match idle_entry with
  | None => t
  | Some idle =>
      let t1 := set_idle_threshold (inject_Z idle) t in
      match break_entry with
      | None => t1
      | Some _ =>
          set_cfg (with_excluded_apps (parse_excluded excluded_entry) (cfg t1))
            t1
      end
  end.

(** ** The analytics tab of the GUI: [TimeTrackerGUI.update_analytics] *)

(** The dictionaries [category_totals] and [app_totals]. *)
Definition totals : Type := list (string * Q).

(** [m[k] = m.get(k, 0) + x] *)
Fixpoint totals_add (k : string) (x : Q) (m : totals) : totals :=
  match m with
  | [] => [(k, 0 + x)]
  | (k', y) :: m' =>
      if k' =? k then (k', y + x) :: m' else (k', y) :: totals_add k x m'
  end.

(** The four accumulators of the aggregation loop. *)
Record analytics : Type := mkAnalytics {
  total_seconds_of : Q;
  category_totals_of : totals;
  app_totals_of : totals;
  productive_seconds_of : Q
}.

(** [for app, app_secs in cat_data.get("apps", {}).items()] *)
Fixpoint analytics_apps (apps : list (string * value)) (app_totals : totals)
  : result totals :=
  match apps with
  | [] => Ok app_totals
  | (app, app_secs) :: rest =>
      let* q := as_number app_secs in
      analytics_apps rest (totals_add app q app_totals)
  end.

(** [for category, cat_data in self.tracker.data[date].items()] *)
Fixpoint analytics_categories (productive : list string)
  (cats : list (string * value)) (a : analytics) : result analytics :=
  match cats with
  | [] => Ok a
  | (category, cat_data) :: rest =>
      if category =? "streaks" then analytics_categories productive rest a
      else
        let* seconds := py_get cat_data "total_seconds" (VNum 0) in
        let* q := as_number seconds in
        let* apps := py_get cat_data "apps" (VDict []) in
        let* items := py_items apps in
        let* app_totals := analytics_apps items (app_totals_of a) in
        analytics_categories productive rest
          (mkAnalytics (total_seconds_of a + q)
             (totals_add category q (category_totals_of a))
             app_totals
             (if existsb (String.eqb category) productive
              then productive_seconds_of a + q
              else productive_seconds_of a))
  end.

(** [for date in dates] *)
Fixpoint analytics_dates (productive : list string) (d : value)
  (dates : list string) (a : analytics) : result analytics :=
  match dates with
  | [] => Ok a
  | date :: rest =>
      let* present := py_contains date d in
      if negb present then analytics_dates productive d rest a
      else
        let* day := py_getitem d date in
        let* cats := py_items day in
        let* a' := analytics_categories productive cats a in
        analytics_dates productive d rest a'
  end.

(** The aggregation of [update_analytics].  [range_dates] holds the dates
    computed from the clock for "Today", "Week" and "Month", and is
    [None] for "All Time", where the dates are the keys of the store.
    An exception is caught and logged by the method, which then shows
    nothing new. *)
Definition update_analytics (range_dates : option (list string)) (t : tracker)
  : result analytics :=
  let* dates := match range_dates with
                | Some dates => Ok dates
                | None => py_keys (data t)
                end in
  analytics_dates (productive_categories (cfg t)) (data t) dates
    (mkAnalytics 0 [] [] 0).

(** ** Goal notifications: [check_goal_notifications] *)

Inductive notification : Type :=
| GoalAchieved (category : string) (goal_hours : Q)
| LimitWarning (category : string) (current_hours goal_hours : Q).

(** [self.last_notification_time] by its keys, and the notifications
    that [send_notification] displayed, each with the key it was sent
    under. *)
Record notifier : Type := mkNotifier {
  last_notification_time : list string;
  shown : list (string * notification)
}.

(** [if notif_key not in self.last_notification_time:
       self.send_notification(...)
       self.last_notification_time[notif_key] = time.time()];
    [send_notification] displays nothing when [notifications_enabled] is
    off, and never raises. *)
Definition notify_once (enabled : bool) (notif_key : string)
  (m : notification) (n : notifier) : notifier :=
  if existsb (String.eqb notif_key) (last_notification_time n) then n
  else
    mkNotifier (last_notification_time n ++ [notif_key])%list
      (if enabled then (shown n ++ [(notif_key, m)])%list else shown n).

Definition goal_key (category today : string) : string :=
  "goal_" ++ category ++ "_" ++ today.

Definition warn_key (category today : string) : string :=
  "warn_" ++ category ++ "_" ++ today.

(** The loop over the goals; an exception leaves the method with the
    keys set so far. *)
Fixpoint goal_notifications (enabled : bool) (today : string) (d : value)
  (goal_items : list (string * Q)) (n : notifier) : result unit * notifier :=
  match goal_items with
  | [] => (Ok tt, n)
  | (category, goal_hours) :: rest =>
      match (let* day := py_getitem d today in py_contains category day) with
      | Raise e => (Raise e, n)
      | Ok false => goal_notifications enabled today d rest n
      | Ok true =>
          match (let* seconds :=
                   get_path [today; category; "total_seconds"] d in
                 as_number seconds) with
          | Raise e => (Raise e, n)
          | Ok seconds =>
              let current_hours := seconds / 3600 in
              let n1 :=
                if Qle_bool goal_hours current_hours
                then notify_once enabled (goal_key category today)
                       (GoalAchieved category goal_hours) n
                else n in
              let n2 :=
                if ((category =? "Entertainment") &&
                    Qltb (goal_hours * (3 # 2)) current_hours)%bool
                then notify_once enabled (warn_key category today)
                       (LimitWarning category current_hours goal_hours) n1
                else n1 in
              goal_notifications enabled today d rest n2
          end
      end
  end.

(** [TimeTracker.check_goal_notifications]; [enabled] is the
    [notifications_enabled] setting at the time of the call. *)
Definition check_goal_notifications (enabled : bool) (today : string)
  (t : tracker) (n : notifier) : result unit * notifier :=
  match py_contains today (data t) with
  | Raise e => (Raise e, n)
  | Ok false => (Ok tt, n)
  | Ok true => goal_notifications enabled today (data t) (goals (cfg t)) n
  end.

(** A series of calls made during the life of the tracker object, each
    with the setting, the date and the tracker of its moment. *)
Definition check_goals_repeatedly (calls : list (bool * string * tracker))
  (n : notifier) : notifier :=
  fold_left
    (fun n c =>
       snd (check_goal_notifications (fst (fst c)) (snd (fst c)) (snd c) n))
    calls n.

(** Every displayed key is remembered, and no key was displayed twice. *)
Definition notifier_ok (n : notifier) : Prop :=
  NoDup (map fst (shown n)) /\
  forall k, In k (map fst (shown n)) -> In k (last_notification_time n).

(** ** The e-mail report: [EmailReports.generate_csv_report] *)

(** The keys that the report modules take for fields of a day record
    rather than for categories. *)
Definition day_fields : list string :=
  ["date"; "session_duration"; "idle_time"; "projects"].

(** [for category, hours in day_data.items()]: the lines appended to
    [output], as date, category and hours. *)
Fixpoint report_categories (date : string) (cats : list (string * value))
  : result (list (string * string * Q)) :=
  match cats with
  | [] => Ok []
  | (category, hours) :: rest =>
      if existsb (String.eqb category) day_fields
      then report_categories date rest
      else
        let* positive := py_gt hours (VNum 0) in
        if positive then
          let* q := as_number hours in
          let* more := report_categories date rest in
          Ok ((date, category, q) :: more)
        else report_categories date rest
  end.

(** [for i in range(7)] over the dates computed from the clock. *)
Fixpoint report_days (d : value) (dates : list string)
  : result (list (string * string * Q)) :=
  match dates with
  | [] => Ok []
  | date :: rest =>
      let* day_data := py_get d date (VDict []) in
      let* cats := py_items day_data in
      let* lines := report_categories date cats in
      let* more := report_days d rest in
      Ok (lines ++ more)%list
  end.

(** [EmailReports.generate_csv_report]: the lines after the header, or
    [None], which the bare [except] returns. *)
Definition generate_csv_report (dates : list string) (t : tracker)
  : option (list (string * string * Q)) :=
  match report_days (data t) dates with
  | Ok lines => Some lines
  | Raise _ => None
  end.

(** The store has no category under [date]: no entry, or an entry whose
    keys are all among [day_fields]. *)
Definition no_categories (d : value) (date : string) : bool :=
  match get_path [date] d with
  | Ok (VDict cats) =>
      forallb (fun kv => existsb (String.eqb (fst kv)) day_fields) cats
  | _ => true
  end.

(** ** The shape of the store *)

(** A bucket: a dictionary with a number under "total_seconds" and,
    under "apps", a dictionary of numbers. *)
Definition bucket_shape (b : value) : Prop :=
  exists bd tv total apps,
    b = VDict bd /\
    dict_get "total_seconds" bd = Some tv /\ as_number tv = Ok total /\
    dict_get "apps" bd = Some (VDict apps) /\
    Forall (fun kv => exists q, as_number (snd kv) = Ok q) apps.

Definition day_shape (day : value) : Prop :=
  exists cats,
    day = VDict cats /\ Forall (fun kv => bucket_shape (snd kv)) cats.

(** A well-formed store: every entry other than the streak ledger is a
    day of such buckets. *)
Definition store_shape (d : value) : Prop :=
  exists entries,
    d = VDict entries /\
    Forall (fun kv => fst kv <> "streaks" -> day_shape (snd kv)) entries.

(** ** The daily report: [display_day] *)














(** [sum] of a list of numbers, from the right. *)
Definition qsum (l : list Q) : Q := fold_right Qplus 0 l.

(** A sample taken while the user is active in the window [app] on the
    date [date]. *)
Definition active_in (app date : string) (threshold : Q) (s : sample) : Prop :=
  today s = date /\ window_probe s = Ok app /\
  exists idle, idle_probe s = Ok idle /\ Qltb idle threshold = true.

(** A sample of the GUI loop that finds the user active in [app], at
    least five seconds after [t0]. *)
Definition due_in (app date : string) (threshold t0 : Q) (s : sample) : Prop :=
  active_in app date threshold s /\ Qle_bool 5 (now s - t0) = true.

(** The state [t'] is still in the tracking that [t] began: same session,
    [start_time] included, and a bucket without projects dictionary. *)
Definition stuck (date app : string) (t t' : tracker) : Prop :=
  store_inv (data t') /\ session t' = session t /\
  projects_field date (categorize_app (cfg t) app) (data t') = Ok VNone.

(** The sentences of the specification about a bucket whose projects
    field is [None], as they are worded: a call with a non-null project
    raises [TypeError], and a call returns only when the projects field
    is a mapping or the project is null. *)
Definition null_projects_raise : Prop :=
  forall (t : tracker) (today app_name project : string) (x : Q),
    projects_field today (categorize_app (cfg t) app_name) (data t)
    = Ok VNone ->
    fst (record_time today app_name x (Some project) t) = Raise TypeError.

Definition returns_only_with_mapping : Prop :=
  forall (t : tracker) (today app_name : string) (x : Q)
         (project : option string) (pv : value),
    projects_field today (categorize_app (cfg t) app_name) (data t) = Ok pv ->
    fst (record_time today app_name x project t) = Ok tt ->
    is_mapping pv \/ project = None.

(** * The accounting in Python's numbers *)

(** The store above holds rationals, which add exactly.  The durations
    that the tracking loops hand to [record_time] are differences of
    [time.time()] values: binary64 floats, whose sums are rounded, added
    to the integer 0 of a bucket literal; those of [manual_time_entry]
    are whatever number of minutes the caller gives, times 60.  This part
    embeds the two accounting methods again, on numbers that add as
    Python's do and on the buckets that the two methods build. *)
Module Accounting.
Import SpecFloat.

(** A Python number: an [int] or a [float] (IEEE 754 binary64). *)
Inductive number : Type :=
| PInt (z : Z)
| PFloat (f : spec_float).

Definition prec : Z := 53.
Definition emax : Z := 1024.

(** [float(z)]: the nearest float, ties to even.  Python raises
    [OverflowError] for an integer beyond the range of the floats, where
    this gives an infinity. *)
Definition float_of_int (z : Z) : spec_float :=
  binary_normalize prec emax z 0 false.

(** [x + y]: integers add exactly; an integer that meets a float is
    converted first. *)
Definition py_add (x y : number) : number :=
  match x, y with
  | PInt a, PInt b => PInt (a + b)
  | PInt a, PFloat g => PFloat (SFadd prec emax (float_of_int a) g)
  | PFloat f, PInt b => PFloat (SFadd prec emax f (float_of_int b))
  | PFloat f, PFloat g => PFloat (SFadd prec emax f g)
  end.

(** [x * 60] *)
Definition times60 (x : number) : number :=
  match x with
  | PInt a => PInt (a * 60)
  | PFloat f => PFloat (SFmul prec emax f (float_of_int 60))
  end.

(** [f == z] for a float and an integer, which Python compares by their
    exact values. *)
Definition float_eqb_int (f : spec_float) (z : Z) : bool :=
  match f with
  | S754_zero _ => (z =? 0)%Z
  | S754_finite s m e =>
      let v := if s then Z.neg m else Z.pos m in
      if (0 <=? e)%Z then (z =? v * 2 ^ e)%Z else (z * 2 ^ (- e) =? v)%Z
  | S754_infinity _ | S754_nan => false
  end.

(** [x == y] *)
Definition py_eqb (x y : number) : bool :=
  match x, y with
  | PInt a, PInt b => (a =? b)%Z
  | PInt a, PFloat g => float_eqb_int g a
  | PFloat f, PInt b => float_eqb_int f b
  | PFloat f, PFloat g => SFeqb f g
  end.

(** [sum(xs)]: from the integer 0, from left to right. *)
Definition py_sum (xs : list number) : number := fold_left py_add xs (PInt 0).

(** [m.get(k)] and [m[k] = x] on a dictionary in insertion order. *)
Fixpoint get {A : Type} (k : string) (m : list (string * A)) : option A :=
  match m with
  | [] => None
  | (k', x) :: m' => if k' =? k then Some x else get k m'
  end.

Fixpoint put {A : Type} (k : string) (x : A) (m : list (string * A))
  : list (string * A) :=
  match m with
  | [] => [(k, x)]
  | (k', y) :: m' => if k' =? k then (k', x) :: m' else (k', y) :: put k x m'
  end.

(** A bucket as the two methods create it: [projects] is [None] for the
    Python [None] that [record_time] stores when called without project. *)
Record bucket : Type := mkBucket {
  total_seconds : number;
  apps : list (string * number);
  projects : option (list (string * number))
}.

(** The days of [self.data], each a dictionary of buckets by category.
    The streak ledger, which the two methods never touch, is left out. *)
Definition store : Type := list (string * list (string * bucket)).

(** [self.data[date][category]], if both keys are there. *)
Definition bucket_at (date category : string) (s : store) : option bucket :=
  match get date s with
  | Some day => get category day
  | None => None
  end.

(** [self.data[date][category] = b], after
    [if date not in self.data: self.data[date] = {}]. *)
Definition put_bucket (date category : string) (b : bucket) (s : store)
  : store :=
  put date
    (put category b (match get date s with Some day => day | None => [] end))
    s.

(** [m.get(k, 0)] *)
Definition get0 (k : string) (m : list (string * number)) : number :=
  match get k m with
  | Some x => x
  | None => PInt 0
  end.

(** [if app_name not in apps: apps[app_name] = 0], then
    [apps[app_name] += duration_seconds] and
    [total_seconds += duration_seconds]. *)
Definition add_app_time (app_name : string) (duration_seconds : number)
  (b : bucket) : bucket :=
  mkBucket (py_add (total_seconds b) duration_seconds)
    (put app_name (py_add (get0 app_name (apps b)) duration_seconds) (apps b))
    (projects b).

(** [if project not in projects: projects[project] = 0] and
    [projects[project] += duration_seconds]; the membership test raises
    [TypeError] on [None]. *)
Definition add_project_time (project : string) (duration_seconds : number)
  (b : bucket) : result bucket :=
  match projects b with
  | None => Raise TypeError
  | Some ps =>
      Ok (mkBucket (total_seconds b) (apps b)
            (Some (put project (py_add (get0 project ps) duration_seconds)
                     ps)))
  end.

(** The statements that [record_time] and [manual_time_entry] have in
    common, from "Initialize data structure" to the end; [literal] is the
    bucket that the method creates where there is none.  The store is
    returned as the statements left it, also when the last one raised. *)
Definition account (date category app_name : string)
  (duration_seconds : number) (project : option string) (literal : bucket)
  (s : store) : result unit * store :=
  let b0 := match bucket_at date category s with
            | Some b => b
            | None => literal
            end in
  let b1 := add_app_time app_name duration_seconds b0 in
  let s1 := put_bucket date category b1 s in
  match project with
  | Some p =>
      if p =? "" then (Ok tt, s1)
      else
        match add_project_time p duration_seconds b1 with
        | Ok b2 => (Ok tt, put_bucket date category b2 s1)
        | Raise e => (Raise e, s1)
        end
  | None => (Ok tt, s1)
  end.

(** [{"total_seconds": 0, "apps": {}, "projects": {} if project else None}] *)
Definition new_bucket (project : option string) : bucket :=
  mkBucket (PInt 0) [] (if truthy project then Some [] else None).

(** [{"total_seconds": 0, "apps": {}, "projects": {}}] *)
Definition manual_bucket : bucket := mkBucket (PInt 0) [] (Some []).

(** The two tests that [record_time] makes on the name of the app:
    whether it is excluded, and [self.categorize_app(app_name)]. *)
Record tests : Type := mkTests {
  excluded : string -> bool;
  category_of : string -> string
}.

(** The tests of a tracker with the configuration [c]. *)
Definition tests_of (c : config) : tests :=
  mkTests (is_excluded c) (categorize_app c).

(** [TimeTracker.record_time], with the tests [c] of the tracker and the
    date [today] of the call.  The log of unknown apps, which is no part
    of the store, is left out. *)
Definition record_time (c : tests) (today app_name : string)
  (duration_seconds : number) (project : option string) (s : store)
  : result unit * store :=
  if excluded c app_name then (Ok tt, s)
  else
    account today (category_of c app_name) app_name duration_seconds
      project (new_bucket project) s.

(** [TimeTracker.manual_time_entry], up to [self.save_data()]. *)
Definition manual_time_entry (today app_name category : string)
  (duration_minutes : number) (project : option string)
  (date : option string) (s : store) : result unit * store :=
  let date := match date with Some d => d | None => today end in
  account date category app_name (times60 duration_minutes) project
    manual_bucket s.

Inductive call : Type :=
| Record (today app_name : string) (duration_seconds : number)
    (project : option string)
| Manual (today app_name category : string) (duration_minutes : number)
    (project : option string) (date : option string).

Definition do_call (c : tests) (k : call) (s : store)
  : result unit * store :=
  match k with
  | Record today app_name duration project =>
      record_time c today app_name duration project s
  | Manual today app_name category minutes project date =>
      manual_time_entry today app_name category minutes project date s
  end.

(** The store after a sequence of calls, whether they returned or raised. *)
Definition do_calls (c : tests) (calls : list call) (s : store) : store :=
  fold_left (fun s k => snd (do_call c k s)) calls s.


(** What a call enters in the accounts: the date, the category, the app
    and the seconds; nothing for an excluded app. *)
Definition entry_of (c : tests) (k : call)
  : option (string * string * string * number) :=
  match k with
  | Record today app_name duration _ =>
      if excluded c app_name then None
      else Some (today, category_of c app_name, app_name, duration)
  | Manual today app_name category minutes _ date =>
      Some (match date with Some d => d | None => today end, category,
            app_name, times60 minutes)
  end.

(** The seconds entered under a date and a category, and those entered
    there for one app, in the order of the calls. *)
Fixpoint recorded (c : tests) (date category : string) (calls : list call)
  : list number :=
  match calls with
  | [] => []
  | k :: rest =>
      match entry_of c k with
      | Some (d, cat, _, x) =>
          if ((d =? date) && (cat =? category))%bool
          then x :: recorded c date category rest
          else recorded c date category rest
      | None => recorded c date category rest
      end
  end.






(** 0.1, 0.2 and 0.4 as Python reads them. *)
Definition tenth : spec_float := S754_finite false 7205759403792794 (-56).
Definition fifth : spec_float := S754_finite false 7205759403792794 (-55).
Definition two_fifths : spec_float := S754_finite false 7205759403792794 (-54).

(** Three samples of two editors on one day. *)
Definition float_calls : list call :=
  [Record "2024-01-02" "vim" (PFloat tenth) None;
   Record "2024-01-02" "emacs" (PFloat fifth) None;
   Record "2024-01-02" "vim" (PFloat two_fifths) None].





(** 0.5, and the bucket that [float_calls] leave: its total is
    0.7000000000000001, while 0.5 + 0.2 is 0.7. *)
Definition half : spec_float := S754_finite false 4503599627370496 (-53).

Definition float_bucket : bucket :=
  mkBucket (PFloat (S754_finite false 6305039478318695 (-53)))
    [("vim", PFloat half); ("emacs", PFloat fifth)] None.

End Accounting.

(** * The classifier on Unicode strings *)

(** [lower] above lower-cases the letters A-Z and leaves every other
    byte as it is, which is what [str.lower] does on ASCII strings.  On
    other strings [str.lower] follows the Unicode rules, one of which
    looks at the context of a letter.  This part reads a string as the
    UTF-8 encoding of a Python string and embeds [str.lower] on the code
    points of ASCII and of the Greek alphabet; on any other code point it
    is undefined.  Substring tests need no change: one UTF-8 string
    occurs in another as bytes exactly when it occurs there as code
    points. *)


(** The code points of a UTF-8 string made of one- and two-byte
    sequences. *)
Fixpoint code_points (s : string) : option (list N) :=
  match s with
  | EmptyString => Some []
  | String a rest =>
      let n := N_of_ascii a in
      if (n <? 128)%N then option_map (cons n) (code_points rest)
      else if ((194 <=? n) && (n <=? 223))%N%bool then
        match rest with
        | String b rest' =>
            let m := N_of_ascii b in
            if ((128 <=? m) && (m <=? 191))%N%bool
            then option_map (cons ((n - 192) * 64 + (m - 128))%N)
                   (code_points rest')
            else None
        | EmptyString => None
        end
      else None
  end.

(** The UTF-8 encoding of code points below U+0800. *)
Fixpoint encode (l : list N) : string :=
  match l with
  | [] => EmptyString
  | c :: rest =>
      if (c <? 128)%N then String (ascii_of_N c) (encode rest)
      else String (ascii_of_N (192 + c / 64))
             (String (ascii_of_N (128 + c mod 64)) (encode rest))
  end.

(** The Greek capital letters U+0391 to U+03A9 (U+03A2 is not assigned)
    and the small letters U+03B1 to U+03C9. *)
Definition greek_capital (c : N) : bool :=
  ((913 <=? c) && (c <=? 937) && negb (c =? 930))%N%bool.

Definition greek_small (c : N) : bool := ((945 <=? c) && (c <=? 969))%N%bool.

Definition latin_capital (c : N) : bool := ((65 <=? c) && (c <=? 90))%N%bool.

Definition latin_small (c : N) : bool := ((97 <=? c) && (c <=? 122))%N%bool.

(** The code points on which [str.lower] is embedded. *)
Definition modelled (c : N) : bool :=
  ((c <? 128)%N || greek_capital c || greek_small c)%bool.

(** The Unicode properties Cased and Case_Ignorable on these code points:
    the letters, and the characters ' . : ^ and `. *)
Definition cased (c : N) : bool :=
  (latin_capital c || latin_small c || greek_capital c || greek_small c)%bool.

Definition case_ignorable (c : N) : bool :=
  existsb (N.eqb c) [39; 46; 58; 94; 96]%N.

(** The next code point that is not case-ignorable is a cased one. *)
Fixpoint cased_next (l : list N) : bool :=
  match l with
  | [] => false
  | c :: rest => if case_ignorable c then cased_next rest else cased c
  end.

Definition lower_point (c : N) : N :=
  if (latin_capital c || greek_capital c)%bool then (c + 32)%N else c.

(** [str.lower] on code points; [before] holds the code points already
    passed, the nearest first.  A capital sigma (U+03A3) becomes the
    final form U+03C2 when a cased letter precedes it and none follows,
    case-ignorable characters apart, and U+03C3 otherwise. *)
Fixpoint lower_from (before l : list N) : list N :=
  match l with
  | [] => []
  | c :: rest =>
      (if (c =? 931)%N
       then if (cased_next before && negb (cased_next rest))%bool
            then 962%N else 963%N
       else lower_point c)
      :: lower_from (c :: before) rest
  end.

(** [s.lower()], where it is embedded. *)
Definition lower_utf8 (s : string) : option string :=
  match code_points s with
  | Some l =>
      if forallb modelled l then Some (encode (lower_from [] l)) else None
  | None => None
  end.

(** The loop over the custom rules: the category of the first rule whose
    lower-cased pattern occurs in [app_lower], if any. *)
Fixpoint first_rule (app_lower : string) (rules : list (string * string))
  : option (option string) :=
  match rules with
  | [] => Some None
  | (pattern, category) :: rest =>
      match lower_utf8 pattern with
      | Some pattern_lower =>
          if str_in pattern_lower app_lower then Some (Some category)
          else first_rule app_lower rest
      | None => None
      end
  end.

(** [TimeTracker.categorize_app] with this [str.lower]. *)
Definition categorize_app_utf8 (cfg : config) (app_name : string)
  : option string :=
  match lower_utf8 app_name with
  | Some app_lower =>
      match first_rule app_lower (custom_categories cfg) with
      | Some (Some category) => Some category
      | Some None => Some (categorize_builtin app_lower)
      | None => None
      end
  | None => None
  end.





(** The Greek word for "street" in capitals (omicron, delta, omicron,
    sigma), and the same letters followed by a capital alpha. *)
Definition odos : string := encode [927; 916; 927; 931]%N.
Definition odosa : string := encode [927; 916; 927; 931; 913]%N.

(** * The data file: [save_data] and [load_data] *)

(** [save_data] writes [self.data] with [json.dump] and [load_data] reads
    the file with [json.load].  The two functions belong to Python's
    library; they are embedded here from its documentation, on the
    tokens of a JSON text: the punctuation, the string and number
    literals and the three names.  The layout of the file (the indent of
    two spaces), the escapes of a string literal and the digits of a
    number literal are beneath the tokens: a literal stands for the
    string or the number that it denotes, which holds for the numbers
    that [json.dump] writes with [repr] ([NaN] and the infinities under
    their names) as long as an integer has fewer decimal digits than the
    interpreter converts (4300 by default since CPython 3.11). *)
Module Json.
Import SpecFloat Accounting.

(** What [json.load] returns, and what [self.data] is made of. *)
#[warnings="-register-all"]
Inductive json : Type :=
| JNull
| JBool (b : bool)
| JNum (x : number)
| JStr (s : string)
| JList (l : list json)
| JDict (d : list (string * json)).

Inductive token : Type :=
| TLBrace | TRBrace | TLBracket | TRBracket | TColon | TComma
| TString (s : string)
| TNumber (x : number)
| TTrue | TFalse | TNull.

Section Printer.
Variable tokens : json -> list token.

(** The elements and the members after the first, up to the closing
    bracket or brace. *)
Fixpoint more_elements (l : list json) : list token :=
  match l with
  | [] => [TRBracket]
  | y :: l' => TComma :: tokens y ++ more_elements l'
  end.

Fixpoint more_members (d : list (string * json)) : list token :=
  match d with
  | [] => [TRBrace]
  | (k, y) :: d' =>
      TComma :: TString k :: TColon :: tokens y ++ more_members d'
  end.

End Printer.

(** [json.dump]: the tokens of the text written for a value.  A
    dictionary is written in its insertion order. *)
Fixpoint tokens (v : json) : list token :=
  match v with
  | JNull => [TNull]
  | JBool true => [TTrue]
  | JBool false => [TFalse]
  | JNum x => [TNumber x]
  | JStr s => [TString s]
  | JList [] => [TLBracket; TRBracket]
  | JList (x :: l) => TLBracket :: tokens x ++ more_elements tokens l
  | JDict [] => [TLBrace; TRBrace]
  | JDict ((k, x) :: d) =>
      TLBrace :: TString k :: TColon :: tokens x ++ more_members tokens d
  end.

(** The dictionary that [json.load] builds from the members of an
    object, in their order: a key met again keeps its place and takes
    the later value. *)
Definition dict_of_pairs (pairs : list (string * json))
  : list (string * json) :=
  fold_left (fun d kv => put (fst kv) (snd kv) d) pairs [].

(** [json.load] by recursive descent: the value at the head of the
    tokens and the tokens after it.  [fuel] bounds the depth of the
    descent; the number of tokens is enough. *)
Fixpoint parse (fuel : nat) (toks : list token) {struct fuel}
  : option (json * list token) :=
  match fuel with
  | O => None
  | S fuel' =>
      match toks with
      | TNull :: rest => Some (JNull, rest)
      | TTrue :: rest => Some (JBool true, rest)
      | TFalse :: rest => Some (JBool false, rest)
      | TNumber x :: rest => Some (JNum x, rest)
      | TString s :: rest => Some (JStr s, rest)
      | TLBracket :: TRBracket :: rest => Some (JList [], rest)
      | TLBracket :: rest =>
          match parse fuel' rest with
          | Some (x, rest') =>
              match elements fuel' rest' with
              | Some (l, rest'') => Some (JList (x :: l), rest'')
              | None => None
              end
          | None => None
          end
      | TLBrace :: TRBrace :: rest => Some (JDict [], rest)
      | TLBrace :: TString k :: TColon :: rest =>
          match parse fuel' rest with
          | Some (x, rest') =>
              match members fuel' rest' with
              | Some (d, rest'') =>
                  Some (JDict (dict_of_pairs ((k, x) :: d)), rest'')
              | None => None
              end
          | None => None
          end
      | _ => None
      end
  end
with elements (fuel : nat) (toks : list token) {struct fuel}
  : option (list json * list token) :=
  match fuel with
  | O => None
  | S fuel' =>
      match toks with
      | TRBracket :: rest => Some ([], rest)
      | TComma :: rest =>
          match parse fuel' rest with
          | Some (y, rest') =>
              match elements fuel' rest' with
              | Some (l, rest'') => Some (y :: l, rest'')
              | None => None
              end
          | None => None
          end
      | _ => None
      end
  end
with members (fuel : nat) (toks : list token) {struct fuel}
  : option (list (string * json) * list token) :=
  match fuel with
  | O => None
  | S fuel' =>
      match toks with
      | TRBrace :: rest => Some ([], rest)
      | TComma :: TString k :: TColon :: rest =>
          match parse fuel' rest with
          | Some (y, rest') =>
              match members fuel' rest' with
              | Some (d, rest'') => Some ((k, y) :: d, rest'')
              | None => None
              end
          | None => None
          end
      | _ => None
      end
  end.

(** The file of [save_data], and [load_data] on a file that may not
    exist; [None] stands for the [JSONDecodeError] of a text that is not
    one JSON value. *)
Definition save_data (data : json) : list token := tokens data.

Definition load_data (file : option (list token)) : option json :=
  match file with
  | None => Some (JDict [])
  | Some toks =>
      match parse (length toks) toks with
      | Some (v, []) => Some v
      | _ => None
      end
  end.

Section Equality.
Variable eqb : json -> json -> bool.

(** Two lists element by element, and the members of a dictionary
    against the values that another has under the same keys. *)
Fixpoint elements_eqb (l l' : list json) : bool :=
  match l, l' with
  | [], [] => true
  | x :: l, y :: l' => (eqb x y && elements_eqb l l')%bool
  | _, _ => false
  end.

Fixpoint members_eqb (d' d : list (string * json)) : bool :=
  match d with
  | [] => true
  | (k, x) :: d =>
      (match get k d' with
       | Some y => eqb x y
       | None => false
       end && members_eqb d' d)%bool
  end.

End Equality.

(** [v == w] in Python: numbers by value, with [True] and [False] as 1
    and 0, lists in order, dictionaries key by key whatever their
    order.  The values compared here are distinct objects, so that a
    NaN is not equal to the NaN it was loaded from. *)
Fixpoint json_eqb (v w : json) : bool :=
  match v, w with
  | JNull, JNull => true
  | JBool a, JBool b => Bool.eqb a b
  | JBool a, JNum y => py_eqb (PInt (if a then 1 else 0)) y
  | JNum x, JBool b => py_eqb x (PInt (if b then 1 else 0))
  | JNum x, JNum y => py_eqb x y
  | JStr s, JStr s' => String.eqb s s'
  | JList l, JList l' => elements_eqb json_eqb l l'
  | JDict d, JDict d' =>
      ((length d =? length d')%nat && members_eqb json_eqb d' d)%bool
  | _, _ => false
  end.

Definition is_nan (f : spec_float) : bool :=
  match f with
  | S754_nan => true
  | _ => false
  end.

(** A number that the file gives back as it was: a float other than NaN,
    or an integer of at most 4300 decimal digits. *)
Definition storable (x : number) : bool :=
  match x with
  | PInt z => (Z.abs z <? 10 ^ 4300)%Z
  | PFloat f => negb (is_nan f)
  end.

Fixpoint distinct (keys : list string) : bool :=
  match keys with
  | [] => true
  | k :: rest => (negb (existsb (String.eqb k) rest) && distinct rest)%bool
  end.

(** A value of dictionaries with distinct keys, as Python's are. *)
Fixpoint well_keyed (v : json) : bool :=
  match v with
  | JList l => forallb well_keyed l
  | JDict d =>
      (distinct (map fst d) && forallb (fun kv => well_keyed (snd kv)) d)%bool
  | _ => true
  end.

(** All its numbers are storable. *)
Fixpoint all_storable (v : json) : bool :=
  match v with
  | JNum x => storable x
  | JList l => forallb all_storable l
  | JDict d => forallb (fun kv => all_storable (snd kv)) d
  | _ => true
  end.

Definition is_number (v : json) : bool :=
  match v with
  | JNum _ => true
  | _ => false
  end.

(** The shape of the store: under each key other than "streaks" a day of
    buckets, each with a number under "total_seconds", a dictionary of
    numbers under "apps" and, under "projects", [None] or a dictionary
    of numbers. *)
Definition numbers (v : json) : bool :=
  match v with
  | JDict d => forallb (fun kv => is_number (snd kv)) d
  | _ => false
  end.

Definition is_bucket (v : json) : bool :=
  match v with
  | JDict [("total_seconds", JNum _); ("apps", apps); ("projects", JNull)] =>
      numbers apps
  | JDict [("total_seconds", JNum _); ("apps", apps); ("projects", projects)] =>
      (numbers apps && numbers projects)%bool
  | _ => false
  end.

Definition is_day (v : json) : bool :=
  match v with
  | JDict d => forallb (fun kv => is_bucket (snd kv)) d
  | _ => false
  end.

Definition is_ledger (v : json) : bool :=
  match v with
  | JDict [("current", JNum _); ("longest", JNum _); ("last_date", _)] => true
  | _ => false
  end.

Definition is_store (v : json) : bool :=
  match v with
  | JDict d =>
      forallb (fun kv => if fst kv =? "streaks" then is_ledger (snd kv)
                         else is_day (snd kv)) d
  | _ => false
  end.

(** The round trip as the specification words it: for every store, with
    any numeric values, the loaded store equals the saved one. *)
Definition round_trip_as_stated : Prop :=
  forall store : json,
    is_store store = true -> well_keyed store = true ->
    exists loaded,
      load_data (Some (save_data store)) = Some loaded /\
      json_eqb loaded store = true.

(** A store after a day of coding, and the same with a NaN. *)
Definition coding_store (seconds : number) : json :=
  JDict [("streaks",
          JDict [("current", JNum (PInt 1)); ("longest", JNum (PInt 1));
                 ("last_date", JStr "2024-01-02")]);
         ("2024-01-02",
          JDict [("Coding",
                  JDict [("total_seconds", JNum seconds);
                         ("apps", JDict [("vim", JNum seconds)]);
                         ("projects", JNull)])])].

Definition nan_store : json := coding_store (PFloat S754_nan).

End Json.

(** * Theorems *)

(** ** Dictionaries *)

Lemma dict_get_set_same (k : string) (x : value) (d : dict) :
  dict_get k (dict_set k x d) = Some x.
Proof.
  induction d as [|[k' y] d IH]; simpl.
  - now rewrite String.eqb_refl.
  - destruct (k' =? k) eqn:E; simpl; rewrite E; auto.
Qed.

Lemma dict_get_set_other (k k' : string) (x : value) (d : dict) :
  k <> k' -> dict_get k' (dict_set k x d) = dict_get k' d.
Proof.
  intros Hne. induction d as [|[k0 y] d IH]; simpl.
  - destruct (String.eqb_spec k k'); congruence.
  - destruct (String.eqb_spec k0 k) as [->|Hk]; simpl.
    + destruct (String.eqb_spec k k'); congruence.
    + now rewrite IH.
Qed.

Lemma dict_set_set (k : string) (x y : value) (d : dict) :
  dict_set k x (dict_set k y d) = dict_set k x d.
Proof.
  induction d as [|[k' z] d IH]; simpl.
  - now rewrite String.eqb_refl.
  - destruct (k' =? k) eqn:E; simpl; rewrite E; congruence.
Qed.

Lemma dict_set_get_id (k : string) (x : value) (d : dict) :
  dict_get k d = Some x -> dict_set k x d = d.
Proof.
  induction d as [|[k' z] d IH]; simpl; [discriminate|].
  destruct (k' =? k); intros H.
  - congruence.
  - now rewrite IH.
Qed.

Lemma Forall_dict_set (P : string * value -> Prop) (k : string) (x : value)
  (d : dict) :
  Forall P d -> P (k, x) -> Forall P (dict_set k x d).
Proof.
  intros Hd Hx. induction Hd as [|[k' y] d Hy Hd IH]; simpl.
  - now constructor.
  - destruct (String.eqb_spec k' k) as [->|Hk]; constructor; auto.
Qed.

Lemma dict_get_Forall (P : string * value -> Prop) (k : string) (x : value)
  (d : dict) :
  Forall P d -> dict_get k d = Some x -> P (k, x).
Proof.
  induction 1 as [|[k' y] d Hy Hd IH]; simpl; [discriminate|].
  destruct (String.eqb_spec k' k) as [->|Hk]; intros H.
  - congruence.
  - auto.
Qed.

Lemma dict_has_get (k : string) (d : dict) :
  dict_has k d = true <-> exists x, dict_get k d = Some x.
Proof.
  unfold dict_has. destruct (dict_get k d); split; eauto;
    try discriminate.
  intros [x H]. discriminate.
Qed.

Lemma dict_has_false (k : string) (d : dict) :
  dict_has k d = false <-> dict_get k d = None.
Proof.
  unfold dict_has. destruct (dict_get k d); split; congruence.
Qed.

(** ** Paths *)

Lemma py_getitem_Ok (v : value) (k : string) (x : value) :
  py_getitem v k = Ok x <-> exists d, v = VDict d /\ dict_get k d = Some x.
Proof.
  split.
  - destruct v; simpl; try discriminate.
    destruct (dict_get k d) eqn:E; [|discriminate].
    intros [= <-]. eauto.
  - intros (d & -> & H). simpl. now rewrite H.
Qed.

Lemma get_path_app (p q : list string) (d : value) :
  get_path (p ++ q) d = (let* c := get_path p d in get_path q c).
Proof.
  revert d. induction p as [|k p IH]; intros d; simpl; [reflexivity|].
  destruct (py_getitem d k); simpl; auto.
Qed.

Lemma get_path_plug (p : list string) (c c' d : value) :
  get_path p d = Ok c -> get_path p (plug p c' d) = Ok c'.
Proof.
  revert d. induction p as [|k p IH]; intros d; simpl; [reflexivity|].
  destruct (py_getitem d k) as [child|] eqn:E; [|discriminate].
  apply py_getitem_Ok in E as (entries & -> & Hk). rewrite Hk. simpl.
  rewrite dict_get_set_same. auto.
Qed.

Lemma plug_plug (p : list string) (c c1 c2 d : value) :
  get_path p d = Ok c -> plug p c2 (plug p c1 d) = plug p c2 d.
Proof.
  revert d. induction p as [|k p IH]; intros d; simpl; [reflexivity|].
  destruct (py_getitem d k) as [child|] eqn:E; [|discriminate].
  apply py_getitem_Ok in E as (entries & -> & Hk). rewrite Hk. simpl.
  rewrite dict_get_set_same, dict_set_set. intros H. now rewrite (IH _ H).
Qed.

Lemma plug_same (p : list string) (c d : value) :
  get_path p d = Ok c -> plug p c d = d.
Proof.
  revert d. induction p as [|k p IH]; intros d; simpl; [congruence|].
  destruct (py_getitem d k) as [child|] eqn:E; [|discriminate].
  apply py_getitem_Ok in E as (entries & -> & Hk). rewrite Hk.
  intros H. rewrite (IH _ H). now rewrite dict_set_get_id.
Qed.

Lemma contains_at_focus (p q : list string) (k : string) (c d : value) :
  get_path p d = Ok c -> contains_at (p ++ q) k d = contains_at q k c.
Proof.
  intros H. unfold contains_at. now rewrite get_path_app, H.
Qed.

Lemma assign_focus (p q : list string) (k : string) (x c d : value) :
  get_path p d = Ok c ->
  assign (p ++ q) k x d = (let* c' := assign q k x c in Ok (plug p c' d)).
Proof.
  revert d. induction p as [|k0 p IH]; intros d; simpl.
  - intros [= ->]. now destruct (assign q k x c).
  - destruct (py_getitem d k0) as [child|] eqn:E; [|discriminate].
    apply py_getitem_Ok in E as (entries & -> & Hk). rewrite Hk.
    intros H. rewrite (IH _ H). simpl. now destruct (assign q k x c).
Qed.

Lemma aug_assign_focus (p q : list string) (k : string) (x : Q) (c d : value) :
  get_path p d = Ok c ->
  aug_assign (p ++ q) k x d
  = (let* c' := aug_assign q k x c in Ok (plug p c' d)).
Proof.
  intros H. unfold aug_assign. rewrite get_path_app, H. simpl.
  destruct (get_path q c) as [c0|]; simpl; auto.
  destruct (py_getitem c0 k) as [old|]; simpl; auto.
  destruct (py_add old x) as [new|]; simpl; auto.
  now apply assign_focus.
Qed.

(** ** Methods that keep a property of the store *)

Lemma preserves_ret (P : value -> Prop) {A : Type} (a : A) :
  preserves P (ret a).
Proof. intros t H. exact H. Qed.

Lemma preserves_bind (P : value -> Prop) {A B : Type} (m : M A)
  (f : A -> M B) :
  preserves P m -> (forall a, preserves P (f a)) -> preserves P (bind m f).
Proof.
  intros Hm Hf t H. unfold bind. specialize (Hm t H).
  destruct (m t) as [[a|e] t']; simpl in *; auto.
  now apply Hf.
Qed.

Lemma preserves_eval (P : value -> Prop) {A : Type} (f : value -> result A) :
  preserves P (eval f).
Proof. intros t H. exact H. Qed.

Lemma preserves_exec (P : value -> Prop) (f : value -> result value) :
  (forall d d', P d -> f d = Ok d' -> P d') -> preserves P (exec f).
Proof.
  intros Hf t H. unfold exec. destruct (f (data t)) eqn:E; simpl; eauto.
Qed.

Lemma preserves_when (P : value -> Prop) (b : bool) (m : M unit) :
  preserves P m -> preserves P (when b m).
Proof. destruct b; simpl; auto using preserves_ret. Qed.

Lemma preserves_log_unknown_app (P : value -> Prop) (app_name : string) :
  preserves P (log_unknown_app app_name).
Proof.
  intros t H. unfold log_unknown_app.
  now destruct (categorize_app (cfg t) app_name =? "Other").
Qed.

Lemma preserves_save_data (P : value -> Prop) : preserves P save_data.
Proof. intros t H. exact H. Qed.

(** ** Conservation *)

Lemma py_sum_set_new (k : string) (apps : dict) (s : Q) :
  dict_get k apps = None ->
  py_sum (map snd apps) = Ok s ->
  exists s', py_sum (map snd (dict_set k (VNum 0) apps)) = Ok s' /\ s' == s.
Proof.
  revert s. induction apps as [|[k' v] apps IH]; simpl; intros s Hk Hs.
  - injection Hs as <-. eexists. split; [reflexivity|]. ring.
  - destruct (k' =? k); [discriminate|]. simpl.
    destruct (as_number v) as [q|]; simpl in *; [|discriminate].
    destruct (py_sum (map snd apps)) as [r|]; simpl in *; [|discriminate].
    injection Hs as <-. destruct (IH r Hk eq_refl) as (s' & -> & E). simpl.
    eexists. split; [reflexivity|]. now rewrite E.
Qed.

Lemma py_sum_set_add (k : string) (apps : dict) (old : value) (o x s : Q) :
  dict_get k apps = Some old ->
  as_number old = Ok o ->
  py_sum (map snd apps) = Ok s ->
  exists s',
    py_sum (map snd (dict_set k (VNum (o + x)) apps)) = Ok s' /\ s' == s + x.
Proof.
  revert s. induction apps as [|[k' v] apps IH]; simpl; intros s Hk Ho Hs.
  - discriminate.
  - destruct (k' =? k).
    + injection Hk as ->. rewrite Ho in Hs. simpl in *.
      destruct (py_sum (map snd apps)) as [r|]; simpl in *; [|discriminate].
      injection Hs as <-. eexists. split; [reflexivity|]. ring.
    + simpl. destruct (as_number v) as [q|]; simpl in *; [|discriminate].
      destruct (py_sum (map snd apps)) as [r|]; simpl in *; [|discriminate].
      injection Hs as <-. destruct (IH r Hk Ho eq_refl) as (s' & -> & E).
      simpl. eexists. split; [reflexivity|]. rewrite E. ring.
Qed.

Lemma py_sum_get (k : string) (apps : dict) (v : value) (s : Q) :
  py_sum (map snd apps) = Ok s ->
  dict_get k apps = Some v ->
  exists q, as_number v = Ok q.
Proof.
  revert s. induction apps as [|[k' w] apps IH]; simpl; intros s Hs Hk.
  - discriminate.
  - destruct (as_number w) as [q|] eqn:E; simpl in *; [|discriminate].
    destruct (py_sum (map snd apps)) as [r|]; simpl in *; [|discriminate].
    destruct (k' =? k).
    + injection Hk as <-. eauto.
    + eauto.
Qed.

(** The shape of a bucket that satisfies the invariant. *)
Lemma conserved_shape (b : value) :
  conserved b <->
  exists bd tv total apps sum,
    b = VDict bd /\
    dict_get "total_seconds" bd = Some tv /\ as_number tv = Ok total /\
    dict_get "apps" bd = Some (VDict apps) /\
    py_sum (map snd apps) = Ok sum /\ total == sum.
Proof.
  unfold conserved, bucket_total, bucket_apps_sum. split.
  - intros (total & sum & Ht & Hs & E).
    destruct (py_getitem b "total_seconds") as [tv|] eqn:Htv; [|discriminate].
    apply py_getitem_Ok in Htv as (bd & -> & Htv). simpl in *.
    destruct (dict_get "apps" bd) as [av|] eqn:Hav; [|discriminate].
    simpl in Hs. destruct av; try discriminate. simpl in Hs.
    exists bd, tv, total, d, sum. repeat split; auto.
  - intros (bd & tv & total & apps & sum & -> & Htv & Ht & Hav & Hs & E).
    exists total, sum. simpl. rewrite Htv, Hav. simpl. repeat split; auto.
Qed.

Ltac rb := cbv beta iota delta [rbind].

(** Membership and assignments one level below a dictionary, and at its
    top. *)
Lemma contains_at_sub (k1 k : string) (bd sub : dict) :
  dict_get k1 bd = Some (VDict sub) ->
  contains_at [k1] k (VDict bd) = Ok (dict_has k sub).
Proof. intros H. unfold contains_at. simpl. now rewrite H. Qed.

Lemma assign_sub (k1 k : string) (v : value) (bd sub : dict) :
  dict_get k1 bd = Some (VDict sub) ->
  assign [k1] k v (VDict bd)
  = Ok (VDict (dict_set k1 (VDict (dict_set k v sub)) bd)).
Proof. intros H. simpl. now rewrite H. Qed.

Lemma aug_assign_sub (k1 k : string) (x o : Q) (old : value) (bd sub : dict) :
  dict_get k1 bd = Some (VDict sub) ->
  dict_get k sub = Some old ->
  as_number old = Ok o ->
  aug_assign [k1] k x (VDict bd)
  = Ok (VDict (dict_set k1 (VDict (dict_set k (VNum (o + x)) sub)) bd)).
Proof.
  intros H1 H2 H3. unfold aug_assign, py_add. simpl. rewrite H1. simpl.
  now rewrite H2, H3.
Qed.

Lemma aug_assign_top (k : string) (x o : Q) (old : value) (bd : dict) :
  dict_get k bd = Some old ->
  as_number old = Ok o ->
  aug_assign [] k x (VDict bd) = Ok (VDict (dict_set k (VNum (o + x)) bd)).
Proof.
  intros H1 H2. unfold aug_assign, py_add. simpl. now rewrite H1, H2.
Qed.

(** On a bucket that satisfies the invariant, "Add time" does not raise,
    adds the duration to the total and to the app, and keeps the
    invariant and the other fields. *)
Lemma bucket_add_app_conserved (app_name : string) (x : Q) (b : value) :
  conserved b ->
  exists b' total seconds,
    bucket_add_app app_name x b = Ok b' /\ conserved b' /\
    (forall k, k <> "apps" -> k <> "total_seconds" ->
               py_getitem b' k = py_getitem b k) /\
    bucket_total b = Ok total /\ bucket_total b' = Ok (total + x) /\
    app_seconds app_name b = Ok seconds /\
    app_seconds app_name b' = Ok (seconds + x).
Proof.
  intros H. apply conserved_shape in H
    as (bd & tv & total & apps & sum & -> & Htv & Ht & Hav & Hs & E).
  assert (Hfinal : forall apps1 old o s1,
    dict_get app_name apps1 = Some old -> as_number old = Ok o ->
    py_sum (map snd apps1) = Ok s1 -> s1 == sum ->
    let b1 := VDict (dict_set "apps" (VDict apps1) bd) in
    let b' := VDict (dict_set "total_seconds" (VNum (total + x))
                (dict_set "apps"
                   (VDict (dict_set app_name (VNum (o + x)) apps1)) bd)) in
    (let* b2 := aug_assign ["apps"] app_name x b1 in
     aug_assign [] "total_seconds" x b2) = Ok b' /\
    conserved b' /\
    (forall k, k <> "apps" -> k <> "total_seconds" ->
               py_getitem b' k = py_getitem (VDict bd) k) /\
    bucket_total b' = Ok (total + x) /\
    app_seconds app_name b' = Ok (o + x)).
  { intros apps1 old o s1 Hold Ho Hs1 E1 b1 b'. subst b1 b'.
    rewrite (aug_assign_sub "apps" app_name x o old _ apps1);
      [|apply dict_get_set_same|assumption|assumption].
    rewrite dict_set_set. rb.
    rewrite (aug_assign_top "total_seconds" x total tv);
      [|rewrite dict_get_set_other by discriminate; assumption|assumption].
    destruct (py_sum_set_add app_name apps1 old o x s1 Hold Ho Hs1)
      as (s2 & Hs2 & E2).
    split; [reflexivity|]. split; [|split; [|split]].
    - apply conserved_shape. do 5 eexists. split; [reflexivity|].
      rewrite dict_get_set_same. split; [reflexivity|].
      split; [reflexivity|].
      rewrite dict_get_set_other by discriminate. rewrite dict_get_set_same.
      split; [reflexivity|]. split; [exact Hs2|].
      rewrite E2, E1, E. reflexivity.
    - intros k Hk1 Hk2. simpl.
      now rewrite !dict_get_set_other by congruence.
    - unfold bucket_total. simpl. now rewrite dict_get_set_same.
    - unfold app_seconds. simpl.
      rewrite dict_get_set_other by discriminate.
      rewrite dict_get_set_same. simpl. now rewrite dict_get_set_same. }
  unfold bucket_add_app.
  rewrite (contains_at_sub "apps" app_name bd apps Hav). rb.
  assert (Htot : bucket_total (VDict bd) = Ok total).
  { unfold bucket_total. simpl. now rewrite Htv. }
  destruct (dict_get app_name apps) as [old|] eqn:Happ.
  - assert (Hhas : dict_has app_name apps = true)
      by (apply dict_has_get; eauto).
    rewrite Hhas. rb.
    destruct (py_sum_get _ _ _ _ Hs Happ) as (o & Ho).
    destruct (Hfinal apps old o sum Happ Ho Hs (Qeq_refl _))
      as (H1 & H2 & H3 & H4 & H5).
    rewrite (dict_set_get_id "apps" (VDict apps) bd Hav) in H1.
    eexists. exists total, o. split; [exact H1|]. repeat split; auto.
    unfold app_seconds. simpl. rewrite Hav. simpl. now rewrite Happ.
  - assert (Hhas : dict_has app_name apps = false)
      by (now apply dict_has_false).
    rewrite Hhas. rb.
    rewrite (assign_sub "apps" app_name (VNum 0) bd apps Hav). rb.
    destruct (py_sum_set_new app_name apps sum Happ Hs) as (s1 & Hs1 & E1).
    destruct (Hfinal (dict_set app_name (VNum 0) apps) (VNum 0) 0 s1
                (dict_get_set_same _ _ _) eq_refl Hs1 E1)
      as (H1 & H2 & H3 & H4 & H5).
    rewrite dict_set_set in *.
    eexists. exists total, 0. split; [exact H1|]. repeat split; auto.
    unfold app_seconds. simpl. rewrite Hav. simpl. now rewrite Happ.
Qed.

Lemma plug_nil (c d : value) : plug [] c d = c.
Proof. reflexivity. Qed.

Lemma plug_dict (k : string) (p : list string) (c : value) (entries : dict) :
  plug (k :: p) c (VDict entries)
  = match dict_get k entries with
    | Some child => VDict (dict_set k (plug p c child) entries)
    | None => VDict entries
    end.
Proof. reflexivity. Qed.

Arguments plug : simpl never.

(** "Add time" run on the store is [bucket_add_app] run on the addressed
    bucket. *)
Lemma add_app_time_focus (date category app_name : string) (x : Q)
  (t : tracker) (b b' : value) :
  get_path [date; category] (data t) = Ok b ->
  bucket_add_app app_name x b = Ok b' ->
  add_app_time date category app_name x t
  = (Ok tt, set_data (plug [date; category] b' (data t)) t).
Proof.
  intros Hb Hadd. unfold bucket_add_app in Hadd.
  unfold add_app_time, bind, eval, exec.
  change [date; category; "apps"] with ([date; category] ++ ["apps"])%list.
  rewrite (contains_at_focus _ _ _ _ _ Hb).
  destruct (contains_at ["apps"] app_name b) as [has|]; [|discriminate].
  revert Hadd. rb.
  assert (Hrest : forall b1 t1,
    data t1 = plug [date; category] b1 (data t) ->
    (let* b2 := aug_assign ["apps"] app_name x b1 in
     aug_assign [] "total_seconds" x b2) = Ok b' ->
    match
      match aug_assign ([date; category] ++ ["apps"])%list app_name x (data t1) with
      | Ok d => (Ok tt, set_data d t1)
      | Raise e => (Raise e, t1)
      end
    with
    | (Ok _, t2) =>
        match aug_assign [date; category] "total_seconds" x (data t2) with
        | Ok d => (Ok tt, set_data d t2)
        | Raise e => (Raise e, t2)
        end
    | (Raise e, t2) => (Raise e, t2)
    end = (Ok tt, set_data (plug [date; category] b' (data t)) t1)).
  { intros b1 t1 Hd H. revert H. rb.
    assert (Hb1 : get_path [date; category] (data t1) = Ok b1)
      by (rewrite Hd; eapply get_path_plug; eauto).
    rewrite (aug_assign_focus _ _ _ _ _ _ Hb1).
    destruct (aug_assign ["apps"] app_name x b1) as [b2|]; [|discriminate].
    rb. intros H. simpl data.
    change [date; category] with ([date; category] ++ [])%list at 1.
    rewrite (aug_assign_focus [date; category] [] "total_seconds" x b2).
    - rewrite H. rb. rewrite Hd. f_equal. unfold set_data. simpl.
      now rewrite !(plug_plug _ _ _ _ _ Hb).
    - eapply get_path_plug; eauto. }
  destruct has; simpl negb; unfold when, ret.
  - intros H. apply (Hrest b); auto. symmetry. now apply plug_same.
  - rewrite (assign_focus _ _ _ _ _ _ Hb).
    destruct (assign ["apps"] app_name (VNum 0) b) as [b1|]; [|discriminate].
    rb. intros H.
    rewrite (Hrest b1 (set_data (plug [date; category] b1 (data t)) t));
      auto.
Qed.

(** ** The store invariant *)

Lemma good_day_empty : good_day (VDict []).
Proof. exists []. split; [reflexivity|constructor]. Qed.

Lemma conserved_new_bucket (project : option string) :
  conserved (new_bucket project).
Proof. exists 0, 0. repeat split; reflexivity. Qed.

Lemma conserved_manual_bucket : conserved manual_bucket.
Proof. exists 0, 0. repeat split; reflexivity. Qed.

(** Replacing one entry of the store. *)
Lemma store_inv_plug_day (date : string) (day day' d : value) :
  store_inv d ->
  get_path [date] d = Ok day ->
  (date <> "streaks" -> good_day day') ->
  store_inv (plug [date] day' d).
Proof.
  intros (entries & -> & Hall) Hget Hday. simpl in Hget. rewrite plug_dict.
  destruct (dict_get date entries) as [x|]; [|discriminate].
  eexists. split; [reflexivity|]. now apply Forall_dict_set.
Qed.

Lemma store_inv_day (date : string) (day d : value) :
  store_inv d -> date <> "streaks" -> get_path [date] d = Ok day ->
  good_day day.
Proof.
  intros (entries & -> & Hall) Hne Hget. simpl in Hget.
  destruct (dict_get date entries) as [x|] eqn:E; [|discriminate].
  injection Hget as ->.
  now apply (dict_get_Forall _ _ _ _ Hall E).
Qed.

Lemma good_day_bucket (category : string) (day b : value) :
  good_day day -> py_getitem day category = Ok b -> conserved b.
Proof.
  intros (cats & -> & Hall) Hget. simpl in Hget.
  destruct (dict_get category cats) as [x|] eqn:E; [|discriminate].
  injection Hget as ->.
  now apply (dict_get_Forall _ _ _ _ Hall E).
Qed.

Lemma good_day_set (category : string) (b : value) (cats : dict) :
  good_day (VDict cats) -> conserved b ->
  good_day (VDict (dict_set category b cats)).
Proof.
  intros (cats' & [= <-] & Hall) Hb. eexists. split; [reflexivity|].
  now apply Forall_dict_set.
Qed.

Lemma get_path_cons (k : string) (p : list string) (d c : value) :
  get_path (k :: p) d = Ok c <->
  exists child, get_path [k] d = Ok child /\ get_path p child = Ok c.
Proof.
  simpl. destruct (py_getitem d k) as [child|]; split.
  - eauto.
  - now intros (child' & [= <-] & H).
  - discriminate.
  - now intros (child' & [=] & H).
Qed.

Lemma plug_cons (k : string) (p : list string) (d child c : value) :
  get_path [k] d = Ok child ->
  plug (k :: p) c d = plug [k] (plug p c child) d.
Proof.
  simpl. destruct (py_getitem d k) as [x|] eqn:E; [|discriminate].
  intros [= ->]. apply py_getitem_Ok in E as (entries & -> & Hk).
  now rewrite !plug_dict, Hk, plug_nil.
Qed.

(** Replacing a bucket by one that satisfies the invariant. *)
Lemma store_inv_plug_bucket (date category : string) (b b' d : value) :
  store_inv d ->
  get_path [date; category] d = Ok b ->
  (date <> "streaks" -> conserved b') ->
  store_inv (plug [date; category] b' d).
Proof.
  intros H Hget Hb'. pose proof Hget as Hget'.
  apply get_path_cons in Hget' as (day & Hday & Hb).
  rewrite (plug_cons _ _ _ _ _ Hday).
  apply (store_inv_plug_day _ _ _ _ H Hday). intros Hne.
  pose proof (store_inv_day _ _ _ H Hne Hday) as Hgood.
  simpl in Hb. destruct (py_getitem day category) eqn:E; [|discriminate].
  apply py_getitem_Ok in E as (cats & -> & Hk).
  rewrite plug_dict, Hk, plug_nil.
  apply good_day_set; auto.
Qed.

Lemma store_inv_bucket (date category : string) (b d : value) :
  store_inv d -> date <> "streaks" ->
  get_path [date; category] d = Ok b -> conserved b.
Proof.
  intros H Hne Hget. apply get_path_cons in Hget as (day & Hday & Hb).
  pose proof (store_inv_day _ _ _ H Hne Hday) as Hgood.
  simpl in Hb. destruct (py_getitem day category) eqn:E; [|discriminate].
  injection Hb as ->. eapply good_day_bucket; eauto.
Qed.

Lemma assign_Ok_get_path (p q : list string) (k : string) (x d d' : value) :
  assign (p ++ q) k x d = Ok d' -> exists c, get_path p d = Ok c.
Proof.
  revert d d'. induction p as [|k0 p IH]; intros d d'; simpl; [eauto|].
  destruct (py_getitem d k0) as [child|]; [|discriminate].
  destruct (assign (p ++ q) k x child) as [child'|] eqn:E; [|discriminate].
  intros _. eauto.
Qed.

Lemma aug_assign_Ok_get_path (p q : list string) (k : string) (x : Q)
  (d d' : value) :
  aug_assign (p ++ q) k x d = Ok d' -> exists c, get_path p d = Ok c.
Proof.
  unfold aug_assign. rewrite get_path_app.
  destruct (get_path p d) as [c|]; simpl; [eauto|discriminate].
Qed.

Lemma assign_cons_shape (k1 : string) (q : list string) (k : string)
  (x b b' : value) :
  assign (k1 :: q) k x b = Ok b' ->
  exists bd v, b = VDict bd /\ b' = VDict (dict_set k1 v bd).
Proof.
  simpl. destruct (py_getitem b k1) as [child|] eqn:E; [|discriminate].
  apply py_getitem_Ok in E as (bd & -> & _).
  destruct (assign q k x child) as [child'|]; [|discriminate].
  simpl. intros [= <-]. eauto.
Qed.

Lemma aug_assign_cons_shape (k1 : string) (q : list string) (k : string)
  (x : Q) (b b' : value) :
  aug_assign (k1 :: q) k x b = Ok b' ->
  exists bd v, b = VDict bd /\ b' = VDict (dict_set k1 v bd).
Proof.
  unfold aug_assign. destruct (get_path (k1 :: q) b); [|discriminate].
  destruct (py_getitem a k); [|discriminate].
  destruct (py_add a0 x); [|discriminate].
  apply assign_cons_shape.
Qed.

Lemma conserved_set_other (k1 : string) (v : value) (bd : dict) :
  conserved (VDict bd) -> k1 <> "apps" -> k1 <> "total_seconds" ->
  conserved (VDict (dict_set k1 v bd)).
Proof.
  intros (total & sum & Ht & Hs & E) H1 H2. exists total, sum.
  unfold bucket_total, bucket_apps_sum in *. simpl in *.
  rewrite !dict_get_set_other by assumption. auto.
Qed.

(** The single statements of the store methods keep the invariant. *)
Lemma store_inv_assign_day (date : string) (day d d' : value) :
  store_inv d -> (date <> "streaks" -> good_day day) ->
  assign [] date day d = Ok d' -> store_inv d'.
Proof.
  intros (entries & -> & Hall) Hday. simpl. intros [= <-].
  eexists. split; [reflexivity|]. now apply Forall_dict_set.
Qed.

Lemma store_inv_assign_bucket (date category : string) (b d d' : value) :
  store_inv d -> conserved b ->
  assign [date] category b d = Ok d' -> store_inv d'.
Proof.
  intros H Hb Ha.
  change [date] with ([date] ++ [])%list in Ha.
  destruct (assign_Ok_get_path _ _ _ _ _ _ Ha) as (day & Hday).
  rewrite (assign_focus _ _ _ _ _ _ Hday) in Ha.
  destruct (assign [] category b day) as [day'|] eqn:E; [|discriminate].
  injection Ha as <-. apply (store_inv_plug_day _ _ _ _ H Hday).
  intros Hne. pose proof (store_inv_day _ _ _ H Hne Hday) as Hgood.
  simpl in E. destruct day; try discriminate. injection E as <-.
  now apply good_day_set.
Qed.

Lemma store_inv_assign_streaks (q : list string) (k : string)
  (x d d' : value) :
  store_inv d -> assign ("streaks" :: q) k x d = Ok d' -> store_inv d'.
Proof.
  intros H Ha. change ("streaks" :: q) with (["streaks"] ++ q)%list in Ha.
  destruct (assign_Ok_get_path _ _ _ _ _ _ Ha) as (c & Hc).
  rewrite (assign_focus _ _ _ _ _ _ Hc) in Ha.
  destruct (assign q k x c) as [c'|]; [|discriminate]. injection Ha as <-.
  apply (store_inv_plug_day _ _ _ _ H Hc). congruence.
Qed.

Lemma store_inv_aug_assign_streaks (q : list string) (k : string) (x : Q)
  (d d' : value) :
  store_inv d -> aug_assign ("streaks" :: q) k x d = Ok d' -> store_inv d'.
Proof.
  intros H Ha. change ("streaks" :: q) with (["streaks"] ++ q)%list in Ha.
  destruct (aug_assign_Ok_get_path _ _ _ _ _ _ Ha) as (c & Hc).
  rewrite (aug_assign_focus _ _ _ _ _ _ Hc) in Ha.
  destruct (aug_assign q k x c) as [c'|]; [|discriminate]. injection Ha as <-.
  apply (store_inv_plug_day _ _ _ _ H Hc). congruence.
Qed.

Lemma store_inv_assign_projects (date category k : string) (x d d' : value) :
  store_inv d ->
  assign [date; category; "projects"] k x d = Ok d' -> store_inv d'.
Proof.
  intros H Ha.
  change [date; category; "projects"]
    with ([date; category] ++ ["projects"])%list in Ha.
  destruct (assign_Ok_get_path _ _ _ _ _ _ Ha) as (b & Hb).
  rewrite (assign_focus _ _ _ _ _ _ Hb) in Ha.
  destruct (assign ["projects"] k x b) as [b'|] eqn:E; [|discriminate].
  injection Ha as <-. apply (store_inv_plug_bucket _ _ _ _ _ H Hb).
  intros Hne. pose proof (store_inv_bucket _ _ _ _ H Hne Hb) as Hc.
  apply assign_cons_shape in E as (bd & v & -> & ->).
  apply conserved_set_other; auto; discriminate.
Qed.

Lemma store_inv_aug_assign_projects (date category k : string) (x : Q)
  (d d' : value) :
  store_inv d ->
  aug_assign [date; category; "projects"] k x d = Ok d' -> store_inv d'.
Proof.
  intros H Ha.
  change [date; category; "projects"]
    with ([date; category] ++ ["projects"])%list in Ha.
  destruct (aug_assign_Ok_get_path _ _ _ _ _ _ Ha) as (b & Hb).
  rewrite (aug_assign_focus _ _ _ _ _ _ Hb) in Ha.
  destruct (aug_assign ["projects"] k x b) as [b'|] eqn:E; [|discriminate].
  injection Ha as <-. apply (store_inv_plug_bucket _ _ _ _ _ H Hb).
  intros Hne. pose proof (store_inv_bucket _ _ _ _ H Hne Hb) as Hc.
  apply aug_assign_cons_shape in E as (bd & v & -> & ->).
  apply conserved_set_other; auto; discriminate.
Qed.

(** The statement groups keep the invariant. *)
Lemma preserves_ensure_bucket (date category : string) (bucket : value) :
  conserved bucket ->
  preserves store_inv (ensure_bucket date category bucket).
Proof.
  intros Hb. unfold ensure_bucket.
  apply preserves_bind; [apply preserves_eval|]. intros has_date.
  apply preserves_bind.
  { apply preserves_when, preserves_exec. intros d d' H.
    apply store_inv_assign_day; auto using good_day_empty. }
  intros _. apply preserves_bind; [apply preserves_eval|]. intros has_cat.
  apply preserves_when, preserves_exec. intros d d' H.
  now apply store_inv_assign_bucket.
Qed.

Lemma preserves_add_app_time (date category app_name : string) (x : Q) :
  preserves store_inv (add_app_time date category app_name x).
Proof.
  destruct (String.eqb_spec date "streaks") as [->|Hne].
  - unfold add_app_time.
    apply preserves_bind; [apply preserves_eval|]. intros has_app.
    apply preserves_bind.
    { apply preserves_when, preserves_exec. intros d d' H.
      now apply store_inv_assign_streaks. }
    intros _. apply preserves_bind.
    { apply preserves_exec. intros d d' H.
      now apply store_inv_aug_assign_streaks. }
    intros _. apply preserves_exec. intros d d' H.
    now apply store_inv_aug_assign_streaks.
  - intros t H.
    destruct (get_path [date; category] (data t)) as [b|e] eqn:Hb.
    + pose proof (store_inv_bucket _ _ _ _ H Hne Hb) as Hc.
      destruct (bucket_add_app_conserved app_name x b Hc)
        as (b' & total & seconds & Hadd & Hc' & _).
      rewrite (add_app_time_focus _ _ _ _ _ _ _ Hb Hadd). simpl.
      now apply (store_inv_plug_bucket _ _ _ _ _ H Hb).
    + unfold add_app_time, bind, eval, contains_at.
      change [date; category; "apps"]
        with ([date; category] ++ ["apps"])%list.
      rewrite get_path_app, Hb. simpl. exact H.
Qed.

Lemma preserves_add_project_time (date category project : string) (x : Q) :
  preserves store_inv (add_project_time date category project x).
Proof.
  unfold add_project_time.
  apply preserves_bind; [apply preserves_eval|]. intros has_project.
  apply preserves_bind.
  { apply preserves_when, preserves_exec. intros d d' H.
    now apply store_inv_assign_projects. }
  intros _. apply preserves_exec. intros d d' H.
  now apply store_inv_aug_assign_projects.
Qed.

(** [record_time] and [manual_time_entry] keep the invariant, also when
    they raise. *)
Lemma preserves_record_time (today app_name : string) (x : Q)
  (project : option string) :
  preserves store_inv (record_time today app_name x project).
Proof.
  intros t H. unfold record_time.
  destruct (is_excluded (cfg t) app_name); [exact H|].
  cbv zeta. generalize (categorize_app (cfg t) app_name). intros category.
  match goal with
  | |- store_inv (data (snd (?m t))) =>
      assert (Hp : preserves store_inv m); [|exact (Hp t H)]
  end.
  apply preserves_bind; [apply preserves_log_unknown_app|]. intros _.
  apply preserves_bind.
  { apply preserves_ensure_bucket, conserved_new_bucket. }
  intros _. apply preserves_bind; [apply preserves_add_app_time|]. intros _.
  unfold track_project.
  destruct project as [p|]; [|apply preserves_ret].
  destruct (p =? ""); [apply preserves_ret|].
  apply preserves_bind; [apply preserves_eval|]. intros has_projects.
  apply preserves_when, preserves_add_project_time.
Qed.

Lemma store_inv_fresh : store_inv fresh_data.
Proof.
  eexists. split; [reflexivity|]. constructor; [|constructor].
  simpl. congruence.
Qed.

(** ** Manual entries *)

Example manual_entry_example :
  let t := snd (manual_time_entry "2024-03-05" "Notes" "Writing" 30 None
                  (Some "2024-01-01") (init default_config 300)) in
  get_path ["2024-01-01"; "Writing"; "total_seconds"] (data t)
  = Ok (VNum 1800) /\
  get_path ["2024-01-01"; "Writing"; "apps"; "Notes"] (data t)
  = Ok (VNum 1800) /\
  data_file t = Some (data t).
Proof. vm_compute. repeat split; reflexivity. Qed.

(** ** The classifier *)

Example categorize_editor :
  categorize_app default_config "Code.exe - tracker.py" = "Coding".
Proof. reflexivity. Qed.

Example categorize_browser_site :
  categorize_app default_config "chrome.exe - YouTube" = "Entertainment".
Proof. reflexivity. Qed.

Example categorize_plain_browser :
  categorize_app default_config "firefox" = "Browsing".
Proof. reflexivity. Qed.

Example categorize_empty : categorize_app default_config "" = "Other".
Proof. reflexivity. Qed.


(** ** The projects field of a bucket *)

Lemma set_data_same (t : tracker) : set_data (data t) t = t.
Proof. now destruct t. Qed.

Lemma bind_Ok {A B : Type} (m : M A) (f : A -> M B) (t t' : tracker) (a : A) :
  m t = (Ok a, t') -> bind m f t = f a t'.
Proof. intros H. unfold bind. now rewrite H. Qed.

Lemma log_unknown_app_data (app_name : string) (t : tracker) :
  exists t',
    log_unknown_app app_name t = (Ok tt, t') /\ data t' = data t /\
    cfg t' = cfg t.
Proof.
  unfold log_unknown_app.
  destruct (categorize_app (cfg t) app_name =? "Other"); eauto.
Qed.

Lemma get_path_two (date category : string) (d b : value) :
  get_path [date; category] d = Ok b <->
  exists entries cats,
    d = VDict entries /\ dict_get date entries = Some (VDict cats) /\
    dict_get category cats = Some b.
Proof.
  split.
  - simpl. destruct (py_getitem d date) as [day|] eqn:E; [|discriminate].
    apply py_getitem_Ok in E as (entries & -> & Hday).
    destruct (py_getitem day category) as [x|] eqn:E; [|discriminate].
    apply py_getitem_Ok in E as (cats & -> & Hb).
    intros [= ->]. eauto.
  - intros (entries & cats & -> & Hday & Hb). simpl. rewrite Hday. simpl.
    now rewrite Hb.
Qed.

Lemma bind_ret_eq {A B : Type} (a : A) (k : A -> M B) (t : tracker) :
  bind (ret a) k t = k a t.
Proof. reflexivity. Qed.

Lemma bind_eval_Ok {A B : Type} (f : value -> result A) (k : A -> M B)
  (t : tracker) (a : A) :
  f (data t) = Ok a -> bind (eval f) k t = k a t.
Proof. intros H. unfold bind, eval. now rewrite H. Qed.

Lemma bind_eval_Raise {A B : Type} (f : value -> result A) (k : A -> M B)
  (t : tracker) (e : exn) :
  f (data t) = Raise e -> bind (eval f) k t = (Raise e, t).
Proof. intros H. unfold bind, eval. now rewrite H. Qed.

Lemma exec_Ok (f : value -> result value) (t : tracker) (d : value) :
  f (data t) = Ok d -> exec f t = (Ok tt, set_data d t).
Proof. intros H. unfold exec. now rewrite H. Qed.

Lemma exec_Raise (f : value -> result value) (t : tracker) (e : exn) :
  f (data t) = Raise e -> exec f t = (Raise e, t).
Proof. intros H. unfold exec. now rewrite H. Qed.

Lemma bind_exec_Ok {B : Type} (f : value -> result value) (k : unit -> M B)
  (t : tracker) (d : value) :
  f (data t) = Ok d -> bind (exec f) k t = k tt (set_data d t).
Proof. intros H. unfold bind. now rewrite (exec_Ok _ _ _ H). Qed.

Lemma bind_exec_Raise {B : Type} (f : value -> result value)
  (k : unit -> M B) (t : tracker) (e : exn) :
  f (data t) = Raise e -> bind (exec f) k t = (Raise e, t).
Proof. intros H. unfold bind. now rewrite (exec_Raise _ _ _ H). Qed.

Lemma py_contains_dict (k : string) (entries : dict) :
  py_contains k (VDict entries) = Ok (dict_has k entries).
Proof. reflexivity. Qed.

Lemma dict_has_Some (k : string) (x : value) (d : dict) :
  dict_get k d = Some x -> dict_has k d = true.
Proof. intros H. unfold dict_has. now rewrite H. Qed.

Lemma dict_has_None (k : string) (d : dict) :
  dict_get k d = None -> dict_has k d = false.
Proof. intros H. unfold dict_has. now rewrite H. Qed.

(** When the bucket exists, "Initialize data structure" does nothing. *)
Lemma ensure_bucket_existing (date category : string) (bucket b : value)
  (t : tracker) :
  get_path [date; category] (data t) = Ok b ->
  ensure_bucket date category bucket t = (Ok tt, t).
Proof.
  intros H. apply get_path_two in H as (entries & cats & Hd & Hday & Hb).
  unfold ensure_bucket.
  rewrite (bind_eval_Ok _ _ _ true)
    by (rewrite Hd, py_contains_dict; f_equal; eapply dict_has_Some; eauto).
  simpl negb. unfold when at 1. rewrite bind_ret_eq.
  rewrite (bind_eval_Ok _ _ _ true).
  - reflexivity.
  - rewrite Hd, (contains_at_sub _ _ _ _ Hday). f_equal.
    eapply dict_has_Some; eauto.
Qed.

(** When it does not, the bucket literal is stored. *)
Lemma ensure_bucket_new (date category : string) (bucket : value)
  (t : tracker) :
  store_inv (data t) -> date <> "streaks" ->
  (forall b, get_path [date; category] (data t) <> Ok b) ->
  exists d,
    ensure_bucket date category bucket t = (Ok tt, set_data d t) /\
    get_path [date; category] d = Ok bucket.
Proof.
  intros Hinv Hne Hnew. pose proof Hinv as (entries & Hd & Hall).
  unfold ensure_bucket.
  destruct (dict_get date entries) as [day|] eqn:Hday.
  - assert (Hgood : good_day day).
    { apply (store_inv_day date day _ Hinv Hne). rewrite Hd. simpl.
      now rewrite Hday. }
    destruct Hgood as (cats & -> & _).
    assert (Hcat : dict_get category cats = None).
    { destruct (dict_get category cats) as [b|] eqn:Hb; [|reflexivity].
      exfalso. apply (Hnew b). apply get_path_two. eauto. }
    rewrite (bind_eval_Ok _ _ _ true)
      by (rewrite Hd, py_contains_dict; f_equal; eapply dict_has_Some; eauto).
    simpl negb. unfold when at 1. rewrite bind_ret_eq.
    rewrite (bind_eval_Ok _ _ _ false)
      by (rewrite Hd, (contains_at_sub _ _ _ _ Hday); f_equal;
          now apply dict_has_None).
    simpl negb. unfold when.
    eexists. split.
    + apply exec_Ok. rewrite Hd. apply assign_sub. exact Hday.
    + apply get_path_two. do 2 eexists. split; [reflexivity|].
      rewrite !dict_get_set_same. auto.
  - rewrite (bind_eval_Ok _ _ _ false)
      by (rewrite Hd, py_contains_dict; f_equal; now apply dict_has_None).
    simpl negb. unfold when at 1.
    rewrite (bind_exec_Ok _ _ _ (VDict (dict_set date (VDict []) entries)))
      by (now rewrite Hd).
    rewrite (bind_eval_Ok _ _ _ false)
      by (simpl data;
          now rewrite (contains_at_sub _ _ _ _ (dict_get_set_same _ _ _))).
    simpl negb. unfold when.
    eexists. split.
    + rewrite (exec_Ok _ _
                 (VDict (dict_set date (VDict (dict_set category bucket []))
                           (dict_set date (VDict []) entries)))).
      * reflexivity.
      * simpl data. apply assign_sub. apply dict_get_set_same.
    + apply get_path_two. do 2 eexists. split; [reflexivity|].
      rewrite !dict_get_set_same. split; reflexivity.
Qed.

Lemma track_project_falsy (today category : string) (project : option string)
  (x : Q) (t : tracker) :
  truthy project = false ->
  track_project today category project x t = (Ok tt, t).
Proof.
  unfold track_project, truthy. destruct project as [p|]; [|reflexivity].
  now destruct (p =? "").
Qed.

Lemma projects_field_bucket (today category : string) (d b : value) :
  get_path [today; category] d = Ok b ->
  projects_field today category d = py_getitem b "projects".
Proof.
  intros H. unfold projects_field.
  change [today; category; "projects"]
    with ([today; category] ++ ["projects"])%list.
  rewrite get_path_app, H. simpl. now destruct (py_getitem b "projects").
Qed.

Lemma contains_at_field (k1 k : string) (v : value) (bd : dict) :
  dict_get k1 bd = Some v ->
  contains_at [k1] k (VDict bd) = py_contains k v.
Proof. intros H. unfold contains_at. simpl. now rewrite H. Qed.

Lemma assign_field_not_dict (k1 k : string) (v y : value) (bd : dict) :
  dict_get k1 bd = Some v -> (forall d, v <> VDict d) ->
  assign [k1] k y (VDict bd) = Raise TypeError.
Proof.
  intros H Hv. simpl. rewrite H. destruct v; try reflexivity.
  now destruct (Hv d).
Qed.

Lemma aug_assign_field_not_dict (k1 k : string) (v : value) (x : Q)
  (bd : dict) :
  dict_get k1 bd = Some v -> (forall d, v <> VDict d) ->
  aug_assign [k1] k x (VDict bd) = Raise TypeError.
Proof.
  intros H Hv. unfold aug_assign. simpl. rewrite H. simpl.
  destruct v; try reflexivity. now destruct (Hv d).
Qed.

Lemma projects_field_Ok (today category : string) (d pv : value) :
  projects_field today category d = Ok pv ->
  exists bd,
    get_path [today; category] d = Ok (VDict bd) /\
    dict_get "projects" bd = Some pv.
Proof.
  unfold projects_field.
  change [today; category; "projects"]
    with ([today; category] ++ ["projects"])%list.
  rewrite get_path_app.
  destruct (get_path [today; category] d) as [b|]; [|discriminate].
  simpl. destruct (py_getitem b "projects") as [pv'|] eqn:Hp; [|discriminate].
  intros [= ->]. apply py_getitem_Ok in Hp as (bd & -> & Hp). eauto.
Qed.

(** With a project given, the tracking by project returns only when the
    projects field of the bucket is a dictionary. *)
Lemma track_project_returns (today category : string)
  (project : option string) (x : Q) (t : tracker) (pv : value) :
  projects_field today category (data t) = Ok pv ->
  fst (track_project today category project x t) = Ok tt ->
  is_mapping pv \/ truthy project = false.
Proof.
  intros Hpv. unfold track_project, truthy.
  destruct project as [p|]; [|now right].
  destruct (p =? ""); [now right|]. intros Hok. left.
  apply projects_field_Ok in Hpv as (bd & Hb & Hp).
  destruct pv as [| | | s | l | pd]; [| | | | |now exists pd]; exfalso;
    revert Hok;
    (rewrite (bind_eval_Ok _ _ _ true)
      by (unfold contains_at; rewrite Hb, py_contains_dict; f_equal;
          eapply dict_has_Some; eauto));
    unfold when, add_project_time;
    change [today; category; "projects"]
      with ([today; category] ++ ["projects"])%list;
    try (rewrite (bind_eval_Raise _ _ _ TypeError)
           by (now rewrite (contains_at_focus _ _ _ _ _ Hb),
                 (contains_at_field _ _ _ _ Hp));
         discriminate).
  - rewrite (bind_eval_Ok _ _ _ (str_in p s))
      by (now rewrite (contains_at_focus _ _ _ _ _ Hb),
            (contains_at_field _ _ _ _ Hp)).
    destruct (str_in p s); simpl negb; unfold when.
    + rewrite bind_ret_eq, (exec_Raise _ _ TypeError); [discriminate|].
      rewrite (aug_assign_focus _ _ _ _ _ _ Hb).
      now rewrite (aug_assign_field_not_dict _ _ _ _ _ Hp).
    + rewrite (bind_exec_Raise _ _ _ TypeError); [discriminate|].
      rewrite (assign_focus _ _ _ _ _ _ Hb).
      now rewrite (assign_field_not_dict _ _ _ _ _ Hp).
  - rewrite (bind_eval_Ok _ _ _ (existsb (is_str p) l))
      by (now rewrite (contains_at_focus _ _ _ _ _ Hb),
            (contains_at_field _ _ _ _ Hp)).
    destruct (existsb (is_str p) l); simpl negb; unfold when.
    + rewrite bind_ret_eq, (exec_Raise _ _ TypeError); [discriminate|].
      rewrite (aug_assign_focus _ _ _ _ _ _ Hb).
      now rewrite (aug_assign_field_not_dict _ _ _ _ _ Hp).
    + rewrite (bind_exec_Raise _ _ _ TypeError); [discriminate|].
      rewrite (assign_focus _ _ _ _ _ _ Hb).
      now rewrite (assign_field_not_dict _ _ _ _ _ Hp).
Qed.

(** With a project given and the projects field [None], it raises
    [TypeError] and changes nothing. *)
Lemma track_project_null (today category : string) (project : option string)
  (x : Q) (t : tracker) :
  projects_field today category (data t) = Ok VNone ->
  truthy project = true ->
  track_project today category project x t = (Raise TypeError, t).
Proof.
  intros Hpv Htruthy. unfold track_project. unfold truthy in Htruthy.
  destruct project as [p|]; [|discriminate].
  destruct (p =? ""); [discriminate|].
  apply projects_field_Ok in Hpv as (bd & Hb & Hp).
  rewrite (bind_eval_Ok _ _ _ true)
    by (unfold contains_at; rewrite Hb, py_contains_dict; f_equal;
        eapply dict_has_Some; eauto).
  unfold when, add_project_time.
  change [today; category; "projects"]
    with ([today; category] ++ ["projects"])%list.
  apply bind_eval_Raise.
  now rewrite (contains_at_focus _ _ _ _ _ Hb), (contains_at_field _ _ _ _ Hp).
Qed.

(** ** The shape of the store *)

Lemma py_sum_numeric (apps : dict) (sum : Q) :
  py_sum (map snd apps) = Ok sum ->
  Forall (fun kv => exists q, as_number (snd kv) = Ok q) apps.
Proof.
  revert sum. induction apps as [|[app v] apps IH]; simpl; intros sum Hs;
    [constructor|].
  destruct (as_number v) as [q|] eqn:E; [|discriminate]. simpl in Hs.
  destruct (py_sum (map snd apps)) as [r|]; [|discriminate].
  constructor; [now exists q|]. now apply (IH r).
Qed.

Lemma conserved_bucket_shape (b : value) : conserved b -> bucket_shape b.
Proof.
  intros H. apply conserved_shape in H
    as (bd & tv & total & apps & sum & -> & Htv & Ht & Happs & Hsum & _).
  exists bd, tv, total, apps. repeat split; auto.
  now apply (py_sum_numeric apps sum).
Qed.

Lemma good_day_shape (day : value) : good_day day -> day_shape day.
Proof.
  intros (cats & -> & Hall). exists cats. split; [reflexivity|].
  eapply Forall_impl; [|exact Hall]. intros kv. apply conserved_bucket_shape.
Qed.

(** A store that satisfies the accounting invariant is well-formed. *)
Lemma store_inv_shape (d : value) : store_inv d -> store_shape d.
Proof.
  intros (entries & -> & Hall). exists entries. split; [reflexivity|].
  eapply Forall_impl; [|exact Hall]. intros kv H Hne.
  now apply good_day_shape, H.
Qed.

(** On a bucket of the right shape, "Add time" does not raise and adds
    the duration to the total and to the app. *)
Lemma bucket_add_app_shape (app_name : string) (x : Q) (b : value) :
  bucket_shape b ->
  exists b' total seconds,
    bucket_add_app app_name x b = Ok b' /\
    (forall k, k <> "apps" -> k <> "total_seconds" ->
               py_getitem b' k = py_getitem b k) /\
    bucket_total b = Ok total /\ bucket_total b' = Ok (total + x) /\
    app_seconds app_name b = Ok seconds /\
    app_seconds app_name b' = Ok (seconds + x).
Proof.
  intros (bd & tv & total & apps & -> & Htv & Ht & Hav & Hnum).
  assert (Hfinal : forall apps1 old o,
    dict_get app_name apps1 = Some old -> as_number old = Ok o ->
    let b1 := VDict (dict_set "apps" (VDict apps1) bd) in
    let b' := VDict (dict_set "total_seconds" (VNum (total + x))
                (dict_set "apps"
                   (VDict (dict_set app_name (VNum (o + x)) apps1)) bd)) in
    (let* b2 := aug_assign ["apps"] app_name x b1 in
     aug_assign [] "total_seconds" x b2) = Ok b' /\
    (forall k, k <> "apps" -> k <> "total_seconds" ->
               py_getitem b' k = py_getitem (VDict bd) k) /\
    bucket_total b' = Ok (total + x) /\
    app_seconds app_name b' = Ok (o + x)).
  { intros apps1 old o Hold Ho b1 b'. subst b1 b'.
    rewrite (aug_assign_sub "apps" app_name x o old _ apps1);
      [|apply dict_get_set_same|assumption|assumption].
    rewrite dict_set_set. rb.
    rewrite (aug_assign_top "total_seconds" x total tv);
      [|rewrite dict_get_set_other by discriminate; assumption|assumption].
    split; [reflexivity|]. split; [|split].
    - intros k Hk1 Hk2. simpl.
      now rewrite !dict_get_set_other by congruence.
    - unfold bucket_total. simpl. now rewrite dict_get_set_same.
    - unfold app_seconds. simpl.
      rewrite dict_get_set_other by discriminate.
      rewrite dict_get_set_same. simpl. now rewrite dict_get_set_same. }
  unfold bucket_add_app.
  rewrite (contains_at_sub "apps" app_name bd apps Hav). rb.
  assert (Htot : bucket_total (VDict bd) = Ok total).
  { unfold bucket_total. simpl. now rewrite Htv. }
  destruct (dict_get app_name apps) as [old|] eqn:Happ.
  - assert (Hhas : dict_has app_name apps = true)
      by (apply dict_has_get; eauto).
    rewrite Hhas. rb.
    destruct (dict_get_Forall _ _ _ _ Hnum Happ) as (o & Ho). simpl in Ho.
    destruct (Hfinal apps old o Happ Ho) as (H1 & H2 & H3 & H4).
    rewrite (dict_set_get_id "apps" (VDict apps) bd Hav) in H1.
    eexists. exists total, o. split; [exact H1|]. repeat split; auto.
    unfold app_seconds. simpl. rewrite Hav. simpl. now rewrite Happ.
  - assert (Hhas : dict_has app_name apps = false)
      by (now apply dict_has_false).
    rewrite Hhas. rb.
    rewrite (assign_sub "apps" app_name (VNum 0) bd apps Hav). rb.
    destruct (Hfinal (dict_set app_name (VNum 0) apps) (VNum 0) 0
                (dict_get_set_same _ _ _) eq_refl)
      as (H1 & H2 & H3 & H4).
    rewrite dict_set_set in *.
    eexists. exists total, 0. split; [exact H1|]. repeat split; auto.
    unfold app_seconds. simpl. rewrite Hav. simpl. now rewrite Happ.
Qed.

Lemma store_shape_day (date : string) (day d : value) :
  store_shape d -> date <> "streaks" -> get_path [date] d = Ok day ->
  day_shape day.
Proof.
  intros (entries & -> & Hall) Hne Hget. simpl in Hget.
  destruct (dict_get date entries) as [x|] eqn:E; [|discriminate].
  injection Hget as ->.
  now apply (dict_get_Forall _ _ _ _ Hall E).
Qed.

Lemma store_shape_bucket (date category : string) (b d : value) :
  store_shape d -> date <> "streaks" ->
  get_path [date; category] d = Ok b -> bucket_shape b.
Proof.
  intros H Hne Hget. apply get_path_two in Hget
    as (entries & cats & -> & Hday & Hb).
  assert (Hshape : day_shape (VDict cats)).
  { apply (store_shape_day date _ _ H Hne). simpl. now rewrite Hday. }
  destruct Hshape as (cats' & [= <-] & Hall).
  now apply (dict_get_Forall _ _ _ _ Hall Hb).
Qed.

Lemma bucket_shape_new_bucket (project : option string) :
  bucket_shape (new_bucket project).
Proof.
  unfold new_bucket. do 4 eexists. split; [reflexivity|].
  repeat split; try reflexivity. constructor.
Qed.

Lemma ensure_bucket_new_shape (date category : string) (bucket : value)
  (t : tracker) :
  store_shape (data t) -> date <> "streaks" ->
  (forall b, get_path [date; category] (data t) <> Ok b) ->
  exists d,
    ensure_bucket date category bucket t = (Ok tt, set_data d t) /\
    get_path [date; category] d = Ok bucket.
Proof.
  intros Hinv Hne Hnew. pose proof Hinv as (entries & Hd & Hall).
  unfold ensure_bucket.
  destruct (dict_get date entries) as [day|] eqn:Hday.
  - assert (Hgood : day_shape day).
    { apply (store_shape_day date day _ Hinv Hne). rewrite Hd. simpl.
      now rewrite Hday. }
    destruct Hgood as (cats & -> & _).
    assert (Hcat : dict_get category cats = None).
    { destruct (dict_get category cats) as [b|] eqn:Hb; [|reflexivity].
      exfalso. apply (Hnew b). apply get_path_two. eauto. }
    rewrite (bind_eval_Ok _ _ _ true)
      by (rewrite Hd, py_contains_dict; f_equal; eapply dict_has_Some; eauto).
    simpl negb. unfold when at 1. rewrite bind_ret_eq.
    rewrite (bind_eval_Ok _ _ _ false)
      by (rewrite Hd, (contains_at_sub _ _ _ _ Hday); f_equal;
          now apply dict_has_None).
    simpl negb. unfold when.
    eexists. split.
    + apply exec_Ok. rewrite Hd. apply assign_sub. exact Hday.
    + apply get_path_two. do 2 eexists. split; [reflexivity|].
      rewrite !dict_get_set_same. auto.
  - rewrite (bind_eval_Ok _ _ _ false)
      by (rewrite Hd, py_contains_dict; f_equal; now apply dict_has_None).
    simpl negb. unfold when at 1.
    rewrite (bind_exec_Ok _ _ _ (VDict (dict_set date (VDict []) entries)))
      by (now rewrite Hd).
    rewrite (bind_eval_Ok _ _ _ false)
      by (simpl data;
          now rewrite (contains_at_sub _ _ _ _ (dict_get_set_same _ _ _))).
    simpl negb. unfold when.
    eexists. split.
    + rewrite (exec_Ok _ _
                 (VDict (dict_set date (VDict (dict_set category bucket []))
                           (dict_set date (VDict []) entries)))).
      * reflexivity.
      * simpl data. apply assign_sub. apply dict_get_set_same.
    + apply get_path_two. do 2 eexists. split; [reflexivity|].
      rewrite !dict_get_set_same. split; reflexivity.
Qed.

(** [record_time] on a well-formed store, statement group by statement
    group: after the bucket [b] is found or created and "Add time" turned
    it into [b'], the call is what is left, the tracking by project. *)
Lemma record_time_steps_shape (today app_name : string) (x : Q)
  (project : option string) (t : tracker) :
  store_shape (data t) -> today <> "streaks" ->
  is_excluded (cfg t) app_name = false ->
  let category := categorize_app (cfg t) app_name in
  exists t0 d1 b b' total seconds,
    data t0 = data t /\
    get_path [today; category] d1 = Ok b /\
    ((get_path [today; category] (data t) = Ok b /\ d1 = data t) \/
     ((forall b0, get_path [today; category] (data t) <> Ok b0) /\
      b = new_bucket project)) /\
    (forall k, k <> "apps" -> k <> "total_seconds" ->
               py_getitem b' k = py_getitem b k) /\
    bucket_total b = Ok total /\ bucket_total b' = Ok (total + x) /\
    app_seconds app_name b = Ok seconds /\
    app_seconds app_name b' = Ok (seconds + x) /\
    record_time today app_name x project t
    = track_project today category project x
        (set_data (plug [today; category] b' d1) t0).
Proof.
  intros Hinv Hne Hex category.
  destruct (log_unknown_app_data app_name t) as (t0 & Hlog & Hd0 & _).
  assert (Hens : exists d1 b,
    ensure_bucket today category (new_bucket project) t0
    = (Ok tt, set_data d1 t0) /\
    get_path [today; category] d1 = Ok b /\ bucket_shape b /\
    ((get_path [today; category] (data t) = Ok b /\ d1 = data t) \/
     ((forall b0, get_path [today; category] (data t) <> Ok b0) /\
      b = new_bucket project))).
  { destruct (get_path [today; category] (data t)) as [b|e] eqn:Hb.
    - exists (data t), b. rewrite <- Hd0 at 1. rewrite set_data_same.
      split; [|split; [|split]]; auto.
      + apply (ensure_bucket_existing _ _ _ b). now rewrite Hd0.
      + now apply (store_shape_bucket today category b (data t)).
    - destruct (ensure_bucket_new_shape today category (new_bucket project)
                  t0) as (d1 & Hens & Hget).
      + now rewrite Hd0.
      + assumption.
      + rewrite Hd0, Hb. discriminate.
      + exists d1, (new_bucket project).
        split; [|split; [|split]]; auto using bucket_shape_new_bucket.
        right. split; [discriminate|reflexivity]. }
  destruct Hens as (d1 & b & Hens & Hget & Hcons & Hcase).
  destruct (bucket_add_app_shape app_name x b Hcons)
    as (b' & total & seconds & Hadd & Hother & Ht & Ht' & Hs & Hs').
  exists t0, d1, b, b', total, seconds.
  repeat (split; [assumption|]).
  unfold record_time. rewrite Hex. fold category.
  rewrite (bind_Ok _ _ _ _ _ Hlog), (bind_Ok _ _ _ _ _ Hens).
  now rewrite (bind_Ok _ _ _ _ _
                 (add_app_time_focus today category app_name x
                    (set_data d1 t0) b b' Hget Hadd)).
Qed.

(** The same on a store that satisfies the accounting invariant. *)
Lemma record_time_steps (today app_name : string) (x : Q)
  (project : option string) (t : tracker) :
  store_inv (data t) -> today <> "streaks" ->
  is_excluded (cfg t) app_name = false ->
  let category := categorize_app (cfg t) app_name in
  exists t0 d1 b b' total seconds,
    data t0 = data t /\
    get_path [today; category] d1 = Ok b /\
    ((get_path [today; category] (data t) = Ok b /\ d1 = data t) \/
     ((forall b0, get_path [today; category] (data t) <> Ok b0) /\
      b = new_bucket project)) /\
    (forall k, k <> "apps" -> k <> "total_seconds" ->
               py_getitem b' k = py_getitem b k) /\
    bucket_total b = Ok total /\ bucket_total b' = Ok (total + x) /\
    app_seconds app_name b = Ok seconds /\
    app_seconds app_name b' = Ok (seconds + x) /\
    record_time today app_name x project t
    = track_project today category project x
        (set_data (plug [today; category] b' d1) t0).
Proof.
  intros Hinv Hne Hex category.
  destruct (log_unknown_app_data app_name t) as (t0 & Hlog & Hd0 & _).
  assert (Hens : exists d1 b,
    ensure_bucket today category (new_bucket project) t0
    = (Ok tt, set_data d1 t0) /\
    get_path [today; category] d1 = Ok b /\ conserved b /\
    ((get_path [today; category] (data t) = Ok b /\ d1 = data t) \/
     ((forall b0, get_path [today; category] (data t) <> Ok b0) /\
      b = new_bucket project))).
  { destruct (get_path [today; category] (data t)) as [b|e] eqn:Hb.
    - exists (data t), b. rewrite <- Hd0 at 1. rewrite set_data_same.
      split; [|split; [|split]]; auto.
      + apply (ensure_bucket_existing _ _ _ b). now rewrite Hd0.
      + now apply (store_inv_bucket today category b (data t)).
    - destruct (ensure_bucket_new today category (new_bucket project) t0)
        as (d1 & Hens & Hget).
      + now rewrite Hd0.
      + assumption.
      + rewrite Hd0, Hb. discriminate.
      + exists d1, (new_bucket project).
        split; [|split; [|split]]; auto using conserved_new_bucket.
        right. split; [discriminate|reflexivity]. }
  destruct Hens as (d1 & b & Hens & Hget & Hcons & Hcase).
  destruct (bucket_add_app_conserved app_name x b Hcons)
    as (b' & total & seconds & Hadd & _ & Hother & Ht & Ht' & Hs & Hs').
  exists t0, d1, b, b', total, seconds.
  repeat (split; [assumption|]).
  unfold record_time. rewrite Hex. fold category.
  rewrite (bind_Ok _ _ _ _ _ Hlog), (bind_Ok _ _ _ _ _ Hens).
  now rewrite (bind_Ok _ _ _ _ _
                 (add_app_time_focus today category app_name x
                    (set_data d1 t0) b b' Hget Hadd)).
Qed.

(** C10.  (1) A bucket created by [record_time] without a project has
    [None] in its projects field.  (2) On a bucket whose projects field
    is [None], a [record_time] call for the same date and category with a
    project raises [TypeError], after the duration was added to the
    bucket's total and to the app.  (3) [record_time] returns only when
    the projects field of the bucket is a dictionary or no project is
    given.  "No project" is Python's falsity: [None] or the empty
    string.  All three hold on a well-formed store, for an app that is
    not excluded, under a date key. *)
Theorem record_time_null_projects :
  (forall t today app_name x project,
     store_shape (data t) -> today <> "streaks" ->
     is_excluded (cfg t) app_name = false ->
     let category := categorize_app (cfg t) app_name in
     (forall b, get_path [today; category] (data t) <> Ok b) ->
     truthy project = false ->
     let r := record_time today app_name x project t in
     fst r = Ok tt /\
     projects_field today category (data (snd r)) = Ok VNone) /\
  (forall t today app_name x project,
     store_shape (data t) -> today <> "streaks" ->
     is_excluded (cfg t) app_name = false ->
     let category := categorize_app (cfg t) app_name in
     projects_field today category (data t) = Ok VNone ->
     truthy project = true ->
     let r := record_time today app_name x project t in
     fst r = Raise TypeError /\
     exists b b' total seconds,
       get_path [today; category] (data t) = Ok b /\
       get_path [today; category] (data (snd r)) = Ok b' /\
       bucket_total b = Ok total /\
       bucket_total b' = Ok (total + x) /\
       app_seconds app_name b = Ok seconds /\
       app_seconds app_name b' = Ok (seconds + x)) /\
  (forall t today app_name x project pv,
     store_shape (data t) -> today <> "streaks" ->
     is_excluded (cfg t) app_name = false ->
     let category := categorize_app (cfg t) app_name in
     projects_field today category (data t) = Ok pv ->
     fst (record_time today app_name x project t) = Ok tt ->
     is_mapping pv \/ truthy project = false).
Proof.
  split; [|split].
  - intros t today app_name x project Hinv Hne Hex category Hnew Hfalsy r.
    destruct (record_time_steps_shape today app_name x project t Hinv Hne
                Hex)
      as (t0 & d1 & b & b' & total & seconds & Hd0 & Hget & Hcase & Hother
          & _ & _ & _ & _ & Hrec).
    fold category in Hget, Hcase, Hrec.
    destruct Hcase as [[Hb _]|[_ ->]]; [now destruct (Hnew b)|].
    subst r. rewrite Hrec, track_project_falsy by assumption.
    split; [reflexivity|]. simpl snd. simpl data.
    rewrite (projects_field_bucket _ _ _ b')
      by (eapply get_path_plug; eauto).
    rewrite Hother by discriminate.
    unfold new_bucket. now rewrite Hfalsy.
  - intros t today app_name x project Hinv Hne Hex category Hpv Htruthy r.
    destruct (record_time_steps_shape today app_name x project t Hinv Hne
                Hex)
      as (t0 & d1 & b & b' & total & seconds & Hd0 & Hget & Hcase & Hother
          & Ht & Ht' & Hs & Hs' & Hrec).
    fold category in Hget, Hcase, Hrec.
    destruct (projects_field_Ok _ _ _ _ Hpv) as (bd & Hb & Hp).
    destruct Hcase as [[Hb' ->]|[Hnew _]]; [|now destruct (Hnew (VDict bd))].
    assert (Hget' : get_path [today; category]
                      (plug [today; category] b' (data t)) = Ok b')
      by (eapply get_path_plug; eauto).
    subst r. rewrite Hrec, track_project_null; auto.
    + split; [reflexivity|]. exists b, b', total, seconds.
      repeat split; auto.
    + simpl data. rewrite (projects_field_bucket _ _ _ b' Hget').
      rewrite Hother by discriminate.
      now rewrite <- (projects_field_bucket _ _ _ b Hb').
  - intros t today app_name x project pv Hinv Hne Hex category Hpv Hok.
    destruct (record_time_steps_shape today app_name x project t Hinv Hne
                Hex)
      as (t0 & d1 & b & b' & total & seconds & Hd0 & Hget & Hcase & Hother
          & _ & _ & _ & _ & Hrec).
    fold category in Hget, Hcase, Hrec.
    destruct (projects_field_Ok _ _ _ _ Hpv) as (bd & Hb & Hp).
    destruct Hcase as [[Hb' ->]|[Hnew _]]; [|now destruct (Hnew (VDict bd))].
    assert (Hget' : get_path [today; category]
                      (plug [today; category] b' (data t)) = Ok b')
      by (eapply get_path_plug; eauto).
    rewrite Hrec in Hok.
    apply (track_project_returns _ _ _ _ _ pv) in Hok; auto.
    simpl data. rewrite (projects_field_bucket _ _ _ b' Hget').
    rewrite Hother by discriminate.
    now rewrite <- (projects_field_bucket _ _ _ b Hb').
Qed.

Lemma store_inv_example_tracker : store_inv (data example_tracker).
Proof.
  apply (preserves_record_time "2024-01-02" "vim" 5 None
           (init default_config 300)).
  apply store_inv_fresh.
Qed.

Lemma record_time_null_projects_witness :
  (let r := record_time "2024-01-02" "vim" 5 None (init default_config 300) in
   fst r = Ok tt /\
   projects_field "2024-01-02" "Coding" (data (snd r)) = Ok VNone) /\
  (let r := record_time "2024-01-02" "Terminal - make" (7 # 2)
              (Some "thesis") example_tracker in
   fst r = Raise TypeError /\
   exists b b' total seconds,
     get_path ["2024-01-02"; "Coding"] (data example_tracker) = Ok b /\
     get_path ["2024-01-02"; "Coding"] (data (snd r)) = Ok b' /\
     bucket_total b = Ok total /\
     bucket_total b' = Ok (total + (7 # 2)) /\
     app_seconds "Terminal - make" b = Ok seconds /\
     app_seconds "Terminal - make" b' = Ok (seconds + (7 # 2))) /\
  (is_mapping (VDict [("thesis", VNum 5)]) \/ truthy (Some "thesis") = false).
Proof.
  destruct record_time_null_projects as (Hnew & Hraise & Hreturn).
  split; [|split].
  - apply (Hnew (init default_config 300) "2024-01-02" "vim" 5 None).
    + apply store_inv_shape, store_inv_fresh.
    + discriminate.
    + reflexivity.
    + intros b. vm_compute. discriminate.
    + reflexivity.
  - apply (Hraise example_tracker "2024-01-02" "Terminal - make" (7 # 2)
             (Some "thesis")).
    + apply store_inv_shape, store_inv_example_tracker.
    + discriminate.
    + reflexivity.
    + vm_compute. reflexivity.
    + reflexivity.
  - apply (Hreturn
             (snd (record_time "2024-01-02" "vim" 5 (Some "thesis")
                     (init default_config 300)))
             "2024-01-02" "vim" 5 (Some "thesis")).
    + apply store_inv_shape, preserves_record_time, store_inv_fresh.
    + discriminate.
    + reflexivity.
    + vm_compute. reflexivity.
    + vm_compute. reflexivity.
Defined.

(** C10, as the specification words it, fails for a project that is not
    null but empty: on the Coding bucket of [example_tracker], whose
    projects field is [None], [record_time] with the empty string for
    project adds the seconds and returns. *)
Lemma null_projects_counterexample :
  ~ null_projects_raise /\ ~ returns_only_with_mapping.
Proof.
  split; intros H.
  - specialize (H example_tracker "2024-01-02" "vim" "" 5).
    assert (Hfalse : Ok tt = Raise TypeError) by (apply H; reflexivity).
    discriminate.
  - destruct (H example_tracker "2024-01-02" "vim" 5 (Some "") VNone)
      as [[d Hd]|Hn]; try reflexivity; discriminate.
Qed.

(** ** Excluded apps *)

(** When the test of [record_time] finds the app excluded, the call
    returns and the tracker is left as it was. *)
Lemma record_time_excluded (today app_name : string) (x : Q)
  (project : option string) (t : tracker) :
  is_excluded (cfg t) app_name = true ->
  record_time today app_name x project t = (Ok tt, t).
Proof. intros H. unfold record_time. now rewrite H. Qed.

(** The test agrees with case-insensitive matching when the patterns are
    written in lower case. *)
Lemma is_excluded_lower_patterns (c : config) (app_name : string) :
  Forall (fun pattern => lower pattern = pattern) (excluded_apps c) ->
  is_excluded c app_name = matches_exclusion c app_name.
Proof.
  unfold is_excluded, matches_exclusion, ci_substring.
  induction 1 as [|pattern l Hp _ IH]; simpl; [reflexivity|].
  now rewrite Hp, IH.
Qed.

(** C5, at the failing input.  The excluded-apps list holds "Steam" and
    the app is "Steam.exe": the pattern matches case-insensitively, the
    test of [record_time] compares the pattern as written with the
    lower-cased app name and misses it, and the call changes the store. *)
Theorem exclusion_misses_uppercase_pattern :
  let r := record_time "2024-01-02" "Steam.exe" 5 None steam_tracker in
  matches_exclusion (cfg steam_tracker) "Steam.exe" = true /\
  is_excluded (cfg steam_tracker) "Steam.exe" = false /\
  fst r = Ok tt /\
  data (snd r) <> data steam_tracker /\
  get_path ["2024-01-02"; "Entertainment"; "apps"; "Steam.exe"] (data (snd r))
  = Ok (VNum 5).
Proof.
  vm_compute. repeat split; try reflexivity. discriminate.
Qed.

(** ** Aggregations over the date keys *)

Lemma In_insert_sorted (x y : string) (l : list string) :
  In y (insert_sorted x l) <-> y = x \/ In y l.
Proof.
  induction l as [|z l IH]; simpl.
  - intuition.
  - destruct (String.leb x z); simpl; rewrite ?IH; intuition.
Qed.

Lemma In_sorted (y : string) (l : list string) :
  In y (sorted l) <-> In y l.
Proof.
  unfold sorted. induction l as [|x l IH]; simpl; [reflexivity|].
  rewrite In_insert_sorted, IH. intuition.
Qed.

Lemma dict_get_In_keys (k : string) (x : value) (d : dict) :
  dict_get k d = Some x -> In k (map fst d).
Proof.
  induction d as [|[k' y] d IH]; simpl; [discriminate|].
  destruct (String.eqb_spec k' k); auto.
Qed.

Lemma export_dates_raises (d : value) (dates : list string) (date : string)
  (cats : list (string * value)) (e : exn) :
  In date dates ->
  (let* day := py_getitem d date in py_items day) = Ok cats ->
  snd (export_categories date cats) = Raise e ->
  exists e', snd (export_dates d dates) = Raise e'.
Proof.
  intros Hin Hcats Hraise. induction dates as [|x dates IH]; [destruct Hin|].
  simpl. destruct Hin as [->|Hin].
  - rewrite Hcats. destruct (export_categories date cats) as [rows r].
    simpl in Hraise. subst r. simpl. eauto.
  - destruct (let* day := py_getitem d x in py_items day) as [cats'|];
      [|simpl; eauto].
    destruct (export_categories x cats') as [rows [u|e0]]; simpl; eauto.
Qed.

(** Whatever else the store holds, [export_csv] raises once the store has
    the streak ledger that [__init__] puts there. *)
Lemma export_csv_raises (t : tracker) (entries rest : dict) (current : value) :
  data t = VDict entries ->
  dict_get "streaks" entries = Some (VDict (("current", current) :: rest)) ->
  (forall a, current <> VDict a) ->
  exists e, snd (export_csv t) = Raise e.
Proof.
  intros Hd Hs Hc. unfold export_csv. rewrite Hd. simpl py_keys. cbv iota.
  apply (export_dates_raises _ _ "streaks" (("current", current) :: rest)
           TypeError).
  - apply In_sorted. eapply dict_get_In_keys; eauto.
  - simpl. now rewrite Hs.
  - simpl. destruct current; try reflexivity. now destruct (Hc d).
Qed.

(** C3, at the failing input.  On the store left by one [record_time]
    call on a fresh tracker, the three aggregations take the key
    "streaks" for a date: [export_csv] writes the row of the day and then
    raises [TypeError], [display_insights] and [list_previous_days] raise
    [TypeError]. *)
Theorem aggregations_take_streaks_for_a_date :
  py_keys (data example_tracker) = Ok ["streaks"; "2024-01-02"] /\
  export_csv example_tracker
  = ([("2024-01-02", "Coding", "vim", 5 / 3600)], Raise TypeError) /\
  display_insights example_tracker = Raise TypeError /\
  list_previous_days 10 example_tracker = Raise TypeError.
Proof. vm_compute. repeat split; reflexivity. Qed.

(** ** Exceptions in the loops *)

(** An exception raised by one iteration leaves [TimeTracker.run],
    whatever samples would have followed. *)
Lemma run_raises (check_interval : Q) (s : sample) (rest : list event)
  (t t' : tracker) (e : exn) :
  run_iteration check_interval s t = (Raise e, t') ->
  run check_interval (Tick s :: rest) t = (Raise e, t').
Proof. intros H. simpl. unfold bind. now rewrite H. Qed.

(** In [TimeTrackerGUI.run_tracker] it is logged and the loop goes on. *)
Lemma run_tracker_logs (s : sample) (rest : list sample) (g : gui)
  (t' : tracker) (e : exn) :
  run_tracker_body s (tracker_of g) = (Raise e, t') ->
  fold_left (fun g s => run_tracker_iteration s g) (s :: rest) g
  = fold_left (fun g s => run_tracker_iteration s g) rest
      (mkGui t' (Some e) (logged g ++ [e])%list).
Proof. intros H. simpl. unfold run_tracker_iteration at 2. now rewrite H. Qed.

(** C4, at the failing input.  The Coding bucket has no projects
    dictionary and a project is set, so the [record_time] call of the
    second sample raises [TypeError].  [TimeTracker.run] ends with that
    exception: the samples after it are not taken and the tracker stays
    on "vim".  [TimeTrackerGUI.run_tracker] logs the exception and goes
    on through the idle sample to "chrome.exe". *)
Theorem run_aborts_on_exception :
  let cli := run 5 (map Tick thesis_samples) thesis_tracker in
  let gui := run_tracker thesis_samples (mkGui thesis_tracker None []) in
  fst cli = Raise TypeError /\
  current_app (snd cli) = Some "vim" /\
  logged gui = [TypeError] /\
  current_app (tracker_of gui) = Some "chrome.exe".
Proof. vm_compute. repeat split; reflexivity. Qed.

(** ** Pausing *)

(** A paused iteration changes nothing: [start_time] stays where it
    was. *)
Lemma run_iteration_paused (check_interval : Q) (s : sample) (t : tracker) :
  is_paused t = true -> run_iteration check_interval s t = (Ok tt, t).
Proof. intros H. unfold run_iteration. now rewrite H. Qed.

Lemma run_paused (check_interval : Q) (samples : list sample)
  (rest : list event) (t : tracker) :
  is_paused t = true ->
  run check_interval (map Tick samples ++ rest) t = run check_interval rest t.
Proof.
  intros Hp. induction samples as [|s samples IH]; [reflexivity|].
  simpl. now rewrite (bind_Ok _ _ _ _ _ (run_iteration_paused _ s t Hp)).
Qed.

(** A pause, however many samples it spans, leaves the tracker as it
    was: the loop goes on as if no time had passed, with the
    [start_time] from before the pause. *)
Lemma pause_is_invisible (check_interval : Q) (samples : list sample)
  (rest : list event) (t : tracker) :
  is_paused t = false ->
  run check_interval (TogglePause :: map Tick samples ++ TogglePause :: rest) t
  = run check_interval rest t.
Proof.
  intros Hp. simpl. unfold bind at 1, modify at 1.
  rewrite run_paused by (simpl; now rewrite Hp).
  simpl. unfold bind, modify. simpl. rewrite Hp. simpl.
  destruct t. simpl in Hp. now subst.
Qed.

(** On the same app, an iteration records all the time since
    [start_time]. *)
Lemma run_iteration_same_app (check_interval : Q) (s : sample) (t : tracker)
  (idle t0 : Q) (app : string) :
  is_paused t = false ->
  idle_probe s = Ok idle -> Qltb idle (idle_threshold t) = true ->
  window_probe s = Ok app -> app <> "" -> app <> "Unknown" ->
  is_app_blocked t app = false ->
  current_app t = Some app -> start_time t = Some t0 ->
  Qle_bool check_interval (now s - t0) = true ->
  run_iteration check_interval s t
  = (record_time (today s) app (now s - t0) (current_project t) ;;
     modify (set_start_time (Some (now s))) ;;
     save_data) t.
Proof.
  intros Hp Hidle Hlt Hwin Hne Hunk Hblock Hcur Hstart Hle.
  unfold run_iteration. rewrite Hp.
  unfold bind at 1, probe at 1. rewrite Hidle.
  unfold bind at 1, get at 1. rewrite Hlt.
  unfold bind at 1, probe at 1. rewrite Hwin.
  apply String.eqb_neq in Hne, Hunk. rewrite Hne, Hunk.
  change (negb false && negb false)%bool with true. cbv beta iota.
  unfold bind at 1, get at 1. rewrite Hblock.
  unfold bind at 1, get at 1. unfold is_current. rewrite Hcur.
  rewrite String.eqb_refl.
  unfold bind at 1, elapsed_since_start at 1. rewrite Hstart, Hle.
  unfold when. unfold bind at 1, get at 1. reflexivity.
Qed.

(** C8, at the failing input.  Tracking is paused after the sample at 105
    seconds and resumed before the one at 605; the two samples in between
    are skipped.  [start_time] is still 105 at the sample after the
    pause, whose [record_time] call adds the 500 seconds that include
    the pause: "vim" ends with 505 seconds. *)
Theorem paused_interval_is_recorded :
  let r := run 5 paused_session (init default_config 300) in
  fst r = Ok tt /\
  get_path ["2024-01-02"; "Coding"; "apps"; "vim"] (data (snd r))
  = Ok (VNum 505) /\
  get_path ["2024-01-02"; "Coding"; "total_seconds"] (data (snd r))
  = Ok (VNum 505).
Proof. vm_compute. repeat split; reflexivity. Qed.

(** ** Idle ticks *)

Lemma Qltb_false (a b : Q) : b <= a -> Qltb a b = false.
Proof.
  intros H. unfold Qltb. apply Qle_bool_iff in H. now rewrite H.
Qed.

Lemma run_iteration_idle (check_interval : Q) (s : sample) (t : tracker) :
  is_paused t = false -> idle_sample (idle_threshold t) s ->
  run_iteration check_interval s t = (Ok tt, idle_state t).
Proof.
  intros Hp (idle & Hprobe & Hle). unfold run_iteration. rewrite Hp.
  unfold bind, probe, get. rewrite Hprobe, (Qltb_false _ _ Hle).
  unfold idle_state. now destruct (truthy (current_app t)).
Qed.

Lemma run_tracker_body_idle (s : sample) (t : tracker) :
  idle_sample (idle_threshold t) s ->
  run_tracker_body s t = (Ok tt, idle_state t).
Proof.
  intros (idle & Hprobe & Hle). unfold run_tracker_body.
  unfold bind, probe, get. rewrite Hprobe, (Qltb_false _ _ Hle).
  unfold idle_state. now destruct (truthy (current_app t)).
Qed.

Lemma idle_state_fields (t : tracker) :
  data (idle_state t) = data t /\
  idle_threshold (idle_state t) = idle_threshold t /\
  is_paused (idle_state t) = is_paused t /\
  truthy (current_app (idle_state t)) = false /\
  (truthy (current_app t) = true ->
   current_app (idle_state t) = None /\ start_time (idle_state t) = None).
Proof.
  unfold idle_state. destruct (truthy (current_app t)) eqn:E; simpl;
    repeat split; auto; discriminate.
Qed.

Lemma idle_state_idem (t : tracker) : idle_state (idle_state t) = idle_state t.
Proof.
  destruct (idle_state_fields t) as (_ & _ & _ & H & _).
  unfold idle_state at 1. now rewrite H.
Qed.

Lemma run_idle (check_interval : Q) (samples : list sample) (t : tracker) :
  is_paused t = false ->
  Forall (idle_sample (idle_threshold t)) samples ->
  run check_interval (map Tick samples) t
  = (Ok tt, match samples with [] => t | _ => idle_state t end).
Proof.
  revert t. induction samples as [|s samples IH]; intros t Hp Hall.
  - reflexivity.
  - inversion Hall as [|? ? Hs Hrest]; subst. simpl map. simpl run.
    rewrite (bind_Ok _ _ _ _ _ (run_iteration_idle check_interval s t Hp Hs)).
    destruct (idle_state_fields t) as (_ & Hth & Hpa & _).
    rewrite IH.
    + destruct samples; [reflexivity|]. now rewrite idle_state_idem.
    + now rewrite Hpa.
    + now rewrite Hth.
Qed.

Lemma run_tracker_idle (samples : list sample) (g : gui) :
  Forall (idle_sample (idle_threshold (tracker_of g))) samples ->
  fold_left (fun g s => run_tracker_iteration s g) samples g
  = mkGui (match samples with
           | [] => tracker_of g
           | _ => idle_state (tracker_of g)
           end) (last_error g) (logged g).
Proof.
  revert g. induction samples as [|s samples IH]; intros g Hall.
  - now destruct g.
  - inversion Hall as [|? ? Hs Hrest]; subst. simpl fold_left.
    unfold run_tracker_iteration at 2.
    rewrite (run_tracker_body_idle s _ Hs).
    destruct (idle_state_fields (tracker_of g)) as (_ & Hth & _).
    rewrite IH; simpl tracker_of.
    + destruct samples; [reflexivity|]. now rewrite idle_state_idem.
    + now rewrite Hth.
Qed.

(** C1, as the code has it.  On ticks with at least [idle_threshold] idle
    seconds, neither loop calls [record_time]: the store stays as it is,
    and when an app was tracked [current_app] and [start_time] become
    [None], so the time elapsed since [start_time] is dropped; further
    idle ticks add nothing. *)
Theorem idle_ticks_record_nothing (check_interval : Q)
  (samples : list sample) (t : tracker) :
  is_paused t = false ->
  Forall (idle_sample (idle_threshold t)) samples ->
  let cli := run check_interval (map Tick samples) t in
  let gui := run_tracker samples (mkGui t None []) in
  data (snd cli) = data t /\
  logged gui = [] /\ data (tracker_of gui) = data t /\
  (samples <> [] -> truthy (current_app t) = true ->
   current_app (snd cli) = None /\ start_time (snd cli) = None /\
   current_app (tracker_of gui) = None /\
   start_time (tracker_of gui) = None).
Proof.
  intros Hp Hall cli gui. subst cli gui.
  rewrite (run_idle check_interval samples t Hp Hall).
  unfold run_tracker. rewrite run_tracker_idle by exact Hall.
  simpl fst. simpl snd. simpl tracker_of. simpl logged.
  destruct (idle_state_fields t) as (Hd & _ & _ & _ & Hnone).
  destruct (idle_state_fields (set_is_paused false t))
    as (Hd' & _ & _ & _ & Hnone').
  destruct samples as [|s samples];
    (split; [auto|]); (split; [reflexivity|]); (split; [auto|]);
    intros Hne Ht.
  - now destruct Hne.
  - destruct (Hnone Ht) as (H1 & H2). destruct (Hnone' Ht) as (H3 & H4).
    auto.
Qed.

Lemma idle_ticks_record_nothing_witness :
  let samples := [sample_at 103 "vim" 400; sample_at 108 "vim" 405] in
  let cli := run 5 (map Tick samples) vim_tracker in
  let gui := run_tracker samples (mkGui vim_tracker None []) in
  data (snd cli) = data vim_tracker /\
  logged gui = [] /\ data (tracker_of gui) = data vim_tracker /\
  (samples <> [] -> truthy (current_app vim_tracker) = true ->
   current_app (snd cli) = None /\ start_time (snd cli) = None /\
   current_app (tracker_of gui) = None /\
   start_time (tracker_of gui) = None).
Proof.
  apply (idle_ticks_record_nothing 5
           [sample_at 103 "vim" 400; sample_at 108 "vim" 405] vim_tracker).
  - reflexivity.
  - repeat constructor.
    + exists 400. split; [reflexivity|]. apply Qle_bool_imp_le. reflexivity.
    + exists 405. split; [reflexivity|]. apply Qle_bool_imp_le. reflexivity.
Defined.

(** C1, as the specification states it, fails in both loops: at 103
    seconds, with "vim" tracked since 100 and 400 idle seconds, the tick
    leaves the store as it was, while the flush of the 3 elapsed seconds
    would have created the day. *)
Lemma idle_flush_counterexample :
  ~ flushes_on_idle (run_iteration 5) /\ ~ flushes_on_idle run_tracker_body.
Proof.
  split; intros H;
    specialize (H vim_tracker (sample_at 103 "vim" 400) 400 "vim" 100);
    destruct H as [H _];
    try reflexivity; try discriminate;
    try (apply Qle_bool_imp_le; reflexivity);
    vm_compute in H; discriminate.
Qed.

(** ** Streaks *)

Lemma existsb_eqb_In (x : string) (l : list string) :
  In x l -> existsb (String.eqb x) l = true.
Proof.
  intros H. apply existsb_exists. exists x. split; [exact H|].
  apply String.eqb_refl.
Qed.

Lemma Qltb_zero_hours (goal_hours : Q) :
  0 < goal_hours -> Qltb (0 / 3600) goal_hours = true.
Proof.
  intros H. unfold Qltb. destruct (Qle_bool goal_hours (0 / 3600)) eqn:E;
    [|reflexivity].
  apply Qle_bool_iff in E. exfalso. apply (Qlt_not_le _ _ H).
  apply (Qle_trans _ _ _ E). vm_compute. discriminate.
Qed.

(** The hours of one category of a well-formed day record are read
    without an exception. *)
Lemma day_seconds_Ok (category : string) (cats : dict) :
  good_day (VDict cats) ->
  exists q,
    (let* bucket := py_get (VDict cats) category (VDict []) in
     let* seconds := py_get bucket "total_seconds" (VNum 0) in
     as_number seconds) = Ok q /\
    (dict_get category cats = None -> q = 0).
Proof.
  intros Hgood. simpl.
  destruct (dict_get category cats) as [b|] eqn:Hb.
  - assert (Hc : conserved b).
    { apply (good_day_bucket category (VDict cats) b Hgood). simpl.
      now rewrite Hb. }
    apply conserved_shape in Hc
      as (bd & tv & total & apps & sum & -> & Htv & Ht & _).
    simpl. rewrite Htv. simpl. rewrite Ht. exists total. split; congruence.
  - simpl. exists 0. split; reflexivity.
Qed.

(** With a productive category whose positive goal has no data in a
    well-formed day record, the loop over the goals ends with
    [goals_met = False]. *)
Lemma goals_met_loop_no_data (goal_items : list (string * Q))
  (productive : list string) (yesterday category : string) (goal_hours : Q)
  (entries cats : dict) :
  dict_get yesterday entries = Some (VDict cats) ->
  good_day (VDict cats) ->
  In (category, goal_hours) goal_items -> In category productive ->
  0 < goal_hours -> dict_get category cats = None ->
  goals_met_loop goal_items productive yesterday (VDict entries) = Ok false.
Proof.
  intros Hday Hgood Hin Hprod Hpos Hnone.
  induction goal_items as [|[cat g] rest IH]; [destruct Hin|].
  simpl. destruct (existsb (String.eqb cat) productive) eqn:Hcat.
  - rewrite Hday. rb.
    destruct (day_seconds_Ok cat cats Hgood) as (q & Hq & Hzero).
    unfold rbind in Hq.
    destruct (py_get (VDict cats) cat (VDict [])) as [bucket|];
      [|discriminate].
    destruct (py_get bucket "total_seconds" (VNum 0)) as [seconds|];
      [|discriminate].
    rewrite Hq.
    destruct (Qltb (q / 3600) g) eqn:Hlt; [reflexivity|].
    destruct Hin as [[= -> ->]|Hin]; [|auto].
    rewrite (Hzero Hnone), (Qltb_zero_hours _ Hpos) in Hlt. discriminate.
  - destruct Hin as [[= -> ->]|Hin]; [|auto].
    rewrite (existsb_eqb_In _ _ Hprod) in Hcat. discriminate.
Qed.

Lemma last_date_eval (entries ledger : dict) :
  dict_get "streaks" entries = Some (VDict ledger) ->
  (let* s := py_getitem (VDict entries) "streaks" in
   py_get s "last_date" VNone)
  = Ok match dict_get "last_date" ledger with
       | Some v => v
       | None => VNone
       end.
Proof.
  intros H. simpl. rewrite H. simpl. now destruct (dict_get "last_date" ledger).
Qed.

(** C7, as the code has it.  When [update_streaks] runs with
    [last_date != today], yesterday has a day record, and a productive
    category with a goal above 0 has no data in it, the hours count as 0,
    the goal is missed, [current] is reset to 0 and [last_date] becomes
    today.  When yesterday has no day record, [update_streaks] changes
    nothing. *)
Theorem streak_reset_needs_day_record :
  (forall t today yesterday category goal_hours entries ledger cats cur c,
     data t = VDict entries ->
     dict_get "streaks" entries = Some (VDict ledger) ->
     dict_get "current" ledger = Some cur -> as_number cur = Ok c ->
     (forall v, dict_get "last_date" ledger = Some v ->
                is_str today v = false) ->
     dict_get yesterday entries = Some (VDict cats) ->
     good_day (VDict cats) ->
     In (category, goal_hours) (goals (cfg t)) ->
     In category (productive_categories (cfg t)) ->
     0 < goal_hours ->
     dict_get category cats = None ->
     let r := update_streaks today yesterday t in
     fst r = Ok tt /\
     get_path ["streaks"; "current"] (data (snd r)) = Ok (VNum 0) /\
     get_path ["streaks"; "last_date"] (data (snd r)) = Ok (VStr today)) /\
  (forall t today yesterday entries ledger,
     data t = VDict entries ->
     dict_get "streaks" entries = Some (VDict ledger) ->
     dict_get yesterday entries = None ->
     update_streaks today yesterday t = (Ok tt, t)).
Proof.
  split.
  - intros t today yesterday category goal_hours entries ledger cats cur c
      Hd Hs Hcur Hc Hlast Hday Hgood Hin Hprod Hpos Hnone r. subst r.
    unfold update_streaks.
    rewrite (bind_eval_Ok _ _ _ _
               (eq_trans (f_equal _ Hd) (last_date_eval _ _ Hs))).
    assert (Hne : is_str today
                    match dict_get "last_date" ledger with
                    | Some v => v
                    | None => VNone
                    end = false).
    { destruct (dict_get "last_date" ledger); auto. }
    rewrite Hne. change (negb false) with true. cbv beta iota.
    rewrite (bind_eval_Ok _ _ _ true)
      by (rewrite Hd, py_contains_dict; f_equal; eapply dict_has_Some; eauto).
    cbv beta iota.
    rewrite (bind_Ok _ _ t t false)
      by (unfold eval; rewrite Hd;
          now rewrite (goals_met_loop_no_data _ _ _ _ _ _ _
                         Hday Hgood Hin Hprod Hpos Hnone)).
    cbv beta iota.
    set (ledger1 := dict_set "current" (VNum 0) ledger).
    set (entries1 := dict_set "streaks" (VDict ledger1) entries).
    set (ledger2 := dict_set "last_date" (VStr today) ledger1).
    set (entries2 := dict_set "streaks" (VDict ledger2) entries1).
    assert (Hrun :
      ((_ <- eval (fun d => let* c := get_path ["streaks"; "current"] d in
                            py_gt c (VNum 0)) ;;
        exec (assign ["streaks"] "current" (VNum 0))) ;;
       exec (assign ["streaks"] "last_date" (VStr today)) ;;
       save_data) t
      = (Ok tt, set_data_file (Some (VDict entries2))
                  (set_data (VDict entries2) t))).
    { rewrite (bind_Ok _ _ t (set_data (VDict entries1) t) tt).
      - rewrite (bind_exec_Ok _ _ _ (VDict entries2)); [reflexivity|].
        simpl data. apply assign_sub. apply dict_get_set_same.
      - rewrite (bind_eval_Ok _ _ _ (Qltb 0 c)).
        + apply exec_Ok. rewrite Hd. now apply assign_sub.
        + rewrite Hd. simpl. rewrite Hs. simpl. rewrite Hcur. simpl.
          unfold py_gt. now rewrite Hc. }
    rewrite Hrun. split; [reflexivity|]. simpl snd. simpl data.
    unfold entries2, ledger2, ledger1. simpl.
    rewrite !dict_get_set_same. simpl.
    rewrite dict_get_set_other by discriminate.
    rewrite !dict_get_set_same. auto.
  - intros t today yesterday entries ledger Hd Hs Hy.
    unfold update_streaks.
    rewrite (bind_eval_Ok _ _ _ _
               (eq_trans (f_equal _ Hd) (last_date_eval _ _ Hs))).
    destruct (negb _); [|reflexivity].
    rewrite (bind_eval_Ok _ _ _ false); [reflexivity|].
    rewrite Hd, py_contains_dict. f_equal. now apply dict_has_None.
Qed.

Lemma good_day_browsing_day : good_day browsing_day.
Proof.
  eexists. split; [reflexivity|]. constructor; [|constructor].
  exists 600, 600. repeat split; reflexivity.
Qed.

Lemma streak_reset_needs_day_record_witness :
  (let r := update_streaks "2024-01-03" "2024-01-02" browsing_tracker in
   fst r = Ok tt /\
   get_path ["streaks"; "current"] (data (snd r)) = Ok (VNum 0) /\
   get_path ["streaks"; "last_date"] (data (snd r))
   = Ok (VStr "2024-01-03")) /\
  update_streaks "2024-01-03" "2024-01-02" gap_tracker = (Ok tt, gap_tracker).
Proof.
  destruct streak_reset_needs_day_record as (Hreset & Hskip).
  split.
  - apply (Hreset browsing_tracker "2024-01-03" "2024-01-02" "Coding" 4
             [("streaks",
               VDict [("current", VNum 3); ("longest", VNum 5);
                      ("last_date", VStr "2024-01-02")]);
              ("2024-01-01", coding_day);
              ("2024-01-02", browsing_day)]
             [("current", VNum 3); ("longest", VNum 5);
              ("last_date", VStr "2024-01-02")]
             [("Browsing",
               VDict [("total_seconds", VNum 600);
                      ("apps", VDict [("chrome.exe", VNum 600)]);
                      ("projects", VNone)])]
             (VNum 3) 3).
    + reflexivity.
    + reflexivity.
    + reflexivity.
    + reflexivity.
    + intros v [= <-]. reflexivity.
    + reflexivity.
    + apply good_day_browsing_day.
    + simpl. auto.
    + simpl. auto.
    + reflexivity.
    + reflexivity.
  - apply (Hskip gap_tracker "2024-01-03" "2024-01-02"
             [("streaks",
               VDict [("current", VNum 3); ("longest", VNum 5);
                      ("last_date", VStr "2024-01-01")]);
              ("2024-01-01", coding_day)]
             [("current", VNum 3); ("longest", VNum 5);
              ("last_date", VStr "2024-01-01")]).
    + reflexivity.
    + reflexivity.
    + reflexivity.
Defined.

(** A goal of 0 hours is met without data: the streak goes on. *)
Example zero_goal_is_met :
  let r := update_streaks "2024-01-03" "2024-01-02" zero_goal_tracker in
  fst r = Ok tt /\
  get_path ["streaks"; "current"] (data (snd r)) = Ok (VNum 4).
Proof. vm_compute. split; reflexivity. Qed.

(** C7, as the specification states it, fails when yesterday has no day
    record: with a streak of 3 reached on 2024-01-01, a Coding goal of 4
    hours and nothing tracked on 2024-01-02, [update_streaks] on
    2024-01-03 leaves [current] at 3. *)
Lemma streak_reset_counterexample : ~ resets_streak_without_data.
Proof.
  intros H.
  specialize (H gap_tracker "2024-01-03" "2024-01-02" "Coding" 4
                (VStr "2024-01-01")).
  assert (Hcur : get_path ["streaks"; "current"]
                   (data (snd (update_streaks "2024-01-03" "2024-01-02"
                                 gap_tracker)))
                 = Ok (VNum 3)) by reflexivity.
  rewrite Hcur in H.
  assert (Hfalse : Ok (VNum 3) = Ok (VNum 0)).
  { apply H.
    - reflexivity.
    - reflexivity.
    - simpl. auto.
    - simpl. auto.
    - left. reflexivity. }
  discriminate.
Qed.

(** * Further properties *)

(** ** What the store methods leave alone *)

Lemma keeps_ret {V A : Type} (view : tracker -> V) (a : A) :
  keeps view (ret a).
Proof. intros t. reflexivity. Qed.

Lemma keeps_bind {V A B : Type} (view : tracker -> V) (m : M A)
  (f : A -> M B) :
  keeps view m -> (forall a, keeps view (f a)) -> keeps view (bind m f).
Proof.
  intros Hm Hf t. unfold bind. specialize (Hm t).
  destruct (m t) as [[a|e] t']; simpl in *; auto.
  now rewrite Hf.
Qed.

Lemma keeps_eval {V A : Type} (view : tracker -> V) (f : value -> result A) :
  keeps view (eval f).
Proof. intros t. reflexivity. Qed.

Lemma keeps_when {V : Type} (view : tracker -> V) (b : bool) (m : M unit) :
  keeps view m -> keeps view (when b m).
Proof. destruct b; simpl; auto using keeps_ret. Qed.

Lemma keeps_exec {V : Type} (view : tracker -> V) (f : value -> result value) :
  (forall d t, view (set_data d t) = view t) -> keeps view (exec f).
Proof.
  intros H t. unfold exec. destruct (f (data t)); simpl; auto.
Qed.

Lemma keeps_log_unknown_app {V : Type} (view : tracker -> V)
  (app_name : string) :
  (forall l t, view (set_unknown_apps l t) = view t) ->
  keeps view (log_unknown_app app_name).
Proof.
  intros H t. unfold log_unknown_app.
  destruct (categorize_app (cfg t) app_name =? "Other"); simpl; auto.
Qed.

(** A view that reads neither the store nor the set of unknown apps is
    kept by [record_time]. *)
Lemma keeps_record_time {V : Type} (view : tracker -> V)
  (today app_name : string) (x : Q) (project : option string) :
  (forall d t, view (set_data d t) = view t) ->
  (forall l t, view (set_unknown_apps l t) = view t) ->
  keeps view (record_time today app_name x project).
Proof.
  intros Hd Hl t. unfold record_time.
  destruct (is_excluded (cfg t) app_name); [reflexivity|].
  cbv zeta. generalize (categorize_app (cfg t) app_name). intros category.
  match goal with
  | |- view (snd (?m t)) = view t => assert (Hk : keeps view m); [|apply Hk]
  end.
  apply keeps_bind; [now apply keeps_log_unknown_app|]. intros _.
  apply keeps_bind.
  { unfold ensure_bucket.
    apply keeps_bind; [apply keeps_eval|]. intros ?.
    apply keeps_bind; [now apply keeps_when, keeps_exec|]. intros _.
    apply keeps_bind; [apply keeps_eval|]. intros ?.
    now apply keeps_when, keeps_exec. }
  intros _. apply keeps_bind.
  { unfold add_app_time.
    apply keeps_bind; [apply keeps_eval|]. intros ?.
    apply keeps_bind; [now apply keeps_when, keeps_exec|]. intros _.
    apply keeps_bind; [now apply keeps_exec|]. intros _.
    now apply keeps_exec. }
  intros _. unfold track_project.
  destruct project as [p|]; [|apply keeps_ret].
  destruct (p =? ""); [apply keeps_ret|].
  apply keeps_bind; [apply keeps_eval|]. intros ?.
  apply keeps_when. unfold add_project_time.
  apply keeps_bind; [apply keeps_eval|]. intros ?.
  apply keeps_bind; [now apply keeps_when, keeps_exec|]. intros _.
  now apply keeps_exec.
Qed.

Lemma record_time_session (today app_name : string) (x : Q)
  (project : option string) (t : tracker) :
  session (snd (record_time today app_name x project t)) = session t /\
  data_file (snd (record_time today app_name x project t)) = data_file t.
Proof.
  split; apply keeps_record_time; reflexivity.
Qed.

(** The entries of other keys. *)
Lemma other_key_assign_top (k date : string) (x d d' : value) :
  k <> date -> assign [] k x d = Ok d' -> py_getitem d' date = py_getitem d date.
Proof.
  intros Hne. destruct d; simpl; try discriminate. intros [= <-]. simpl.
  now rewrite dict_get_set_other.
Qed.

Lemma other_key_plug (k date : string) (c c' d : value) :
  k <> date -> get_path [k] d = Ok c ->
  py_getitem (plug [k] c' d) date = py_getitem d date.
Proof.
  intros Hne H. simpl in H.
  destruct (py_getitem d k) as [x|] eqn:E; [|discriminate].
  apply py_getitem_Ok in E as (entries & -> & Hk).
  rewrite plug_dict, Hk. simpl. now rewrite dict_get_set_other.
Qed.

Lemma other_key_assign (k date : string) (q : list string) (k' : string)
  (x d d' : value) :
  k <> date -> assign (k :: q) k' x d = Ok d' ->
  py_getitem d' date = py_getitem d date.
Proof.
  intros Hne Ha. change (k :: q) with ([k] ++ q)%list in Ha.
  destruct (assign_Ok_get_path _ _ _ _ _ _ Ha) as (c & Hc).
  rewrite (assign_focus _ _ _ _ _ _ Hc) in Ha.
  destruct (assign q k' x c) as [c'|]; [|discriminate]. injection Ha as <-.
  now apply (other_key_plug k date c).
Qed.

Lemma other_key_aug_assign (k date : string) (q : list string) (k' : string)
  (x : Q) (d d' : value) :
  k <> date -> aug_assign (k :: q) k' x d = Ok d' ->
  py_getitem d' date = py_getitem d date.
Proof.
  intros Hne Ha. change (k :: q) with ([k] ++ q)%list in Ha.
  destruct (aug_assign_Ok_get_path _ _ _ _ _ _ Ha) as (c & Hc).
  rewrite (aug_assign_focus _ _ _ _ _ _ Hc) in Ha.
  destruct (aug_assign q k' x c) as [c'|]; [|discriminate]. injection Ha as <-.
  now apply (other_key_plug k date c).
Qed.

Lemma preserves_other_key_groups (date other : string) (r : result value) :
  date <> other ->
  (forall category bucket,
     preserves (fun d => py_getitem d other = r)
       (ensure_bucket date category bucket)) /\
  (forall category app_name x,
     preserves (fun d => py_getitem d other = r)
       (add_app_time date category app_name x)) /\
  (forall category project x,
     preserves (fun d => py_getitem d other = r)
       (add_project_time date category project x)).
Proof.
  intros Hne.
  assert (Ha : forall q k x d d',
    py_getitem d other = r -> assign (date :: q) k x d = Ok d' ->
    py_getitem d' other = r).
  { intros q k x d d' H E. now rewrite (other_key_assign _ _ _ _ _ _ _ Hne E). }
  assert (Hg : forall q k x d d',
    py_getitem d other = r -> aug_assign (date :: q) k x d = Ok d' ->
    py_getitem d' other = r).
  { intros q k x d d' H E.
    now rewrite (other_key_aug_assign _ _ _ _ _ _ _ Hne E). }
  split; [|split].
  - intros category bucket. unfold ensure_bucket.
    apply preserves_bind; [apply preserves_eval|]. intros ?.
    apply preserves_bind.
    { apply preserves_when, preserves_exec. intros d d' H E.
      now rewrite (other_key_assign_top _ _ _ _ _ Hne E). }
    intros _. apply preserves_bind; [apply preserves_eval|]. intros ?.
    apply preserves_when, preserves_exec. intros d d'. apply Ha.
  - intros category app_name x. unfold add_app_time.
    apply preserves_bind; [apply preserves_eval|]. intros ?.
    apply preserves_bind.
    { apply preserves_when, preserves_exec. intros d d'. apply Ha. }
    intros _. apply preserves_bind; [|intros _];
      apply preserves_exec; intros d d'; apply Hg.
  - intros category project x. unfold add_project_time.
    apply preserves_bind; [apply preserves_eval|]. intros ?.
    apply preserves_bind.
    { apply preserves_when, preserves_exec. intros d d'. apply Ha. }
    intros _. apply preserves_exec. intros d d'. apply Hg.
Qed.

Lemma preserves_other_key_record_time (today other app_name : string) (x : Q)
  (project : option string) (r : result value) :
  today <> other ->
  preserves (fun d => py_getitem d other = r)
    (record_time today app_name x project).
Proof.
  intros Hne t H.
  destruct (preserves_other_key_groups today other r Hne) as (He & Ha & Hp).
  unfold record_time.
  destruct (is_excluded (cfg t) app_name); [exact H|].
  cbv zeta. generalize (categorize_app (cfg t) app_name). intros category.
  match goal with
  | |- py_getitem (data (snd (?m t))) _ = _ =>
      assert (Hk : preserves (fun d => py_getitem d other = r) m);
        [|exact (Hk t H)]
  end.
  apply preserves_bind; [apply preserves_log_unknown_app|]. intros _.
  apply preserves_bind; [apply He|]. intros _.
  apply preserves_bind; [apply Ha|]. intros _.
  unfold track_project.
  destruct project as [p|]; [|apply preserves_ret].
  destruct (p =? ""); [apply preserves_ret|].
  apply preserves_bind; [apply preserves_eval|]. intros ?.
  apply preserves_when, Hp.
Qed.

Lemma preserves_other_key_manual (today other app_name category : string)
  (minutes : Q) (project date : option string) (r : result value) :
  match date with Some d => d | None => today end <> other ->
  preserves (fun d => py_getitem d other = r)
    (manual_time_entry today app_name category minutes project date).
Proof.
  intros Hne.
  destruct (preserves_other_key_groups _ other r Hne) as (He & Ha & Hp).
  unfold manual_time_entry.
  apply preserves_bind; [apply He|]. intros _.
  apply preserves_bind; [apply Ha|]. intros _.
  apply preserves_bind; [|intros _; apply preserves_save_data].
  destruct project as [p|]; [|apply preserves_ret].
  destruct (p =? ""); [apply preserves_ret|]. apply Hp.
Qed.

(** X1.  [record_time] and [manual_time_entry] change nothing outside the
    entry of the date they write to: every other key of the store, the
    streak ledger among them, maps to the same value after the call,
    whatever the store holds and whether the call returns or raises.
    [record_time] also keeps the session variables, the settings and the
    data file. *)
Theorem store_methods_touch_one_date (t : tracker)
  (today other app_name category : string) (x : Q)
  (project date : option string) :
  (today <> other ->
   let t' := snd (record_time today app_name x project t) in
   py_getitem (data t') other = py_getitem (data t) other /\
   session t' = session t /\ data_file t' = data_file t) /\
  (match date with Some d => d | None => today end <> other ->
   let t' :=
     snd (manual_time_entry today app_name category x project date t) in
   py_getitem (data t') other = py_getitem (data t) other).
Proof.
  split.
  - intros Hne t'. subst t'. split; [|apply record_time_session].
    now apply (preserves_other_key_record_time today other app_name x project
                 (py_getitem (data t) other) Hne t).
  - intros Hne t'. subst t'.
    now apply (preserves_other_key_manual today other app_name category x
                 project date (py_getitem (data t) other) Hne t).
Qed.

Lemma store_methods_touch_one_date_witness :
  (let t' := snd (record_time "2024-01-03" "vim" 5 (Some "thesis")
                    browsing_tracker) in
   py_getitem (data t') "streaks" = py_getitem (data browsing_tracker) "streaks"
   /\ session t' = session browsing_tracker
   /\ data_file t' = data_file browsing_tracker) /\
  (let t' := snd (manual_time_entry "2024-01-03" "Notes" "Writing" 30 None
                    (Some "2024-01-02") browsing_tracker) in
   py_getitem (data t') "2024-01-01"
   = py_getitem (data browsing_tracker) "2024-01-01").
Proof.
  split.
  - apply (store_methods_touch_one_date browsing_tracker "2024-01-03"
             "streaks" "vim" "" 5 (Some "thesis") None).
    discriminate.
  - apply (store_methods_touch_one_date browsing_tracker "2024-01-03"
             "2024-01-01" "Notes" "Writing" 30 None (Some "2024-01-02")).
    discriminate.
Defined.

(** ** What a recorded duration adds *)

Lemma preserves_bucket_fields_project (today category project : string)
  (x : Q) (b : value) :
  preserves
    (fun d => exists b',
       get_path [today; category] d = Ok b' /\
       forall k, k <> "projects" -> py_getitem b' k = py_getitem b k)
    (add_project_time today category project x).
Proof.
  assert (Hshape : forall (d d' b2 c' : value),
    get_path [today; category] d = Ok b2 ->
    (forall k, k <> "projects" -> py_getitem b2 k = py_getitem b k) ->
    (exists bd v, b2 = VDict bd /\ c' = VDict (dict_set "projects" v bd)) ->
    d' = plug [today; category] c' d ->
    exists b',
      get_path [today; category] d' = Ok b' /\
      forall k, k <> "projects" -> py_getitem b' k = py_getitem b k).
  { intros d d' b2 c' Hb2 Hsame (bd & v & -> & ->) ->. eexists. split.
    - eapply get_path_plug; eauto.
    - intros k Hk. rewrite <- (Hsame k Hk). simpl.
      now rewrite dict_get_set_other by congruence. }
  unfold add_project_time.
  apply preserves_bind; [apply preserves_eval|]. intros ?.
  apply preserves_bind; [apply preserves_when|intros _];
    apply preserves_exec; intros d d' (b2 & Hb2 & Hsame) E;
    change [today; category; "projects"]
      with ([today; category] ++ ["projects"])%list in E.
  - rewrite (assign_focus _ _ _ _ _ _ Hb2) in E.
    destruct (assign ["projects"] project (VNum 0) b2) as [c'|] eqn:Ec;
      [|discriminate].
    injection E as <-. apply (Hshape d _ b2 c'); auto.
    now apply assign_cons_shape in Ec.
  - rewrite (aug_assign_focus _ _ _ _ _ _ Hb2) in E.
    destruct (aug_assign ["projects"] project x b2) as [c'|] eqn:Ec;
      [|discriminate].
    injection E as <-. apply (Hshape d _ b2 c'); auto.
    now apply aug_assign_cons_shape in Ec.
Qed.

(** The tracking by project only touches the projects field. *)
Lemma track_project_bucket (today category : string)
  (project : option string) (x : Q) (t : tracker) (b : value) :
  get_path [today; category] (data t) = Ok b ->
  exists b',
    get_path [today; category]
      (data (snd (track_project today category project x t))) = Ok b' /\
    forall k, k <> "projects" -> py_getitem b' k = py_getitem b k.
Proof.
  intros Hb.
  assert (Hp : preserves
    (fun d => exists b',
       get_path [today; category] d = Ok b' /\
       forall k, k <> "projects" -> py_getitem b' k = py_getitem b k)
    (track_project today category project x)).
  { unfold track_project.
    destruct project as [p|]; [|apply preserves_ret].
    destruct (p =? ""); [apply preserves_ret|].
    apply preserves_bind; [apply preserves_eval|]. intros ?.
    apply preserves_when, preserves_bucket_fields_project. }
  apply Hp. eauto.
Qed.

Lemma app_seconds_same_apps (app_name : string) (b b' : value) :
  py_getitem b' "apps" = py_getitem b "apps" ->
  app_seconds app_name b' = app_seconds app_name b.
Proof. intros H. unfold app_seconds. now rewrite H. Qed.

Lemma bucket_total_same (b b' : value) :
  py_getitem b' "total_seconds" = py_getitem b "total_seconds" ->
  bucket_total b' = bucket_total b.
Proof. intros H. unfold bucket_total. now rewrite H. Qed.

(** On a well-formed store a [record_time] call that is not dropped adds
    its duration to the seconds of the app and to the total of the
    bucket, also when the tracking by project raises afterwards. *)
Lemma record_time_effect (today app_name : string) (x : Q)
  (project : option string) (t : tracker) :
  store_inv (data t) -> today <> "streaks" ->
  is_excluded (cfg t) app_name = false ->
  let category := categorize_app (cfg t) app_name in
  let t' := snd (record_time today app_name x project t) in
  app_seconds_at today category app_name (data t')
  = app_seconds_at today category app_name (data t) + x /\
  total_seconds_at today category (data t')
  = total_seconds_at today category (data t) + x.
Proof.
  intros Hinv Hne Hex category t'. subst t'.
  destruct (record_time_steps today app_name x project t Hinv Hne Hex)
    as (t0 & d1 & b & b' & total & seconds & Hd0 & Hget & Hcase & Hother
        & Ht & Ht' & Hs & Hs' & Hrec).
  fold category in Hget, Hcase, Hrec. rewrite Hrec.
  set (t1 := set_data (plug [today; category] b' d1) t0).
  assert (Hb' : get_path [today; category] (data t1) = Ok b')
    by (eapply get_path_plug; eauto).
  destruct (track_project_bucket today category project x t1 b' Hb')
    as (b'' & Hb'' & Hsame).
  unfold app_seconds_at, total_seconds_at. rewrite Hb''.
  rewrite (app_seconds_same_apps _ _ _ (Hsame "apps" ltac:(discriminate))).
  rewrite (bucket_total_same _ _
             (Hsame "total_seconds" ltac:(discriminate))).
  rewrite Hs', Ht'.
  destruct Hcase as [[Hb _]|[Hnew ->]].
  - now rewrite Hb, Hs, Ht.
  - destruct (get_path [today; category] (data t)) as [b0|] eqn:E;
      [now destruct (Hnew b0)|].
    injection Hs as <-. injection Ht as <-. auto.
Qed.

(** X2.  On a well-formed store, a [record_time] call for an app that the
    exclusion test lets through adds exactly [duration_seconds] to the
    seconds of the app and to the total of its bucket (created at 0 when
    missing), whether the call returns or raises in the tracking by
    project. *)
Theorem record_time_adds_duration (today app_name : string) (x : Q)
  (project : option string) (t : tracker) :
  store_inv (data t) -> today <> "streaks" ->
  is_excluded (cfg t) app_name = false ->
  let category := categorize_app (cfg t) app_name in
  let t' := snd (record_time today app_name x project t) in
  app_seconds_at today category app_name (data t')
  = app_seconds_at today category app_name (data t) + x /\
  total_seconds_at today category (data t')
  = total_seconds_at today category (data t) + x.
Proof. exact (record_time_effect today app_name x project t). Qed.

Lemma record_time_adds_duration_witness :
  let t' := snd (record_time "2024-01-02" "Terminal - make" (7 # 2)
                   (Some "thesis") example_tracker) in
  app_seconds_at "2024-01-02" "Coding" "Terminal - make" (data t')
  = app_seconds_at "2024-01-02" "Coding" "Terminal - make"
      (data example_tracker) + (7 # 2) /\
  total_seconds_at "2024-01-02" "Coding" (data t')
  = total_seconds_at "2024-01-02" "Coding" (data example_tracker) + (7 # 2).
Proof.
  apply (record_time_adds_duration "2024-01-02" "Terminal - make" (7 # 2)
           (Some "thesis") example_tracker).
  - apply store_inv_example_tracker.
  - discriminate.
  - reflexivity.
Defined.

(** ** Manual entries *)

(** "Initialize data structure" on a well-formed store: the bucket that
    was there, or the literal. *)
Lemma ensure_bucket_steps (date category : string) (bucket : value)
  (t : tracker) :
  store_inv (data t) -> date <> "streaks" -> conserved bucket ->
  exists d1 b,
    ensure_bucket date category bucket t = (Ok tt, set_data d1 t) /\
    get_path [date; category] d1 = Ok b /\ conserved b /\
    ((get_path [date; category] (data t) = Ok b /\ d1 = data t) \/
     ((forall b0, get_path [date; category] (data t) <> Ok b0) /\
      b = bucket)).
Proof.
  intros Hinv Hne Hc.
  destruct (get_path [date; category] (data t)) as [b|e] eqn:Hb.
  - exists (data t), b. rewrite set_data_same.
    split; [|split; [|split]]; auto.
    + now apply (ensure_bucket_existing _ _ _ b).
    + now apply (store_inv_bucket date category b (data t)).
  - destruct (ensure_bucket_new date category bucket t Hinv Hne)
      as (d1 & Hens & Hget).
    + rewrite Hb. discriminate.
    + exists d1, bucket. split; [|split; [|split]]; auto.
      right. split; [discriminate|reflexivity].
Qed.

Lemma bind_Raise {A B : Type} (m : M A) (f : A -> M B) (t t' : tracker)
  (e : exn) :
  m t = (Raise e, t') -> bind m f t = (Raise e, t').
Proof. intros H. unfold bind. now rewrite H. Qed.

(** [manual_time_entry] on a well-formed store, statement group by
    statement group. *)
Lemma manual_time_entry_steps (today app_name category : string)
  (minutes : Q) (project date : option string) (t : tracker) :
  let day := match date with Some d => d | None => today end in
  store_inv (data t) -> day <> "streaks" ->
  exists d1 b b' total seconds,
    get_path [day; category] d1 = Ok b /\
    ((get_path [day; category] (data t) = Ok b /\ d1 = data t) \/
     ((forall b0, get_path [day; category] (data t) <> Ok b0) /\
      b = manual_bucket)) /\
    (forall k, k <> "apps" -> k <> "total_seconds" ->
               py_getitem b' k = py_getitem b k) /\
    bucket_total b = Ok total /\ bucket_total b' = Ok (total + minutes * 60) /\
    app_seconds app_name b = Ok seconds /\
    app_seconds app_name b' = Ok (seconds + minutes * 60) /\
    manual_time_entry today app_name category minutes project date t
    = (match project with
       | Some p =>
           if p =? "" then ret tt
           else add_project_time day category p (minutes * 60)
       | None => ret tt
       end ;; save_data)%py
        (set_data (plug [day; category] b' d1) t).
Proof.
  intros day Hinv Hne.
  destruct (ensure_bucket_steps day category manual_bucket t Hinv Hne
              conserved_manual_bucket)
    as (d1 & b & Hens & Hget & Hcons & Hcase).
  destruct (bucket_add_app_conserved app_name (minutes * 60) b Hcons)
    as (b' & total & seconds & Hadd & _ & Hother & Ht & Ht' & Hs & Hs').
  exists d1, b, b', total, seconds.
  repeat (split; [assumption|]).
  unfold manual_time_entry. fold day.
  rewrite (bind_Ok _ _ _ _ _ Hens).
  now rewrite (bind_Ok _ _ _ _ _
                 (add_app_time_focus day category app_name (minutes * 60)
                    (set_data d1 t) b b' Hget Hadd)).
Qed.

Lemma keeps_add_project_time {V : Type} (view : tracker -> V)
  (date category project : string) (x : Q) :
  (forall d t, view (set_data d t) = view t) ->
  keeps view (add_project_time date category project x).
Proof.
  intros H. unfold add_project_time.
  apply keeps_bind; [apply keeps_eval|]. intros ?.
  apply keeps_bind; [now apply keeps_when, keeps_exec|]. intros _.
  now apply keeps_exec.
Qed.

(** X3.  [manual_time_entry] on a well-formed store adds
    [duration_minutes * 60] seconds to the app and to the total of the
    bucket of the given category and date (today when no date is given).
    It consults neither the classifier nor the excluded apps and accepts
    any number of minutes, negative ones too.  Without a project it
    returns and the data file holds the new store. *)
Theorem manual_time_entry_adds_minutes (today app_name category : string)
  (minutes : Q) (project date : option string) (t : tracker) :
  let day := match date with Some d => d | None => today end in
  let r := manual_time_entry today app_name category minutes project date t in
  store_inv (data t) -> day <> "streaks" ->
  app_seconds_at day category app_name (data (snd r))
  = app_seconds_at day category app_name (data t) + minutes * 60 /\
  total_seconds_at day category (data (snd r))
  = total_seconds_at day category (data t) + minutes * 60 /\
  (truthy project = false ->
   fst r = Ok tt /\ data_file (snd r) = Some (data (snd r))).
Proof.
  intros day r Hinv Hne. subst r.
  destruct (manual_time_entry_steps today app_name category minutes project
              date t Hinv Hne)
    as (d1 & b & b' & total & seconds & Hget & Hcase & Hother
        & Ht & Ht' & Hs & Hs' & Hrun).
  fold day in Hget, Hcase, Hrun. rewrite Hrun.
  set (t1 := set_data (plug [day; category] b' d1) t).
  assert (Hb' : get_path [day; category] (data t1) = Ok b')
    by (eapply get_path_plug; eauto).
  set (m := match project with
            | Some p =>
                if p =? "" then ret tt
                else add_project_time day category p (minutes * 60)
            | None => ret tt
            end).
  assert (Hm : exists b'',
    get_path [day; category] (data (snd (m t1))) = Ok b'' /\
    forall k, k <> "projects" -> py_getitem b'' k = py_getitem b' k).
  { subst m. destruct project as [p|]; [|simpl; eauto].
    destruct (p =? ""); [simpl; eauto|].
    apply (preserves_bucket_fields_project day category p (minutes * 60) b').
    eauto. }
  destruct Hm as (b'' & Hb'' & Hsame).
  assert (Hdata : data (snd ((m ;; save_data)%py t1)) = data (snd (m t1))).
  { unfold bind. now destruct (m t1) as [[u|e] t2]. }
  rewrite Hdata.
  unfold app_seconds_at, total_seconds_at. rewrite Hb''.
  rewrite (app_seconds_same_apps _ _ _ (Hsame "apps" ltac:(discriminate))).
  rewrite (bucket_total_same _ _
             (Hsame "total_seconds" ltac:(discriminate))).
  rewrite Hs', Ht'.
  assert (Hbefore :
    match get_path [day; category] (data t) with
    | Ok b0 => match app_seconds app_name b0 with Ok q => q | Raise _ => 0 end
    | Raise _ => 0
    end = seconds /\
    match get_path [day; category] (data t) with
    | Ok b0 => match bucket_total b0 with Ok q => q | Raise _ => 0 end
    | Raise _ => 0
    end = total).
  { destruct Hcase as [[Hb _]|[Hnew ->]].
    - now rewrite Hb, Hs, Ht.
    - destruct (get_path [day; category] (data t)) as [b0|] eqn:E;
        [now destruct (Hnew b0)|].
      injection Hs as <-. injection Ht as <-. auto. }
  destruct Hbefore as (-> & ->). split; [reflexivity|]. split; [reflexivity|].
  intros Hfalsy. subst m. unfold truthy in Hfalsy.
  destruct project as [p|]; [destruct (p =? ""); [|discriminate]|];
    split; reflexivity.
Qed.

Lemma manual_time_entry_adds_minutes_witness :
  let r := manual_time_entry "2024-01-03" "vim" "Browsing" (-30) None
             (Some "2024-01-02") browsing_tracker in
  app_seconds_at "2024-01-02" "Browsing" "vim" (data (snd r))
  = app_seconds_at "2024-01-02" "Browsing" "vim" (data browsing_tracker)
    + -30 * 60 /\
  total_seconds_at "2024-01-02" "Browsing" (data (snd r))
  = total_seconds_at "2024-01-02" "Browsing" (data browsing_tracker)
    + -30 * 60 /\
  fst r = Ok tt /\ data_file (snd r) = Some (data (snd r)).
Proof.
  destruct (manual_time_entry_adds_minutes "2024-01-03" "vim" "Browsing"
              (-30) None (Some "2024-01-02") browsing_tracker)
    as (Happ & Htotal & Hsaved).
  - eexists. split; [reflexivity|].
    repeat constructor; simpl; try congruence; intros _.
    + eexists. split; [reflexivity|]. repeat constructor.
      exists 18000, 18000. repeat split; reflexivity.
    + apply good_day_browsing_day.
  - discriminate.
  - split; [exact Happ|]. split; [exact Htotal|]. apply Hsaved. reflexivity.
Defined.

(** X4.  When the bucket has [None] as projects field (it was created by
    [record_time] without a project), a manual entry with a project
    raises [TypeError]: the seconds are already added in memory, and
    [save_data] is not reached, so the data file stays as it was. *)
Theorem manual_time_entry_null_projects (today app_name category : string)
  (minutes : Q) (project date : option string) (t : tracker) :
  let day := match date with Some d => d | None => today end in
  let r := manual_time_entry today app_name category minutes project date t in
  store_inv (data t) -> day <> "streaks" ->
  projects_field day category (data t) = Ok VNone ->
  truthy project = true ->
  fst r = Raise TypeError /\
  total_seconds_at day category (data (snd r))
  = total_seconds_at day category (data t) + minutes * 60 /\
  data_file (snd r) = data_file t.
Proof.
  intros day r Hinv Hne Hpv Htruthy. subst r.
  destruct (manual_time_entry_steps today app_name category minutes project
              date t Hinv Hne)
    as (d1 & b & b' & total & seconds & Hget & Hcase & Hother
        & Ht & Ht' & Hs & Hs' & Hrun).
  fold day in Hget, Hcase, Hrun. rewrite Hrun.
  destruct (projects_field_Ok _ _ _ _ Hpv) as (bd & Hb & Hp).
  destruct Hcase as [[Hb' ->]|[Hnew _]]; [|now destruct (Hnew (VDict bd))].
  unfold truthy in Htruthy. destruct project as [p|]; [|discriminate].
  destruct (p =? ""); [discriminate|].
  remember (set_data (plug [day; category] b' (data t)) t) as t1 eqn:Ht1.
  assert (Hb1 : get_path [day; category] (data t1) = Ok b')
    by (subst t1; eapply get_path_plug; eauto).
  assert (Hraise :
    add_project_time day category p (minutes * 60) t1 = (Raise TypeError, t1)).
  { unfold add_project_time.
    change [day; category; "projects"]
      with ([day; category] ++ ["projects"])%list.
    apply bind_eval_Raise. rewrite (contains_at_focus _ _ _ _ _ Hb1).
    assert (Hp' : py_getitem b' "projects" = Ok VNone).
    { rewrite Hother by discriminate.
      rewrite <- (projects_field_bucket _ _ _ _ Hb'). exact Hpv. }
    apply py_getitem_Ok in Hp' as (bd' & -> & Hp').
    now rewrite (contains_at_field _ _ _ _ Hp'). }
  rewrite (bind_Raise _ _ _ _ _ Hraise). simpl fst. simpl snd.
  split; [reflexivity|]. split; [|now subst t1].
  unfold total_seconds_at. rewrite Hb1, Ht'.
  now rewrite Hb', Ht.
Qed.

Lemma manual_time_entry_null_projects_witness :
  let r := manual_time_entry "2024-01-02" "vim" "Coding" 30 (Some "thesis")
             None example_tracker in
  fst r = Raise TypeError /\
  total_seconds_at "2024-01-02" "Coding" (data (snd r))
  = total_seconds_at "2024-01-02" "Coding" (data example_tracker) + 30 * 60 /\
  data_file (snd r) = data_file example_tracker.
Proof.
  apply (manual_time_entry_null_projects "2024-01-02" "vim" "Coding" 30
           (Some "thesis") None example_tracker).
  - apply store_inv_example_tracker.
  - discriminate.
  - reflexivity.
  - reflexivity.
Defined.

(** ** The loops keep what [record_time] keeps *)

Lemma preserves_probe (P : value -> Prop) {A : Type} (r : result A) :
  preserves P (probe r).
Proof. intros t H. exact H. Qed.

Lemma preserves_get (P : value -> Prop) {A : Type} (f : tracker -> A) :
  preserves P (get f).
Proof. intros t H. exact H. Qed.

Lemma preserves_modify (P : value -> Prop) (f : tracker -> tracker) :
  (forall t, data (f t) = data t) -> preserves P (modify f).
Proof. intros Hf t H. simpl. now rewrite Hf. Qed.

Lemma preserves_state_reader (P : value -> Prop) {A : Type} (m : M A) :
  (forall t, snd (m t) = t) -> preserves P m.
Proof. intros Hm t H. now rewrite Hm. Qed.

Lemma elapsed_since_start_state (s : sample) (t : tracker) :
  snd (elapsed_since_start s t) = t.
Proof. unfold elapsed_since_start. now destruct (start_time t). Qed.

Lemma get_current_elapsed_time_state (s : sample) (t : tracker) :
  snd (get_current_elapsed_time s t) = t.
Proof.
  unfold get_current_elapsed_time.
  destruct (start_time t) as [t0|]; [destruct (Qeq_bool t0 0)|]; reflexivity.
Qed.

Section LoopsPreserve.

Variable P : value -> Prop.
Variable ok : string -> Prop.
Hypothesis record_time_preserves :
  forall today app_name x project,
    ok today -> preserves P (record_time today app_name x project).

Lemma preserves_flush_current (elapsed : M Q) (s : sample) :
  ok (today s) -> (forall t, snd (elapsed t) = t) ->
  preserves P (flush_current elapsed s).
Proof.
  intros Hok He t H. unfold flush_current.
  destruct (current_app t) as [a|]; [|exact H].
  destruct (a =? ""); [exact H|].
  revert H. generalize (current_project t). intros project.
  revert t. apply preserves_bind.
  - now apply preserves_state_reader.
  - intros e. now apply record_time_preserves.
Qed.

Lemma preserves_flush_branch (app : string) (elapsed : Q) (s : sample) :
  ok (today s) ->
  preserves P
    (project <- get current_project ;;
     record_time (today s) app elapsed project ;;
     modify (set_start_time (Some (now s))) ;;
     save_data)%py.
Proof.
  intros Hok. apply preserves_bind; [apply preserves_get|]. intros project.
  apply preserves_bind; [now apply record_time_preserves|]. intros _.
  apply preserves_bind; [now apply preserves_modify|]. intros _.
  apply preserves_save_data.
Qed.

Lemma preserves_run_iteration (check_interval : Q) (s : sample) :
  ok (today s) -> preserves P (run_iteration check_interval s).
Proof.
  intros Hok t H. unfold run_iteration.
  destruct (is_paused t); [exact H|]. revert t H.
  apply preserves_bind; [apply preserves_probe|]. intros idle_time.
  apply preserves_bind; [apply preserves_get|]. intros threshold.
  destruct (Qltb idle_time threshold).
  - apply preserves_bind; [apply preserves_probe|]. intros app.
    destruct (negb (app =? "") && negb (app =? "Unknown"))%bool;
      [|apply preserves_ret].
    apply preserves_bind; [apply preserves_get|]. intros blocked.
    destruct blocked; [apply preserves_ret|].
    apply preserves_bind; [apply preserves_get|]. intros same.
    destruct same.
    + apply preserves_bind.
      * apply preserves_state_reader, elapsed_since_start_state.
      * intros elapsed. now apply preserves_when, preserves_flush_branch.
    + apply preserves_bind.
      * apply preserves_flush_current;
          auto using elapsed_since_start_state.
      * intros _. now apply preserves_modify.
  - apply preserves_bind; [apply preserves_get|]. intros tracking.
    now apply preserves_when, preserves_modify.
Qed.

Lemma preserves_run_tracker_body (s : sample) :
  ok (today s) -> preserves P (run_tracker_body s).
Proof.
  intros Hok. unfold run_tracker_body.
  apply preserves_bind; [apply preserves_probe|]. intros idle_time.
  apply preserves_bind; [apply preserves_get|]. intros threshold.
  destruct (Qltb idle_time threshold).
  - apply preserves_bind; [apply preserves_probe|]. intros app.
    destruct (negb (app =? "") && negb (app =? "Unknown"))%bool;
      [|apply preserves_ret].
    apply preserves_bind; [apply preserves_get|]. intros blocked.
    destruct blocked; [apply preserves_ret|].
    apply preserves_bind; [apply preserves_get|]. intros same.
    destruct same.
    + apply preserves_bind.
      * apply preserves_state_reader, get_current_elapsed_time_state.
      * intros elapsed. now apply preserves_when, preserves_flush_branch.
    + apply preserves_bind.
      * apply preserves_flush_current;
          auto using get_current_elapsed_time_state.
      * intros _. now apply preserves_modify.
  - apply preserves_bind; [apply preserves_get|]. intros tracking.
    now apply preserves_when, preserves_modify.
Qed.

Lemma preserves_run_tracker (samples : list sample) (g : gui) :
  Forall (fun s => ok (today s)) samples ->
  P (data (tracker_of g)) ->
  P (data (tracker_of (run_tracker samples g))).
Proof.
  intros Hall H. unfold run_tracker.
  assert (Hfold : forall g0, P (data (tracker_of g0)) ->
    P (data (tracker_of
               (fold_left (fun g s => run_tracker_iteration s g)
                  samples g0)))).
  { induction Hall as [|s samples Hs _ IH]; intros g0 H0; [exact H0|].
    simpl. apply IH. unfold run_tracker_iteration.
    pose proof (preserves_run_tracker_body s Hs (tracker_of g0) H0) as Hb.
    now destruct (run_tracker_body s (tracker_of g0)) as [[u|e] t']. }
  now apply Hfold.
Qed.

End LoopsPreserve.

(** X6.  An iteration of either loop writes to the store only under
    the date of its sample, and so does any run of
    [TimeTrackerGUI.run_tracker] under the dates of its samples: a key
    that is none of these dates, such as the streak ledger or a past
    day, maps to the same value afterwards, whatever the store holds and
    whether the iteration returns or raises. *)
Theorem loops_touch_only_sample_dates (check_interval : Q) (s : sample)
  (samples : list sample) (other : string) (t : tracker) :
  today s <> other ->
  Forall (fun s => today s <> other) samples ->
  py_getitem (data (snd (run_iteration check_interval s t))) other
  = py_getitem (data t) other /\
  py_getitem (data (snd (run_tracker_body s t))) other
  = py_getitem (data t) other /\
  py_getitem (data (tracker_of (run_tracker samples (mkGui t None [])))) other
  = py_getitem (data t) other.
Proof.
  intros Hs Hall.
  assert (Hrec : forall day app_name x project,
    day <> other ->
    preserves (fun d => py_getitem d other = py_getitem (data t) other)
      (record_time day app_name x project))
    by (intros; now apply preserves_other_key_record_time).
  split; [|split].
  - now apply (preserves_run_iteration _ _ Hrec check_interval s Hs t).
  - now apply (preserves_run_tracker_body _ _ Hrec s Hs t).
  - now apply (preserves_run_tracker _ _ Hrec samples (mkGui t None []) Hall).
Qed.

Lemma loops_touch_only_sample_dates_witness :
  py_getitem
    (data (snd (run_iteration 5 (sample_at 115 "chrome.exe" 0)
                  browsing_tracker)))
    "2024-01-01"
  = py_getitem (data browsing_tracker) "2024-01-01" /\
  py_getitem
    (data (snd (run_tracker_body (sample_at 115 "chrome.exe" 0)
                  browsing_tracker)))
    "2024-01-01"
  = py_getitem (data browsing_tracker) "2024-01-01" /\
  py_getitem
    (data (tracker_of
             (run_tracker thesis_samples (mkGui browsing_tracker None []))))
    "2024-01-01"
  = py_getitem (data browsing_tracker) "2024-01-01".
Proof.
  apply (loops_touch_only_sample_dates 5 (sample_at 115 "chrome.exe" 0)
           thesis_samples "2024-01-01" browsing_tracker).
  - discriminate.
  - repeat constructor; discriminate.
Defined.

(** X7.  A pause from the tray menu leaves no trace in [TimeTracker.run]:
    whatever samples fall into it, after the resume the tracker is
    exactly what it was before the pause, [start_time] included, and the
    loop continues as if the pause had taken no time. *)
Theorem pause_leaves_no_trace (check_interval : Q) (samples : list sample)
  (rest : list event) (t : tracker) :
  is_paused t = false ->
  run check_interval
    (TogglePause :: map Tick samples ++ TogglePause :: rest) t
  = run check_interval rest t.
Proof.
  intros Hp. simpl. unfold bind at 1, modify at 1.
  rewrite run_paused by (simpl; now rewrite Hp).
  simpl. unfold bind, modify. simpl. rewrite Hp. simpl.
  destruct t. simpl in Hp. now subst.
Qed.

Lemma pause_leaves_no_trace_witness :
  run 5 (TogglePause
           :: map Tick [sample_at 110 "vim" 0; sample_at 600 "chrome.exe" 0]
           ++ TogglePause :: [Tick (sample_at 605 "vim" 0)]) vim_tracker
  = run 5 [Tick (sample_at 605 "vim" 0)] vim_tracker.
Proof.
  apply (pause_leaves_no_trace 5
           [sample_at 110 "vim" 0; sample_at 600 "chrome.exe" 0]
           [Tick (sample_at 605 "vim" 0)] vim_tracker).
  reflexivity.
Defined.

Lemma skipped_sample_guard (t : tracker) (s : sample) :
  skipped_sample t s ->
  exists idle app,
    idle_probe s = Ok idle /\ Qltb idle (idle_threshold t) = true /\
    window_probe s = Ok app /\
    ((negb (app =? "") && negb (app =? "Unknown"))%bool = false \/
     is_app_blocked t app = true).
Proof.
  intros (idle & app & Hi & Hlt & Hw & Hcase). exists idle, app.
  repeat (split; [assumption|]).
  destruct Hcase as [->|[->|Hb]]; auto.
Qed.

Lemma run_iteration_skipped (check_interval : Q) (s : sample) (t : tracker) :
  is_paused t = false -> skipped_sample t s ->
  run_iteration check_interval s t = (Ok tt, t).
Proof.
  intros Hp Hs.
  destruct (skipped_sample_guard t s Hs) as (idle & app & Hi & Hlt & Hw & Hc).
  unfold run_iteration. rewrite Hp.
  unfold bind at 1, probe at 1. rewrite Hi.
  unfold bind at 1, get at 1. rewrite Hlt.
  unfold bind at 1, probe at 1. rewrite Hw.
  destruct (negb (app =? "") && negb (app =? "Unknown"))%bool;
    [|reflexivity].
  destruct Hc as [Hc|Hc]; [discriminate|].
  unfold bind at 1, get at 1. now rewrite Hc.
Qed.

Lemma run_tracker_body_skipped (s : sample) (t : tracker) :
  skipped_sample t s -> run_tracker_body s t = (Ok tt, t).
Proof.
  intros Hs.
  destruct (skipped_sample_guard t s Hs) as (idle & app & Hi & Hlt & Hw & Hc).
  unfold run_tracker_body.
  unfold bind at 1, probe at 1. rewrite Hi.
  unfold bind at 1, get at 1. rewrite Hlt.
  unfold bind at 1, probe at 1. rewrite Hw.
  destruct (negb (app =? "") && negb (app =? "Unknown"))%bool;
    [|reflexivity].
  destruct Hc as [Hc|Hc]; [discriminate|].
  unfold bind at 1, get at 1. now rewrite Hc.
Qed.

(** X8.  While the user is active, samples whose window is unknown (the
    probe gave "Unknown" or nothing) or blocked in focus mode leave the
    tracker exactly as it was in both loops: nothing is recorded for
    them, the tracked app is not flushed and [start_time] stays, so the
    next flush counts the time of these samples for the app tracked
    before them. *)
Theorem skipped_samples_leave_no_trace (check_interval : Q)
  (samples : list sample) (rest : list event) (t : tracker)
  (last : option exn) (log : list exn) :
  is_paused t = false ->
  Forall (skipped_sample t) samples ->
  run check_interval (map Tick samples ++ rest) t
  = run check_interval rest t /\
  fold_left (fun g s => run_tracker_iteration s g) samples (mkGui t last log)
  = mkGui t last log.
Proof.
  intros Hp Hall. split.
  - induction Hall as [|s samples Hs _ IH]; [reflexivity|].
    simpl. now rewrite (bind_Ok _ _ _ _ _ (run_iteration_skipped _ s t Hp Hs)).
  - induction Hall as [|s samples Hs _ IH]; [reflexivity|].
    simpl. unfold run_tracker_iteration at 2. simpl tracker_of.
    rewrite (run_tracker_body_skipped s t Hs). exact IH.
Qed.

Lemma skipped_samples_leave_no_trace_witness :
  let samples := [sample_at 103 "chrome.exe - YouTube" 0;
                  sample_at 108 "Unknown" 0; sample_at 113 "" 0] in
  run 5 (map Tick samples ++ [Tick (sample_at 118 "vim" 0)]) focus_tracker
  = run 5 [Tick (sample_at 118 "vim" 0)] focus_tracker /\
  fold_left (fun g s => run_tracker_iteration s g) samples
    (mkGui focus_tracker None [])
  = mkGui focus_tracker None [].
Proof.
  apply (skipped_samples_leave_no_trace 5
           [sample_at 103 "chrome.exe - YouTube" 0;
            sample_at 108 "Unknown" 0; sample_at 113 "" 0]
           [Tick (sample_at 118 "vim" 0)] focus_tracker None []).
  - reflexivity.
  - repeat constructor.
    + exists 0, "chrome.exe - YouTube". repeat split; auto.
    + exists 0, "Unknown". repeat split; auto.
    + exists 0, "". repeat split; auto.
Defined.

(** ** The streak ledger *)

Lemma assign_sub_Ok (k1 k : string) (x d0 d : value) :
  assign [k1] k x d0 = Ok d ->
  exists entries sub,
    d0 = VDict entries /\ dict_get k1 entries = Some (VDict sub) /\
    d = VDict (dict_set k1 (VDict (dict_set k x sub)) entries).
Proof.
  simpl. destruct (py_getitem d0 k1) as [child|] eqn:E; [|discriminate].
  apply py_getitem_Ok in E as (entries & -> & Hk).
  destruct child; simpl; try discriminate. intros [= <-]. eauto.
Qed.

Lemma last_date_after_assign (today : string) (t2 t3 : tracker) :
  (exec (assign ["streaks"] "last_date" (VStr today)) ;; save_data)%py t2
  = (Ok tt, t3) ->
  (let* s := py_getitem (data t3) "streaks" in py_get s "last_date" VNone)
  = Ok (VStr today).
Proof.
  unfold bind, exec.
  destruct (assign ["streaks"] "last_date" (VStr today) (data t2))
    as [d|] eqn:E; [|discriminate].
  intros [= <-]. simpl data.
  apply assign_sub_Ok in E as (entries & sub & _ & _ & ->).
  simpl. rewrite dict_get_set_same. simpl. now rewrite dict_get_set_same.
Qed.

(** When a sequence of three steps returns, its last step returned from
    some state and produced the final one. *)
Lemma bind_tail_Ok {A B : Type} (m1 : M A) (m2 : A -> M B) (m3 : M unit)
  (t : tracker) :
  fst ((a <- m1 ;; m2 a ;; m3)%py t) = Ok tt ->
  exists t2, m3 t2 = (Ok tt, snd ((a <- m1 ;; m2 a ;; m3)%py t)).
Proof.
  unfold bind. destruct (m1 t) as [[a|e] t1]; [|discriminate].
  destruct (m2 a t1) as [[b|e] t2]; [|discriminate].
  destruct (m3 t2) as [[[]|e] t3] eqn:E; [|discriminate].
  intros _. now exists t2.
Qed.

Lemma update_streaks_returns (today yesterday : string) (t : tracker) :
  fst (update_streaks today yesterday t) = Ok tt ->
  snd (update_streaks today yesterday t) = t \/
  (let* s := py_getitem (data (snd (update_streaks today yesterday t)))
               "streaks" in
   py_get s "last_date" VNone) = Ok (VStr today).
Proof.
  destruct (update_streaks today yesterday t) as [r t'] eqn:E.
  simpl. intros ->. revert E.
  unfold update_streaks. unfold bind at 1, eval at 1.
  destruct (let* s := py_getitem (data t) "streaks" in
            py_get s "last_date" VNone) as [last_date|];
    [|discriminate].
  destruct (negb (is_str today last_date));
    [|intros [= <-]; now left].
  unfold bind at 1, eval at 1.
  destruct (py_contains yesterday (data t)) as [[|]|];
    [| intros [= <-]; now left | discriminate].
  intros H. right.
  match type of H with
  | ?m t = _ =>
      assert (H' : fst (m t) = Ok tt) by now rewrite H
  end.
  apply bind_tail_Ok in H' as [t2 H']. rewrite H in H'.
  exact (last_date_after_assign _ _ _ H').
Qed.

(** X9.  [update_streaks] is idempotent within a day: when a call
    returns, a second call with the same dates changes nothing, because
    the first one either did nothing or stored today as [last_date]. *)
Theorem update_streaks_idempotent (today yesterday : string) (t : tracker) :
  fst (update_streaks today yesterday t) = Ok tt ->
  update_streaks today yesterday (snd (update_streaks today yesterday t))
  = (Ok tt, snd (update_streaks today yesterday t)).
Proof.
  intros Hok. destruct (update_streaks_returns _ _ _ Hok) as [H|H].
  - rewrite H at 1. rewrite <- Hok. apply surjective_pairing.
  - generalize dependent (snd (update_streaks today yesterday t)).
    intros t3 H. unfold update_streaks.
    rewrite (bind_eval_Ok _ _ _ _ H). simpl. now rewrite String.eqb_refl.
Qed.

Lemma update_streaks_idempotent_witness :
  update_streaks "2024-01-03" "2024-01-02"
    (snd (update_streaks "2024-01-03" "2024-01-02" browsing_tracker))
  = (Ok tt, snd (update_streaks "2024-01-03" "2024-01-02" browsing_tracker)).
Proof.
  apply (update_streaks_idempotent "2024-01-03" "2024-01-02"
           browsing_tracker).
  reflexivity.
Defined.

Lemma ledger_shape (k : string) (d : value) (q : Q) :
  ledger_number k d = Ok q ->
  exists entries ledger v,
    d = VDict entries /\ dict_get "streaks" entries = Some (VDict ledger) /\
    dict_get k ledger = Some v /\ as_number v = Ok q.
Proof.
  unfold ledger_number.
  destruct (get_path ["streaks"; k] d) as [v|] eqn:E; [|discriminate].
  apply get_path_two in E as (entries & ledger & -> & H1 & H2).
  intros H. exists entries, ledger, v. auto.
Qed.

Lemma ledger_number_dict (k : string) (entries ledger : dict) :
  dict_get "streaks" entries = Some (VDict ledger) ->
  ledger_number k (VDict entries)
  = match dict_get k ledger with
    | Some v => as_number v
    | None => Raise KeyError
    end.
Proof.
  intros H. unfold ledger_number. simpl. rewrite H. simpl.
  now destruct (dict_get k ledger).
Qed.

(** An assignment to a field of the ledger changes that field only. *)
Lemma ledger_assign (k k0 : string) (x : value) (d : value) (q : Q) :
  ledger_number k0 d = Ok q ->
  exists d',
    assign ["streaks"] k x d = Ok d' /\
    ledger_number k d' = as_number x /\
    forall k', k <> k' -> ledger_number k' d' = ledger_number k' d.
Proof.
  intros H. apply ledger_shape in H as (entries & ledger & v & -> & Hs & _).
  eexists. split; [exact (assign_sub _ _ _ _ _ Hs)|]. split.
  - rewrite (ledger_number_dict k _ (dict_set k x ledger)).
    + now rewrite dict_get_set_same.
    + apply dict_get_set_same.
  - intros k' Hne.
    rewrite (ledger_number_dict k' _ (dict_set k x ledger)).
    + rewrite (ledger_number_dict k' _ ledger Hs).
      now rewrite dict_get_set_other.
    + apply dict_get_set_same.
Qed.

Lemma ledger_aug_assign (k : string) (x q : Q) (d : value) :
  ledger_number k d = Ok q ->
  aug_assign ["streaks"] k x d = assign ["streaks"] k (VNum (q + x)) d.
Proof.
  intros H. apply ledger_shape in H as (entries & ledger & v & -> & Hs & Hk & Hv).
  rewrite (aug_assign_sub _ _ _ _ _ _ _ Hs Hk Hv).
  symmetry. exact (assign_sub _ _ _ _ _ Hs).
Qed.

Lemma ledger_gt (a b : string) (d : value) (x y : Q) :
  ledger_number a d = Ok x ->
  ledger_number b d = Ok y ->
  (let* c := get_path ["streaks"; a] d in
   let* l := get_path ["streaks"; b] d in
   py_gt c l) = Ok (Qltb y x).
Proof.
  unfold ledger_number.
  destruct (get_path ["streaks"; a] d) as [va|]; [|discriminate].
  destruct (get_path ["streaks"; b] d) as [vb|]; [|discriminate].
  rb. intros Ha Hb. unfold py_gt. now rewrite Ha, Hb.
Qed.

Lemma ledger_gt_zero (a : string) (d : value) (x : Q) :
  ledger_number a d = Ok x ->
  (let* c := get_path ["streaks"; a] d in py_gt c (VNum 0))
  = Ok (Qltb 0 x).
Proof.
  unfold ledger_number.
  destruct (get_path ["streaks"; a] d) as [va|]; [|discriminate].
  rb. intros Ha. unfold py_gt. now rewrite Ha.
Qed.

Lemma Qltb_true (a b : Q) : Qltb a b = true -> a <= b.
Proof.
  unfold Qltb. intros H. apply negb_true_iff in H.
  destruct (Qlt_le_dec a b) as [Hlt|Hle]; [now apply Qlt_le_weak|].
  apply Qle_bool_iff in Hle. congruence.
Qed.

Lemma Qltb_false_le (a b : Q) : Qltb a b = false -> b <= a.
Proof.
  unfold Qltb. intros H. apply negb_false_iff in H.
  now apply Qle_bool_iff.
Qed.

Lemma Qle_succ (c : Q) : c <= c + 1.
Proof.
  rewrite <- (Qplus_0_r c) at 1. apply Qplus_le_compat; [apply Qle_refl|].
  discriminate.
Qed.

(** X10.  The streak ledger stays well formed: from a ledger with
    [0 <= current <= longest], whatever [update_streaks] does (also when
    it raises), the ledger still has numbers with
    [0 <= current <= longest]; the longest streak never decreases and the
    current streak grows by at most one. *)
Theorem update_streaks_keeps_ledger (today yesterday : string) (t : tracker)
  (c l : Q) :
  ledger_number "current" (data t) = Ok c ->
  ledger_number "longest" (data t) = Ok l ->
  0 <= c -> c <= l ->
  exists c' l',
    ledger_number "current" (data (snd (update_streaks today yesterday t)))
    = Ok c' /\
    ledger_number "longest" (data (snd (update_streaks today yesterday t)))
    = Ok l' /\
    0 <= c' /\ c' <= l' /\ l <= l' /\ c' <= c + 1.
Proof.
  intros Hc Hl H0 Hcl.
  set (P := fun t' : tracker => exists c' l',
    ledger_number "current" (data t') = Ok c' /\
    ledger_number "longest" (data t') = Ok l' /\
    0 <= c' /\ c' <= l' /\ l <= l' /\ c' <= c + 1).
  change (P (snd (update_streaks today yesterday t))).
  assert (Hsame : forall r : result unit, P (snd (r, t))).
  { intros r. exists c, l. simpl.
    repeat split; auto using Qle_refl, Qle_succ. }
  (* the end of the method, from a ledger that holds the new numbers *)
  assert (Hend : forall d c' l',
    ledger_number "current" d = Ok c' ->
    ledger_number "longest" d = Ok l' ->
    0 <= c' -> c' <= l' -> l <= l' -> c' <= c + 1 ->
    P (snd ((exec (assign ["streaks"] "last_date" (VStr today)) ;;
             save_data)%py (set_data d t)))).
  { intros d c' l' Hc' Hl' ? ? ? ?.
    destruct (ledger_assign "last_date" _ (VStr today) _ _ Hc')
      as (d3 & Ha & _ & Hother).
    rewrite (bind_exec_Ok _ _ (set_data d t) d3 Ha).
    exists c', l'. simpl. rewrite !Hother by discriminate. auto 7. }
  clearbody P.
  unfold update_streaks. unfold bind at 1, eval at 1.
  destruct (let* s := py_getitem (data t) "streaks" in
            py_get s "last_date" VNone) as [last_date|]; [|apply Hsame].
  destruct (negb (is_str today last_date)); [|apply Hsame].
  unfold bind at 1, eval at 1.
  destruct (py_contains yesterday (data t)) as [[|]|];
    [| apply Hsame | apply Hsame].
  unfold bind at 1, eval at 1.
  destruct (goals_met_loop (goals (cfg t)) (productive_categories (cfg t))
              yesterday (data t)) as [[|]|]; [| | apply Hsame].
  - (* goals met: the streak continues or restarts at 1 *)
    assert (Hstep : exists d1 c1,
      (if is_str yesterday last_date
       then exec (aug_assign ["streaks"] "current" 1)
       else exec (assign ["streaks"] "current" (VNum 1))) t
      = (Ok tt, set_data d1 t) /\
      ledger_number "current" d1 = Ok c1 /\
      ledger_number "longest" d1 = Ok l /\
      0 <= c1 /\ c1 <= c + 1).
    { destruct (is_str yesterday last_date).
      - destruct (ledger_assign "current" _ (VNum (c + 1)) _ _ Hc)
          as (d1 & Ha & Hk & Hother).
        exists d1, (c + 1). split.
        + apply exec_Ok. now rewrite (ledger_aug_assign _ _ _ _ Hc).
        + rewrite Hk, Hother, Hl by discriminate.
          repeat split; auto using Qle_refl.
          apply (Qle_trans _ c); auto using Qle_succ.
      - destruct (ledger_assign "current" _ (VNum 1) _ _ Hc)
          as (d1 & Ha & Hk & Hother).
        exists d1, 1. split; [now apply exec_Ok|].
        rewrite Hk, Hother, Hl by discriminate.
        repeat split; [discriminate|].
        rewrite <- (Qplus_0_l 1) at 1.
        apply Qplus_le_compat; [assumption|apply Qle_refl]. }
    destruct Hstep as (d1 & c1 & Hrun & Hc1 & Hl1 & H01 & Hc1c).
    unfold bind at 1. unfold bind at 1. rewrite Hrun.
    rewrite (bind_eval_Ok _ _ (set_data d1 t) _ (ledger_gt _ _ _ _ _ Hc1 Hl1)).
    destruct (Qltb l c1) eqn:Hrec; unfold when.
    + (* a new record *)
      unfold ledger_number in Hc1.
      destruct (get_path ["streaks"; "current"] d1) as [v1|] eqn:Hv1;
        [|discriminate].
      rewrite (bind_eval_Ok _ _ (set_data d1 t) _ Hv1).
      assert (Hc1' : ledger_number "current" d1 = Ok c1).
      { unfold ledger_number. now rewrite Hv1. }
      destruct (ledger_assign "longest" _ v1 _ _ Hc1')
        as (d2 & Ha & Hk & Hother).
      rewrite (exec_Ok _ (set_data d1 t) _ Ha).
      replace (set_data d2 (set_data d1 t)) with (set_data d2 t)
        by reflexivity.
      apply (Hend d2 c1 c1); auto using Qle_refl.
      * now rewrite Hother by discriminate.
      * now rewrite Hk.
      * now apply Qltb_true.
    + unfold ret. cbv beta iota.
      apply (Hend d1 c1 l); auto using Qle_refl.
      now apply Qltb_false_le.
  - (* a goal was missed: the streak is reset *)
    unfold bind at 1.
    rewrite (bind_eval_Ok _ _ _ _ (ledger_gt_zero _ _ _ Hc)).
    destruct (ledger_assign "current" _ (VNum 0) _ _ Hc)
      as (d1 & Ha & Hk & Hother).
    rewrite (exec_Ok _ _ _ Ha).
    apply (Hend d1 0 l); auto using Qle_refl.
    + now rewrite Hother by discriminate.
    + apply (Qle_trans _ c); auto.
    + apply (Qle_trans _ c); auto using Qle_succ.
Qed.

Lemma update_streaks_keeps_ledger_witness :
  exists c' l',
    ledger_number "current"
      (data (snd (update_streaks "2024-01-03" "2024-01-02" browsing_tracker)))
    = Ok c' /\
    ledger_number "longest"
      (data (snd (update_streaks "2024-01-03" "2024-01-02" browsing_tracker)))
    = Ok l' /\
    0 <= c' /\ c' <= l' /\ 5 <= l' /\ c' <= 3 + 1.
Proof.
  apply (update_streaks_keeps_ledger "2024-01-03" "2024-01-02"
           browsing_tracker 3 5).
  - reflexivity.
  - reflexivity.
  - discriminate.
  - discriminate.
Defined.

(** ** Stopping and restarting the GUI loop *)

Lemma run_tracker_body_same_app (s : sample) (t : tracker) (idle t0 : Q)
  (app : string) :
  idle_probe s = Ok idle -> Qltb idle (idle_threshold t) = true ->
  window_probe s = Ok app -> app <> "" -> app <> "Unknown" ->
  is_app_blocked t app = false ->
  current_app t = Some app -> start_time t = Some t0 ->
  Qeq_bool t0 0 = false ->
  Qle_bool 5 (now s - t0) = true ->
  run_tracker_body s t
  = (record_time (today s) app (now s - t0) (current_project t) ;;
     modify (set_start_time (Some (now s))) ;;
     save_data) t.
Proof.
  intros Hidle Hlt Hwin Hne Hunk Hblock Hcur Hstart Hnz Hle.
  unfold run_tracker_body.
  unfold bind at 1, probe at 1. rewrite Hidle.
  unfold bind at 1, get at 1. rewrite Hlt.
  unfold bind at 1, probe at 1. rewrite Hwin.
  apply String.eqb_neq in Hne, Hunk. rewrite Hne, Hunk.
  change (negb false && negb false)%bool with true. cbv beta iota.
  unfold bind at 1, get at 1. rewrite Hblock.
  unfold bind at 1, get at 1. unfold is_current. rewrite Hcur.
  rewrite String.eqb_refl.
  unfold bind at 1, get_current_elapsed_time at 1. rewrite Hstart, Hnz, Hle.
  unfold when. unfold bind at 1, get at 1. reflexivity.
Qed.

Lemma data_after_flush (m : M unit) (f : tracker -> tracker) (t : tracker) :
  (forall t', data (f t') = data t') ->
  data (snd ((m ;; modify f ;; save_data) t)) = data (snd (m t)).
Proof.
  intros Hf. unfold bind, modify, save_data.
  destruct (m t) as [[[]|e] t1]; simpl; auto.
Qed.

Lemma stop_tracking_flush (s : sample) (t : tracker) (app : string) (t0 : Q) :
  current_app t = Some app -> app <> "" -> start_time t = Some t0 ->
  let recorded :=
    snd (record_time (today s) app (now s - t0) (current_project t) t) in
  data (snd (stop_tracking s t)) = data recorded /\
  session (snd (stop_tracking s t)) = session t.
Proof.
  intros Hcur Hne Hstart recorded.
  assert (Hflush : flush_current (elapsed_since_start s) s t
                   = record_time (today s) app (now s - t0)
                       (current_project t) t).
  { unfold flush_current. rewrite Hcur.
    apply String.eqb_neq in Hne. rewrite Hne.
    unfold bind, elapsed_since_start. now rewrite Hstart. }
  unfold stop_tracking, bind. rewrite Hflush. subst recorded.
  pose proof (record_time_session (today s) app (now s - t0)
                (current_project t) t) as [Hs _].
  destruct (record_time (today s) app (now s - t0) (current_project t) t)
    as [[[]|e] t1]; simpl in *; auto.
Qed.

(** X11.  Stopping the GUI loop and starting it again counts time twice.
    [TimeTracker.stop_tracking] records the time since [start_time] and
    leaves [current_app] and [start_time] as they are; when the loop is
    restarted on the same app, its first sample records the time since
    that same [start_time] again, which also covers the time tracking was
    stopped. *)
Theorem stop_and_restart_counts_twice (s1 s2 : sample) (t : tracker)
  (app : string) (t0 idle : Q) (last : option exn) (log : list exn) :
  store_inv (data t) -> today s1 <> "streaks" -> today s2 = today s1 ->
  current_app t = Some app -> app <> "" -> app <> "Unknown" ->
  start_time t = Some t0 -> Qeq_bool t0 0 = false ->
  is_excluded (cfg t) app = false -> is_app_blocked t app = false ->
  idle_probe s2 = Ok idle -> Qltb idle (idle_threshold t) = true ->
  window_probe s2 = Ok app ->
  Qle_bool 5 (now s2 - t0) = true ->
  let stopped := snd (gui_stop_tracking s1 t) in
  let g := run_tracker [s2] (mkGui stopped last log) in
  let category := categorize_app (cfg t) app in
  app_seconds_at (today s1) category app (data (tracker_of g))
  = app_seconds_at (today s1) category app (data t)
    + (now s1 - t0) + (now s2 - t0) /\
  current_app stopped = Some app /\ start_time stopped = Some t0.
Proof.
  intros Hinv Hdate Hsame Hcur Hne Hunk Hstart Hnz Hex Hblock Hidle Hlt Hwin
    Hle stopped g category.
  (* the stop *)
  set (t' := set_is_paused true t).
  assert (Hstop : stopped = snd (stop_tracking s1 t')) by reflexivity.
  destruct (stop_tracking_flush s1 t' app t0 Hcur Hne Hstart)
    as [Hdata Hsession].
  rewrite <- Hstop in Hdata, Hsession.
  unfold session in Hsession. simpl in Hsession.
  injection Hsession as Hcur1 Hstart1 Hthr1 _ Hproj1 Hfocus1 Hcfg1.
  destruct (record_time_effect (today s1) app (now s1 - t0)
              (current_project t') t' Hinv Hdate Hex) as [Happ1 _].
  assert (Hinv1 : store_inv (data stopped)).
  { rewrite Hdata. now apply preserves_record_time. }
  rewrite <- Hdata in Happ1. simpl in Happ1. fold category in Happ1.
  (* the first sample of the restarted loop *)
  set (t2 := set_is_paused false stopped).
  assert (Hg : tracker_of g = snd (run_tracker_body s2 t2)).
  { unfold g, run_tracker. simpl. unfold run_tracker_iteration. simpl.
    fold t2. now destruct (run_tracker_body s2 t2) as [[|] ?]. }
  assert (Hblock2 : is_app_blocked t2 app = false).
  { unfold is_app_blocked in *. simpl. now rewrite Hfocus1, Hcfg1. }
  assert (Hlt2 : Qltb idle (idle_threshold t2) = true)
    by (simpl; now rewrite Hthr1).
  rewrite Hcur in Hcur1. rewrite Hstart in Hstart1.
  rewrite Hg.
  rewrite (run_tracker_body_same_app s2 t2 idle t0 app Hidle Hlt2 Hwin Hne
             Hunk Hblock2 Hcur1 Hstart1 Hnz Hle).
  rewrite data_after_flush by reflexivity.
  destruct (record_time_effect (today s2) app (now s2 - t0)
              (current_project t2) t2) as [Happ2 _]; auto.
  { now rewrite Hsame. }
  { simpl. now rewrite Hcfg1. }
  change (cfg t2) with (cfg stopped) in Happ2.
  change (data t2) with (data stopped) in Happ2.
  rewrite Hcfg1 in Happ2. fold category in Happ2.
  rewrite Hsame in Happ2. rewrite Hsame, Happ2, Happ1. auto.
Qed.

Lemma stop_and_restart_counts_twice_witness :
  let stopped := snd (gui_stop_tracking (sample_at 160 "vim" 0) vim_tracker) in
  let g := run_tracker [sample_at 400 "vim" 0] (mkGui stopped None []) in
  app_seconds_at "2024-01-02" "Coding" "vim" (data (tracker_of g))
  = app_seconds_at "2024-01-02" "Coding" "vim" (data vim_tracker)
    + (160 - 100) + (400 - 100) /\
  current_app stopped = Some "vim" /\ start_time stopped = Some 100.
Proof.
  apply (stop_and_restart_counts_twice (sample_at 160 "vim" 0)
           (sample_at 400 "vim" 0) vim_tracker "vim" 100 0 None []);
    try reflexivity; try discriminate.
  apply store_inv_fresh.
Defined.

(** ** What reaches the data file *)







(** ** The aggregations on every store that holds the ledger *)

Lemma insert_sorted_keeps_last (x m : string) (front : list string) :
  String.leb x m = true ->
  exists front', insert_sorted x (front ++ [m]) = (front' ++ [m])%list.
Proof.
  intros Hx. induction front as [|y front [front' IH]]; simpl.
  - rewrite Hx. now exists [x].
  - destruct (String.leb x y).
    + now exists (x :: y :: front).
    + rewrite IH. now exists (y :: front').
Qed.

Lemma insert_sorted_greatest (m : string) (l : list string) :
  (forall y, In y l -> String.leb y m = true) -> ~ In m l ->
  insert_sorted m l = (l ++ [m])%list.
Proof.
  induction l as [|y l IH]; simpl; intros Hle Hnot; [reflexivity|].
  destruct (String.leb m y) eqn:E.
  - destruct Hnot. left. apply String.leb_antisym; auto.
  - rewrite IH; auto.
Qed.

(** A key that no other key exceeds is the last one of [sorted(keys)]. *)
Lemma sorted_ends_with (m : string) (l : list string) :
  (forall y, In y l -> String.leb y m = true) -> In m l ->
  exists front, sorted l = (front ++ [m])%list.
Proof.
  induction l as [|x l IH]; intros Hle Hin; [destruct Hin|].
  change (sorted (x :: l)) with (insert_sorted x (sorted l)).
  destruct (in_dec string_dec m l) as [Hm|Hm].
  - destruct IH as [front Hfront]; [intros; apply Hle; now right|assumption|].
    rewrite Hfront. apply insert_sorted_keeps_last. apply Hle. now left.
  - destruct Hin as [->|Hin]; [|contradiction].
    exists (sorted l). apply insert_sorted_greatest.
    + intros y Hy. apply Hle. right. now apply In_sorted.
    + intros Hy. apply Hm. now apply In_sorted.
Qed.

Lemma In_skipn {A : Type} (x : A) (n : nat) (l : list A) :
  In x (skipn n l) -> In x l.
Proof.
  intros H. rewrite <- (firstn_skipn n l). apply in_or_app. now right.
Qed.

Lemma last_n_ends_with {A : Type} (n : nat) (front : list A) (m : A) :
  In m (last_n (S n) (front ++ [m])).
Proof.
  unfold last_n. rewrite skipn_app. apply in_or_app. right.
  rewrite length_app. simpl length.
  replace (length front + 1 - S n - length front)%nat with 0%nat by lia.
  now left.
Qed.

(** A well-formed day record is read without an exception by each of the
    aggregations. *)
Lemma export_apps_Ok (date category : string) (apps : dict) (sum : Q) :
  py_sum (map snd apps) = Ok sum ->
  exists rows, export_apps date category apps = (rows, Ok tt).
Proof.
  revert sum. induction apps as [|[app v] apps IH]; simpl; intros sum Hs.
  - now exists [].
  - destruct (as_number v) as [q|]; [|discriminate]. simpl in Hs.
    destruct (py_sum (map snd apps)) as [r|]; [|discriminate].
    destruct (IH r eq_refl) as [rows ->]. simpl. eauto.
Qed.

Lemma export_categories_Ok (date : string) (cats : dict) :
  Forall (fun kv => conserved (snd kv)) cats ->
  exists rows, export_categories date cats = (rows, Ok tt).
Proof.
  induction 1 as [|[category b] cats Hb _ [rows IH]]; simpl.
  - now exists [].
  - simpl in Hb. apply conserved_shape in Hb
      as (bd & tv & total & apps & sum & -> & _ & _ & Happs & Hsum & _).
    simpl in *. rewrite Happs. simpl.
    destruct (export_apps_Ok date category apps sum Hsum) as [rows' ->].
    rewrite IH. simpl. eauto.
Qed.

Lemma sum_totals_Ok (cats : dict) :
  Forall (fun kv => conserved (snd kv)) cats ->
  exists q, sum_totals (map snd cats) = Ok q.
Proof.
  induction 1 as [|[category b] cats Hb _ [q IH]]; simpl.
  - now exists 0.
  - simpl in Hb. apply conserved_shape in Hb
      as (bd & tv & total & apps & sum & -> & Htv & Ht & _).
    simpl in *. rewrite Htv. simpl. rewrite Ht. simpl. rewrite IH. simpl.
    eauto.
Qed.

Lemma sum_categories_Ok (entries cats : dict) (date : string)
  (categories : list string) :
  dict_get date entries = Some (VDict cats) ->
  good_day (VDict cats) ->
  exists q, sum_categories (VDict entries) date categories = Ok q.
Proof.
  intros Hday Hgood. induction categories as [|c categories [q IH]].
  - now exists 0.
  - cbn [sum_categories py_getitem]. rewrite Hday. rb.
    destruct (day_seconds_Ok c cats Hgood) as (x & Hx & _).
    unfold rbind in Hx.
    destruct (py_get (VDict cats) c (VDict [])) as [bucket|];
      [|discriminate].
    destruct (py_get bucket "total_seconds" (VNum 0)) as [seconds|];
      [|discriminate].
    rewrite Hx, IH. eauto.
Qed.

Lemma day_of_key (entries : dict) (date : string) :
  Forall (fun kv => fst kv <> "streaks" -> good_day (snd kv)) entries ->
  In date (map fst entries) -> date <> "streaks" ->
  exists cats,
    dict_get date entries = Some (VDict cats) /\
    Forall (fun kv => conserved (snd kv)) cats.
Proof.
  intros Hall Hin Hne.
  induction Hall as [|[k day] rest Hday _ IH]; [destruct Hin|].
  simpl in *. destruct (String.eqb_spec k date) as [->|Hk].
  - destruct (Hday Hne) as (cats & -> & Hcats). eauto.
  - destruct Hin as [Hin|Hin]; [contradiction|]. auto.
Qed.

Section Aggregations.

Variables (entries : dict) (current longest last_date : value).

Hypothesis well_formed : store_inv (VDict entries).
Hypothesis has_ledger :
  dict_get "streaks" entries = Some (ledger_of current longest last_date).
Hypothesis current_is_no_dict : forall a, current <> VDict a.

Lemma entry_of_key (date : string) :
  In date (map fst entries) -> date <> "streaks" ->
  exists cats,
    dict_get date entries = Some (VDict cats) /\
    Forall (fun kv => conserved (snd kv)) cats.
Proof.
  destruct well_formed as (entries' & [= <-] & Hall).
  now apply day_of_key.
Qed.

Lemma ledger_row_raises :
  py_getitem current "apps" = Raise TypeError /\
  py_getitem current "total_seconds" = Raise TypeError.
Proof.
  destruct current; try (split; reflexivity).
  now destruct (current_is_no_dict d).
Qed.

Lemma day_total_ledger : day_total (VDict entries) "streaks" = Raise TypeError.
Proof.
  unfold day_total. cbn [py_getitem]. rewrite has_ledger. rb.
  unfold ledger_of. simpl. now rewrite (proj2 ledger_row_raises).
Qed.

Lemma export_dates_ledger (dates : list string) :
  (forall date, In date dates -> In date (map fst entries)) ->
  In "streaks" dates ->
  snd (export_dates (VDict entries) dates) = Raise TypeError.
Proof.
  induction dates as [|date dates IH]; intros Hkeys Hin; [destruct Hin|].
  cbn [export_dates py_getitem].
  destruct (string_dec date "streaks") as [->|Hne].
  - rewrite has_ledger. unfold ledger_of. simpl.
    now rewrite (proj1 ledger_row_raises).
  - destruct (entry_of_key date) as (cats & -> & Hcats); auto.
    { apply Hkeys. now left. }
    rb. cbn [py_items].
    destruct (export_categories_Ok date cats Hcats) as [rows ->].
    simpl. apply IH.
    + intros; apply Hkeys; now right.
    + destruct Hin; congruence.
Qed.

Lemma insights_dates_ledger (dates : list string) :
  (forall date, In date dates -> In date (map fst entries)) ->
  In "streaks" dates ->
  insights_dates (VDict entries) dates = Raise TypeError.
Proof.
  induction dates as [|date dates IH]; intros Hkeys Hin; [destruct Hin|].
  cbn [insights_dates].
  destruct (string_dec date "streaks") as [->|Hne].
  - rewrite day_total_ledger. cbn [sum_categories py_getitem].
    rewrite has_ledger. reflexivity.
  - destruct (entry_of_key date) as (cats & Hday & Hcats); auto.
    { apply Hkeys. now left. }
    assert (Hgood : good_day (VDict cats)) by (exists cats; auto).
    destruct (sum_categories_Ok entries cats date ["Coding"; "Productivity"]
                Hday Hgood) as [p ->].
    destruct (sum_categories_Ok entries cats date ["Entertainment"]
                Hday Hgood) as [u ->].
    unfold day_total. cbn [py_getitem]. rewrite Hday. rb. cbn [py_values].
    destruct (sum_totals_Ok cats Hcats) as [q ->].
    rewrite IH; auto.
    + intros; apply Hkeys; now right.
    + destruct Hin; congruence.
Qed.

End Aggregations.

Lemma store_inv_browsing_tracker : store_inv (data browsing_tracker).
Proof.
  eexists. split; [reflexivity|].
  repeat constructor; simpl; try congruence; intros _.
  - eexists. split; [reflexivity|]. repeat constructor.
    exists 18000, 18000. repeat split; reflexivity.
  - apply good_day_browsing_day.
Qed.

(** X13.  The three aggregations fail on every store the application
    builds, not only on an example.  On a well-formed store that holds
    the streak ledger, [export_csv] raises [TypeError] (after the rows of
    the date keys that sort before "streaks").  When no key sorts after
    "streaks", as is the case for date keys, [list_previous_days] raises
    [TypeError] for every number of days above 0 and [display_insights]
    raises [TypeError]. *)
Theorem aggregations_raise_with_ledger (t : tracker) (entries : dict)
  (current longest last_date : value) :
  data t = VDict entries ->
  store_inv (data t) ->
  dict_get "streaks" entries = Some (ledger_of current longest last_date) ->
  (forall a, current <> VDict a) ->
  snd (export_csv t) = Raise TypeError /\
  ((forall k, In k (map fst entries) -> String.leb k "streaks" = true) ->
   (forall n, list_previous_days (S n) t = Raise TypeError) /\
   display_insights t = Raise TypeError).
Proof.
  intros Hd Hinv Hledger Hcur. rewrite Hd in Hinv.
  assert (Hin : In "streaks" (map fst entries))
    by (eapply dict_get_In_keys; eauto).
  split.
  - unfold export_csv. rewrite Hd. cbn [py_keys].
    apply (export_dates_ledger entries current longest last_date); auto.
    + intros date. apply In_sorted.
    + now apply In_sorted.
  - intros Hle.
    destruct (sorted_ends_with "streaks" _ Hle Hin) as [front Hsorted].
    split.
    + intros n. unfold list_previous_days. rewrite Hd. cbn [py_keys]. rb.
      rewrite Hsorted, rev_app_distr. cbn [rev app firstn previous_days].
      now rewrite (day_total_ledger entries current longest last_date).
    + unfold display_insights. rewrite Hd.
      destruct entries as [|kv rest]; [destruct Hin|].
      cbn [py_truthy negb py_keys]. rb.
      rewrite (insights_dates_ledger (kv :: rest) current longest last_date);
        auto.
      * intros date H. unfold last_n in H. apply In_skipn in H.
        exact (proj1 (In_sorted _ _) H).
      * rewrite Hsorted. apply last_n_ends_with.
Qed.

Lemma aggregations_raise_with_ledger_witness :
  snd (export_csv browsing_tracker) = Raise TypeError /\
  (forall n, list_previous_days (S n) browsing_tracker = Raise TypeError) /\
  display_insights browsing_tracker = Raise TypeError.
Proof.
  destruct (aggregations_raise_with_ledger browsing_tracker
              [("streaks", ledger_of (VNum 3) (VNum 5) (VStr "2024-01-02"));
               ("2024-01-01", coding_day); ("2024-01-02", browsing_day)]
              (VNum 3) (VNum 5) (VStr "2024-01-02")) as [Hexport Hsorted].
  - reflexivity.
  - apply store_inv_browsing_tracker.
  - reflexivity.
  - discriminate.
  - split; [exact Hexport|]. apply Hsorted.
    intros k [<-|[<-|[<-|[]]]]; reflexivity.
Defined.

(** ** The exclusion list saved from the settings tab *)

Lemma str_in_empty (s : string) : str_in "" s = true.
Proof. now destruct s. Qed.

(** An empty pattern matches every app. *)
Lemma empty_pattern_excludes (c : config) (app_name : string) :
  In "" (excluded_apps c) -> is_excluded c app_name = true.
Proof.
  intros H. unfold is_excluded. apply existsb_exists.
  exists "". split; [assumption|apply str_in_empty].
Qed.

Lemma lstrip_comma (s : string) : lstrip (s ++ ",") = lstrip s ++ ",".
Proof.
  induction s as [|c s IH]; simpl; [reflexivity|].
  now destruct (is_space c).
Qed.

Lemma rstrip_comma (s : string) : rstrip (s ++ ",") = s ++ ",".
Proof.
  induction s as [|c s IH]; simpl; [reflexivity|].
  rewrite IH. now destruct s.
Qed.

Lemma split_on_trailing (s : string) :
  exists h front, split_on "," (s ++ ",") = h :: (front ++ [""])%list.
Proof.
  induction s as [|c s (h & front & IH)]; simpl.
  - now exists "", [].
  - rewrite IH. destruct (Ascii.eqb c ",").
    + now exists "", (h :: front).
    + now exists (String c h), front.
Qed.

Lemma parse_excluded_trailing_comma (text : string) :
  In "" (parse_excluded (text ++ ",")).
Proof.
  unfold parse_excluded, strip. rewrite lstrip_comma, rstrip_comma.
  destruct (split_on_trailing (lstrip text)) as (h & front & ->).
  replace (lstrip text ++ "," =? "") with false
    by (now destruct (lstrip text)).
  rewrite map_cons, map_app. right. apply in_or_app. right. now left.
Qed.

(** X14.  A trailing comma in the "excluded apps" entry of the settings
    tab switches recording off.  [save_settings] splits the text at the
    commas without dropping empty fragments, so the saved list holds the
    empty pattern, which is a substring of every window title: every
    later [record_time] call returns without touching the tracker. *)
Theorem trailing_comma_excludes_everything (idle break : Z) (text : string)
  (t : tracker) (today app_name : string) (x : Q) (project : option string) :
  let t' := save_settings (Some idle) (Some break) (text ++ ",") t in
  In "" (excluded_apps (cfg t')) /\
  record_time today app_name x project t' = (Ok tt, t').
Proof.
  intros t'.
  assert (H : In "" (excluded_apps (cfg t')))
    by apply parse_excluded_trailing_comma.
  split; [exact H|].
  apply record_time_excluded. now apply empty_pattern_excludes.
Qed.

(** ** The analytics tab *)

Lemma analytics_apps_Ok (apps : list (string * value)) (app_totals : totals) :
  Forall (fun kv => exists q, as_number (snd kv) = Ok q) apps ->
  exists app_totals', analytics_apps apps app_totals = Ok app_totals'.
Proof.
  intros Hall. revert app_totals.
  induction Hall as [|[app v] apps [q Hq] _ IH]; intros app_totals; simpl.
  - eauto.
  - simpl in Hq. rewrite Hq. simpl. apply IH.
Qed.

(** The buckets of a well-shaped day are read without an exception. *)
Lemma analytics_categories_Ok (productive : list string) (cats : dict)
  (a : analytics) :
  Forall (fun kv => bucket_shape (snd kv)) cats ->
  exists a', analytics_categories productive cats a = Ok a'.
Proof.
  intros Hall. revert a.
  induction Hall as [|[category b] cats Hb _ IH]; intros a; simpl.
  - eauto.
  - destruct (category =? "streaks"); [apply IH|].
    simpl in Hb.
    destruct Hb as (bd & tv & total & apps & -> & Htv & Ht & Happs & Hnum).
    simpl. rewrite Htv. simpl. rewrite Ht. simpl. rewrite Happs. simpl.
    destruct (analytics_apps_Ok apps (app_totals_of a) Hnum)
      as (app_totals' & ->).
    simpl. apply IH.
Qed.

Lemma analytics_dates_frame (productive : list string) (entries : dict)
  (ledger : value) (dates : list string) (a : analytics) :
  ~ In "streaks" dates ->
  analytics_dates productive (VDict (dict_set "streaks" ledger entries))
    dates a
  = analytics_dates productive (VDict entries) dates a.
Proof.
  revert a. induction dates as [|date dates IH]; intros a Hnot;
    [reflexivity|].
  assert (Hne : "streaks" <> date) by (intros <-; apply Hnot; now left).
  assert (Hrest : ~ In "streaks" dates) by (intros H; apply Hnot; now right).
  cbn [analytics_dates py_contains py_getitem]. unfold dict_has.
  rewrite (dict_get_set_other "streaks" date ledger entries Hne).
  destruct (dict_get date entries) as [day|]; rb; cbn [negb].
  - destruct (py_items day) as [cats|e]; [|reflexivity].
    destruct (analytics_categories productive cats a) as [a1|e];
      [|reflexivity].
    now apply IH.
  - now apply IH.
Qed.

(** X15.  For the ranges "Today", "Week" and "Month", whose dates are
    computed from the clock, the aggregation of [update_analytics] does
    not read the streak ledger: its outcome, figures or exception, is
    the same whatever is stored under "streaks". *)
Theorem analytics_dated_ranges_ignore_ledger (dates : list string)
  (t : tracker) (entries : dict) (ledger : value) :
  data t = VDict entries -> ~ In "streaks" dates ->
  update_analytics (Some dates)
    (set_data (VDict (dict_set "streaks" ledger entries)) t)
  = update_analytics (Some dates) t.
Proof.
  intros Hd Hnot. unfold update_analytics. rewrite Hd.
  destruct t; simpl. now apply analytics_dates_frame.
Qed.

Lemma analytics_dated_ranges_ignore_ledger_witness :
  update_analytics (Some ["2024-01-02"; "2024-01-01"; "2023-12-31"])
    (set_data
       (VDict [("streaks", VNum 7); ("2024-01-01", coding_day);
               ("2024-01-02", browsing_day)])
       browsing_tracker)
  = update_analytics (Some ["2024-01-02"; "2024-01-01"; "2023-12-31"])
      browsing_tracker.
Proof.
  apply (analytics_dated_ranges_ignore_ledger
           ["2024-01-02"; "2024-01-01"; "2023-12-31"] browsing_tracker
           [("streaks",
             VDict [("current", VNum 3); ("longest", VNum 5);
                    ("last_date", VStr "2024-01-02")]);
            ("2024-01-01", coding_day);
            ("2024-01-02", browsing_day)]
           (VNum 7)).
  - reflexivity.
  - intros [H|[H|[H|[]]]]; discriminate.
Defined.

Lemma analytics_dates_ledger (productive : list string) (entries : dict)
  (current longest last_date : value) (dates : list string) (a : analytics) :
  Forall (fun kv => fst kv <> "streaks" -> good_day (snd kv)) entries ->
  dict_get "streaks" entries = Some (ledger_of current longest last_date) ->
  (forall x, current <> VDict x) ->
  In "streaks" dates ->
  analytics_dates productive (VDict entries) dates a = Raise AttributeError.
Proof.
  intros Hall Hledger Hcur. revert a.
  induction dates as [|date dates IH]; intros a Hin; [destruct Hin|].
  cbn [analytics_dates py_contains py_getitem]. unfold dict_has. rb.
  destruct (string_dec date "streaks") as [->|Hne].
  - rewrite Hledger. unfold ledger_of. cbn [negb py_items].
    cbn [analytics_categories]. simpl String.eqb. cbv iota.
    destruct current; try reflexivity. now destruct (Hcur d).
  - destruct (dict_get date entries) as [day|] eqn:Hday; cbn [negb].
    + destruct (dict_get_Forall _ _ _ _ Hall Hday Hne) as (cats & Hc & Hcats).
      simpl in Hc. subst day. cbn [py_items].
      assert (Hshape : Forall (fun kv => bucket_shape (snd kv)) cats).
      { eapply Forall_impl; [|exact Hcats].
        intros kv. apply conserved_bucket_shape. }
      destruct (analytics_categories_Ok productive cats a Hshape)
        as (a1 & ->).
      apply IH. destruct Hin; congruence.
    + apply IH. destruct Hin; congruence.
Qed.

(** X16.  For the range "All Time" the dates are the keys of the store,
    which include "streaks"; the test that skips "streaks" is applied to
    the category names inside each entry, not to the dates.  On every
    well-formed store that holds the streak ledger the aggregation
    raises [AttributeError] ([int] has no [get]): the analytics tab is
    not updated. *)
Theorem analytics_all_time_raises (t : tracker) (entries : dict)
  (current longest last_date : value) :
  data t = VDict entries ->
  store_inv (data t) ->
  dict_get "streaks" entries = Some (ledger_of current longest last_date) ->
  (forall x, current <> VDict x) ->
  update_analytics None t = Raise AttributeError.
Proof.
  intros Hd (entries' & Hd' & Hall) Hledger Hcur.
  rewrite Hd in Hd'. injection Hd' as <-.
  unfold update_analytics. rewrite Hd. cbn [py_keys]. rb.
  apply (analytics_dates_ledger _ _ current longest last_date); auto.
  eapply dict_get_In_keys; eauto.
Qed.

Lemma analytics_all_time_raises_witness :
  update_analytics None browsing_tracker = Raise AttributeError.
Proof.
  apply (analytics_all_time_raises browsing_tracker
           [("streaks", ledger_of (VNum 3) (VNum 5) (VStr "2024-01-02"));
            ("2024-01-01", coding_day); ("2024-01-02", browsing_day)]
           (VNum 3) (VNum 5) (VStr "2024-01-02")).
  - reflexivity.
  - apply store_inv_browsing_tracker.
  - reflexivity.
  - discriminate.
Defined.

(** ** Goal notifications *)

Lemma existsb_eqb_false (x : string) (l : list string) :
  existsb (String.eqb x) l = false -> ~ In x l.
Proof.
  intros H Hin. now rewrite (existsb_eqb_In x l Hin) in H.
Qed.

Lemma notify_once_ok (enabled : bool) (k : string) (m : notification)
  (n : notifier) :
  notifier_ok n -> notifier_ok (notify_once enabled k m n).
Proof.
  intros [Hnd Hsub]. unfold notify_once.
  destruct (existsb (String.eqb k) (last_notification_time n)) eqn:E;
    [now split|].
  apply existsb_eqb_false in E.
  destruct enabled; split; simpl.
  - rewrite map_app. apply NoDup_app; auto.
    + repeat constructor. intros [].
    + intros a Ha [<-|[]]. auto.
  - intros k'. rewrite map_app, !in_app_iff. intros [H|H]; auto.
  - exact Hnd.
  - intros k' H. apply in_or_app. auto.
Qed.

(** A step of the loop that depends on the state only through calls of
    [notify_once] keeps whatever those calls keep. *)
Lemma goal_notifications_keep (P : notifier -> Prop) (enabled : bool)
  (today : string) (d : value) (goal_items : list (string * Q)) :
  (forall k m n, P n -> P (notify_once enabled k m n)) ->
  forall n, P n -> P (snd (goal_notifications enabled today d goal_items n)).
Proof.
  intros Hstep.
  induction goal_items as [|[category goal_hours] rest IH]; intros n Hn;
    [exact Hn|].
  cbn [goal_notifications].
  destruct (let* day := py_getitem d today in py_contains category day)
    as [[|]|]; [| now apply IH | exact Hn].
  destruct (let* seconds := get_path [today; category; "total_seconds"] d in
            as_number seconds) as [seconds|]; [|exact Hn].
  apply IH.
  destruct (_ && _)%bool; destruct (Qle_bool _ _); auto.
Qed.

Lemma check_goal_notifications_keep (P : notifier -> Prop) (enabled : bool)
  (today : string) (t : tracker) :
  (forall k m n, P n -> P (notify_once enabled k m n)) ->
  forall n, P n -> P (snd (check_goal_notifications enabled today t n)).
Proof.
  intros Hstep n Hn. unfold check_goal_notifications.
  destruct (py_contains today (data t)) as [[|]|]; try exact Hn.
  now apply goal_notifications_keep.
Qed.

Lemma check_goals_repeatedly_keep (P : notifier -> Prop)
  (calls : list (bool * string * tracker)) :
  (forall enabled k m n, P n -> P (notify_once enabled k m n)) ->
  forall n, P n -> P (check_goals_repeatedly calls n).
Proof.
  intros Hstep. unfold check_goals_repeatedly.
  induction calls as [|[[enabled today] t] calls IH]; intros n Hn;
    [exact Hn|].
  simpl. apply IH. apply check_goal_notifications_keep; auto.
Qed.

(** X17.  No goal notification is displayed twice.  Over any series of
    [check_goal_notifications] calls on one tracker object (whatever the
    store, the date and the notification setting are at each call, and
    also when calls raise), the keys of the displayed notifications are
    pairwise distinct: each goal and each limit warning is announced at
    most once per category and day. *)
Theorem goal_notifications_shown_once (calls : list (bool * string * tracker)) :
  NoDup (map fst (shown (check_goals_repeatedly calls (mkNotifier [] [])))).
Proof.
  assert (H : notifier_ok (check_goals_repeatedly calls (mkNotifier [] []))).
  { apply check_goals_repeatedly_keep.
    - intros. now apply notify_once_ok.
    - split; [constructor|intros k []]. }
  exact (proj1 H).
Qed.

Lemma notify_once_remembers (enabled : bool) (k k' : string)
  (m : notification) (n : notifier) :
  In k (last_notification_time n) ->
  In k (last_notification_time (notify_once enabled k' m n)).
Proof.
  intros H. unfold notify_once.
  destruct (existsb (String.eqb k') (last_notification_time n)); [exact H|].
  simpl. apply in_or_app. now left.
Qed.

Lemma notify_once_sets (enabled : bool) (k : string) (m : notification)
  (n : notifier) :
  In k (last_notification_time (notify_once enabled k m n)).
Proof.
  unfold notify_once.
  destruct (existsb (String.eqb k) (last_notification_time n)) eqn:E.
  - apply existsb_exists in E as (x & Hx & Heq).
    apply String.eqb_eq in Heq. now subst.
  - simpl. apply in_or_app. right. now left.
Qed.

(** A key that is remembered and was not displayed stays so. *)
Lemma notify_once_silenced (key : string) (enabled : bool) (k : string)
  (m : notification) (n : notifier) :
  In key (last_notification_time n) /\ ~ In key (map fst (shown n)) ->
  In key (last_notification_time (notify_once enabled k m n)) /\
  ~ In key (map fst (shown (notify_once enabled k m n))).
Proof.
  intros [Hin Hnot]. split; [now apply notify_once_remembers|].
  unfold notify_once.
  destruct (existsb (String.eqb k) (last_notification_time n)) eqn:E;
    [exact Hnot|].
  apply existsb_eqb_false in E.
  destruct enabled; simpl; [|exact Hnot].
  rewrite map_app, in_app_iff. intros [H|[<-|[]]]; auto.
Qed.

Lemma notify_once_disabled (k : string) (m : notification) (n : notifier) :
  shown (notify_once false k m n) = shown n.
Proof.
  unfold notify_once.
  now destruct (existsb (String.eqb k) (last_notification_time n)).
Qed.

(** When the loop returns, the key of every goal that is reached has
    been set. *)
Lemma goal_notifications_sets_key (enabled : bool) (today : string)
  (d : value) (goal_items : list (string * Q)) (category : string)
  (goal_hours seconds : Q) (n : notifier) :
  In (category, goal_hours) goal_items ->
  (let* v := get_path [today; category; "total_seconds"] d in as_number v)
  = Ok seconds ->
  Qle_bool goal_hours (seconds / 3600) = true ->
  fst (goal_notifications enabled today d goal_items n) = Ok tt ->
  In (goal_key category today)
    (last_notification_time
       (snd (goal_notifications enabled today d goal_items n))).
Proof.
  intros Hin Hsec Hle. revert n.
  induction goal_items as [|[c g] rest IH]; intros n Hok; [destruct Hin|].
  cbn [goal_notifications] in *.
  destruct Hin as [[= -> ->]|Hin].
  - assert (Hc : (let* day := py_getitem d today in
                  py_contains category day) = Ok true).
    { unfold rbind in Hsec. simpl in Hsec.
      destruct (py_getitem d today) as [day|]; [|discriminate]. rb.
      destruct day as [| | | | |cats]; try discriminate. simpl in *.
      unfold dict_has. now destruct (dict_get category cats). }
    rewrite Hc in *. rewrite Hsec in *. rewrite Hle in *.
    apply (goal_notifications_keep
             (fun n => In (goal_key category today)
                         (last_notification_time n))).
    + intros. now apply notify_once_remembers.
    + destruct (_ && _)%bool;
        [apply notify_once_remembers|]; apply notify_once_sets.
  - destruct (let* day := py_getitem d today in py_contains c day)
      as [[|]|]; [| now apply IH | discriminate].
    destruct (let* v := get_path [today; c; "total_seconds"] d in
              as_number v) as [s|]; [|discriminate].
    now apply IH.
Qed.

(** X18.  A goal that is reached while notifications are switched off is
    never announced.  The call made with [notifications_enabled] off
    still stores the key of the goal, so no later call on that day
    displays the notification, also after notifications are switched on
    again. *)
Theorem goal_reached_while_disabled_is_never_shown (today category : string)
  (goal_hours seconds : Q) (t : tracker) (n : notifier)
  (later : list (bool * string * tracker)) :
  In (category, goal_hours) (goals (cfg t)) ->
  (let* v := get_path [today; category; "total_seconds"] (data t) in
   as_number v) = Ok seconds ->
  Qle_bool goal_hours (seconds / 3600) = true ->
  fst (check_goal_notifications false today t n) = Ok tt ->
  ~ In (goal_key category today) (map fst (shown n)) ->
  ~ In (goal_key category today)
      (map fst
         (shown (check_goals_repeatedly later
                   (snd (check_goal_notifications false today t n))))).
Proof.
  intros Hgoal Hsec Hle Hok Hnot.
  set (key := goal_key category today) in *.
  apply (check_goals_repeatedly_keep
           (fun n => In key (last_notification_time n) /\
                     ~ In key (map fst (shown n)))).
  { intros. now apply notify_once_silenced. }
  split.
  - revert Hok. unfold check_goal_notifications.
    assert (Hc : py_contains today (data t) = Ok true).
    { unfold rbind in Hsec. simpl in Hsec.
      destruct (data t) as [| | | | |entries]; try discriminate.
      simpl in *. unfold dict_has.
      now destruct (dict_get today entries). }
    rewrite Hc. now apply goal_notifications_sets_key with goal_hours seconds.
  - assert (Hshown : shown (snd (check_goal_notifications false today t n))
                     = shown n).
    { apply (check_goal_notifications_keep
               (fun n' => shown n' = shown n)); [|reflexivity].
      intros k m n' H. now rewrite notify_once_disabled. }
    now rewrite Hshown.
Qed.

Lemma goal_reached_while_disabled_is_never_shown_witness :
  ~ In (goal_key "Coding" "2024-01-01")
      (map fst
         (shown (check_goals_repeatedly
                   [(true, "2024-01-01", gap_tracker);
                    (true, "2024-01-01", gap_tracker)]
                   (snd (check_goal_notifications false "2024-01-01"
                           gap_tracker (mkNotifier [] [])))))).
Proof.
  apply (goal_reached_while_disabled_is_never_shown "2024-01-01" "Coding"
           4 18000 gap_tracker (mkNotifier [] [])).
  - left. reflexivity.
  - reflexivity.
  - reflexivity.
  - reflexivity.
  - intros [].
Defined.

(** ** The e-mail report *)

(** On the buckets of a well-formed day the loop appends nothing: it
    raises [TypeError] at the first category that is not a field name. *)
Lemma report_categories_good (date : string) (cats : dict) :
  Forall (fun kv => conserved (snd kv)) cats ->
  report_categories date cats
  = if forallb (fun kv => existsb (String.eqb (fst kv)) day_fields) cats
    then Ok [] else Raise TypeError.
Proof.
  induction 1 as [|[category b] cats Hb _ IH]; [reflexivity|].
  cbn [report_categories forallb fst].
  destruct (existsb (String.eqb category) day_fields); [exact IH|].
  simpl in Hb. apply conserved_shape in Hb as (bd & ? & ? & ? & ? & -> & _).
  reflexivity.
Qed.

Lemma report_days_good (entries : dict) (dates : list string) :
  Forall (fun kv => fst kv <> "streaks" -> good_day (snd kv)) entries ->
  ~ In "streaks" dates ->
  report_days (VDict entries) dates
  = if forallb (no_categories (VDict entries)) dates
    then Ok [] else Raise TypeError.
Proof.
  intros Hall. induction dates as [|date dates IH]; intros Hnot;
    [reflexivity|].
  assert (Hne : date <> "streaks") by (intros ->; apply Hnot; now left).
  assert (Hrest : ~ In "streaks" dates) by (intros H; apply Hnot; now right).
  cbn [report_days forallb py_get]. unfold no_categories at 1.
  cbn [get_path py_getitem].
  destruct (dict_get date entries) as [day|] eqn:Hday; rb.
  - destruct (dict_get_Forall _ _ _ _ Hall Hday Hne) as (cats & Hc & Hcats).
    simpl in Hc. subst day. cbn [py_items].
    rewrite (report_categories_good date cats Hcats).
    destruct (forallb _ cats); [|reflexivity].
    rewrite (IH Hrest). now destruct (forallb _ dates).
  - cbn [py_items report_categories andb].
    rewrite (IH Hrest). now destruct (forallb _ dates).
Qed.

(** X19.  The CSV report of the e-mail module never holds a line of
    data.  It reads each category of a day as a number of hours, while
    the tracker stores a bucket there: on a well-formed store the report
    is the header alone when none of the seven days has a category, and
    [None] otherwise, because comparing a bucket with 0 raises
    [TypeError]. *)
Theorem csv_report_has_no_data (dates : list string) (t : tracker) :
  store_inv (data t) -> ~ In "streaks" dates ->
  generate_csv_report dates t
  = if forallb (no_categories (data t)) dates then Some [] else None.
Proof.
  intros (entries & Hd & Hall) Hnot. unfold generate_csv_report.
  rewrite Hd, (report_days_good entries dates Hall Hnot).
  now destruct (forallb _ dates).
Qed.

Lemma csv_report_has_no_data_witness :
  generate_csv_report ["2024-01-03"; "2024-01-02"; "2024-01-01"]
    browsing_tracker
  = if forallb (no_categories (data browsing_tracker))
         ["2024-01-03"; "2024-01-02"; "2024-01-01"]
    then Some [] else None.
Proof.
  apply (csv_report_has_no_data ["2024-01-03"; "2024-01-02"; "2024-01-01"]
           browsing_tracker).
  - apply store_inv_browsing_tracker.
  - intros [H|[H|[H|[]]]]; discriminate.
Defined.

(** ** The daily report *)













(** ** A project error in the GUI loop *)

(** With a project set and a bucket whose projects field is [None],
    [record_time] raises after adding the seconds, and the field is
    still [None]. *)
Lemma record_time_null_state (today app_name : string) (x : Q)
  (project : option string) (t : tracker) :
  store_inv (data t) -> today <> "streaks" ->
  is_excluded (cfg t) app_name = false ->
  projects_field today (categorize_app (cfg t) app_name) (data t) = Ok VNone ->
  truthy project = true ->
  let r := record_time today app_name x project t in
  fst r = Raise TypeError /\
  projects_field today (categorize_app (cfg t) app_name) (data (snd r))
  = Ok VNone.
Proof.
  intros Hinv Hne Hex Hpv Hp r. subst r.
  destruct (record_time_steps today app_name x project t Hinv Hne Hex)
    as (t0 & d1 & b & b' & total & seconds & Hd0 & Hget & Hcase & Hother
        & _ & _ & _ & _ & Hrec).
  set (category := categorize_app (cfg t) app_name) in *.
  assert (Hb : py_getitem b "projects" = Ok VNone).
  { destruct Hcase as [[Hb _]|[Hnew _]].
    - now rewrite <- (projects_field_bucket _ _ _ _ Hb).
    - apply projects_field_Ok in Hpv as (bd & Hbd & _).
      now destruct (Hnew _ Hbd). }
  set (t1 := set_data (plug [today; category] b' d1) t0) in *.
  assert (Hb' : get_path [today; category] (data t1) = Ok b')
    by (eapply get_path_plug; eauto).
  assert (Hpv' : projects_field today category (data t1) = Ok VNone).
  { rewrite (projects_field_bucket _ _ _ _ Hb').
    rewrite Hother by discriminate. exact Hb. }
  rewrite Hrec, (track_project_null _ _ _ _ _ Hpv' Hp). now split.
Qed.

(** X22.  In the GUI loop a project error makes the time count again and
    again.  With a project selected and a bucket that was created
    without one, [record_time] raises [TypeError] after adding the
    seconds; [run_tracker] logs the error and goes on without resetting
    [start_time].  Each later sample on the same app therefore adds the
    whole time since that [start_time] once more. *)
Theorem gui_project_error_recounts (samples : list sample)
  (date app : string) (t0 : Q) (t : tracker) (last : option exn)
  (log : list exn) :
  store_inv (data t) -> date <> "streaks" ->
  current_app t = Some app -> app <> "" -> app <> "Unknown" ->
  start_time t = Some t0 -> Qeq_bool t0 0 = false ->
  truthy (current_project t) = true ->
  projects_field date (categorize_app (cfg t) app) (data t) = Ok VNone ->
  is_excluded (cfg t) app = false -> is_app_blocked t app = false ->
  Forall (due_in app date (idle_threshold t) t0) samples ->
  let g := run_tracker samples (mkGui t last log) in
  logged g = (log ++ repeat TypeError (length samples))%list /\
  start_time (tracker_of g) = Some t0 /\
  app_seconds_at date (categorize_app (cfg t) app) app (data (tracker_of g))
  == app_seconds_at date (categorize_app (cfg t) app) app (data t)
     + qsum (map (fun s => now s - t0) samples).
Proof.
  intros Hinv Hdate Hcur Hne Hunk Hstart Hnz Hproj Hpv Hex Hblock Hall g.
  set (category := categorize_app (cfg t) app) in *.
  set (ts := set_is_paused false t).
  assert (Hloop : forall g',
    stuck date app ts (tracker_of g') ->
    let g'' := fold_left (fun g s => run_tracker_iteration s g) samples g' in
    logged g'' = (logged g' ++ repeat TypeError (length samples))%list /\
    stuck date app ts (tracker_of g'') /\
    app_seconds_at date category app (data (tracker_of g''))
    == app_seconds_at date category app (data (tracker_of g'))
       + qsum (map (fun s => now s - t0) samples)).
  { induction Hall as [|s samples [(Htoday & Hwin & idle & Hidle & Hlt) Hle]
                         _ IH]; intros g' Hst.
    - cbv zeta. simpl. rewrite app_nil_r. split; [reflexivity|].
      split; [exact Hst|ring].
    - destruct Hst as (Hinv' & Hsession & Hpv').
      pose proof Hsession as Hs. unfold session in Hs. simpl in Hs.
      injection Hs as Hcur' Hstart' Hthr' Hp' Hproj' Hfocus' Hcfg'.
      change (cfg ts) with (cfg t) in Hpv'.
      set (t' := tracker_of g') in *.
      assert (Hbody : run_tracker_body s t'
                      = (record_time (today s) app (now s - t0)
                           (current_project t') ;;
                         modify (set_start_time (Some (now s))) ;;
                         save_data) t').
      { apply run_tracker_body_same_app with idle; auto; try congruence.
        unfold is_app_blocked in *. now rewrite Hfocus', Hcfg'. }
      assert (Hex' : is_excluded (cfg t') app = false) by now rewrite Hcfg'.
      assert (Hpv2 : projects_field date (categorize_app (cfg t') app)
                       (data t') = Ok VNone) by now rewrite Hcfg'.
      assert (Hproj2 : truthy (current_project t') = true)
        by now rewrite Hproj'.
      destruct (record_time_null_state date app (now s - t0)
                  (current_project t') t' Hinv' Hdate Hex' Hpv2 Hproj2)
        as [Hraise Hpv3].
      destruct (record_time_effect date app (now s - t0)
                  (current_project t') t' Hinv' Hdate Hex') as [Heff _].
      pose proof (preserves_record_time date app (now s - t0)
                    (current_project t') t' Hinv') as Hinv2.
      pose proof (record_time_session date app (now s - t0)
                    (current_project t') t') as [Hsession2 _].
      destruct (record_time date app (now s - t0) (current_project t') t')
        as [[[]|e] t2] eqn:E; [discriminate|].
      simpl in Hraise, Hpv3, Heff, Hinv2, Hsession2. injection Hraise as ->.
      assert (Hiter : run_tracker_iteration s g'
                      = mkGui t2 (Some TypeError)
                          (logged g' ++ [TypeError])%list).
      { unfold run_tracker_iteration. fold t'. rewrite Hbody, Htoday.
        unfold bind. now rewrite E. }
      cbv zeta in IH.
      destruct (IH (mkGui t2 (Some TypeError) (logged g' ++ [TypeError])%list))
        as (Hlog & Hst'' & Happ).
      { unfold stuck. cbn [tracker_of].
        split; [exact Hinv2|]. split; [exact (eq_trans Hsession2 Hsession)|].
        change (cfg ts) with (cfg t). now rewrite Hcfg' in Hpv3. }
      cbv zeta. cbn [fold_left]. rewrite Hiter.
      split; [|split; [exact Hst''|]].
      + rewrite Hlog. cbn [logged length repeat].
        now rewrite <- app_assoc.
      + rewrite Happ. unfold qsum. cbn [tracker_of map fold_right].
        rewrite Hcfg' in Heff. fold category in Heff. rewrite Heff. ring. }
  unfold g, run_tracker. cbn [tracker_of last_error logged]. fold ts.
  destruct (Hloop (mkGui ts last log)) as (Hlog & (_ & Hsession & _) & Happ).
  { split; [exact Hinv|]. split; [reflexivity|exact Hpv]. }
  split; [exact Hlog|]. split; [|exact Happ].
  unfold session in Hsession. injection Hsession as _ Hs _. 
  rewrite Hs. exact Hstart.
Qed.

Lemma gui_project_error_recounts_witness :
  let samples := [sample_at 110 "vim" 0; sample_at 115 "vim" 0;
                  sample_at 120 "vim" 0] in
  let t := set_session (Some "vim") (Some 100) thesis_tracker in
  let g := run_tracker samples (mkGui t None []) in
  logged g = ([] ++ repeat TypeError (length samples))%list /\
  start_time (tracker_of g) = Some 100 /\
  app_seconds_at "2024-01-02" (categorize_app (cfg t) "vim") "vim"
    (data (tracker_of g))
  == app_seconds_at "2024-01-02" (categorize_app (cfg t) "vim") "vim" (data t)
     + qsum (map (fun s => now s - 100) samples).
Proof.
  apply (gui_project_error_recounts
           [sample_at 110 "vim" 0; sample_at 115 "vim" 0;
            sample_at 120 "vim" 0]
           "2024-01-02" "vim" 100
           (set_session (Some "vim") (Some 100) thesis_tracker) None []);
    try reflexivity; try discriminate.
  - apply store_inv_example_tracker.
  - repeat constructor; eexists; split; reflexivity.
Defined.

(** ** The accounting in Python's numbers *)

Section AccountingFacts.
Import SpecFloat Accounting.














(** *** Integer durations *)














(** The three float samples give a bucket whose total is
    0.7000000000000001 and whose apps sum to 0.7. *)
Example float_calls_bucket :
  bucket_at "2024-01-02" "Coding"
    (do_calls (tests_of default_config) float_calls [])
  = Some float_bucket /\
  py_sum (map snd (apps float_bucket))
  = PFloat (S754_finite false 6305039478318694 (-53)).
Proof. split; vm_compute; reflexivity. Qed.


End AccountingFacts.

(** ** The classifier on Unicode strings *)




















(** In Python, [odos.lower()] ends in the final sigma and
    [odosa.lower()] has the other one in that place, so that the first
    does not occur in the second. *)
Example lower_utf8_sigma :
  lower_utf8 odos = Some (encode [959; 948; 959; 962]%N) /\
  lower_utf8 odosa = Some (encode [959; 948; 959; 963; 945]%N) /\
  str_in odos odosa = true /\
  categorize_app_utf8 (with_custom_rules [(odos, "Work")] default_config)
    odosa = Some "Other".
Proof. repeat split; vm_compute; reflexivity. Qed.


(** ** The data file *)

Section JsonFacts.
Import SpecFloat Accounting Json.

Lemma json_induction (P : json -> Prop) :
  P JNull -> (forall b, P (JBool b)) -> (forall x, P (JNum x)) ->
  (forall s, P (JStr s)) ->
  (forall l, Forall P l -> P (JList l)) ->
  (forall d, Forall (fun kv => P (snd kv)) d -> P (JDict d)) ->
  forall v, P v.
Proof.
  intros HN HB HX HS HL HD. fix IH 1.
  intros [|b|x|s|l|d];
    [exact HN|apply HB|apply HX|apply HS|idtac|idtac].
  - apply HL. revert l. fix IHl 1. intros [|y l]; constructor;
      [apply IH|apply IHl].
  - apply HD. revert d. fix IHd 1. intros [|[k y] d]; constructor;
      [apply IH|apply IHd].
Qed.

Lemma tokens_head (v : json) (rest rest' : list token) :
  (tokens v ++ rest)%list <> TRBracket :: rest'.
Proof.
  destruct v as [|[|]|x|s|[|y l]|[|[k y] d]]; simpl; discriminate.
Qed.

Lemma parse_list_step (fuel : nat) (toks : list token) :
  (forall rest', toks <> TRBracket :: rest') ->
  parse (S fuel) (TLBracket :: toks)
  = match parse fuel toks with
    | Some (x, rest') =>
        match elements fuel rest' with
        | Some (l, rest'') => Some (JList (x :: l), rest'')
        | None => None
        end
    | None => None
    end.
Proof.
  intros H. destruct toks as [|t toks]; [reflexivity|].
  destruct t; try reflexivity. now destruct (H toks).
Qed.

(** The parser reads back what the printer wrote. *)
Definition parsed (v : json) : Prop :=
  well_keyed v = true ->
  forall fuel rest,
    (length (tokens v) <= fuel)%nat ->
    parse fuel (tokens v ++ rest) = Some (v, rest).

Lemma elements_more (l : list json) :
  Forall parsed l -> forallb well_keyed l = true ->
  forall fuel rest,
    (length (more_elements tokens l) <= fuel)%nat ->
    elements fuel (more_elements tokens l ++ rest) = Some (l, rest).
Proof.
  induction 1 as [|y l Hy _ IH]; intros Hw fuel rest Hf;
    (destruct fuel as [|fuel]; [simpl in Hf; lia|]).
  - reflexivity.
  - simpl in Hw. apply andb_true_iff in Hw as [Hwy Hwl].
    cbn [more_elements] in *. cbn [length] in Hf.
    rewrite length_app in Hf.
    change ((TComma :: tokens y ++ more_elements tokens l) ++ rest)%list
      with (TComma :: (tokens y ++ more_elements tokens l) ++ rest)%list.
    rewrite <- app_assoc. cbn [elements].
    rewrite (Hy Hwy fuel _ ltac:(lia)).
    now rewrite (IH Hwl fuel rest ltac:(lia)).
Qed.

Lemma members_more (d : list (string * json)) :
  Forall (fun kv => parsed (snd kv)) d ->
  forallb (fun kv => well_keyed (snd kv)) d = true ->
  forall fuel rest,
    (length (more_members tokens d) <= fuel)%nat ->
    members fuel (more_members tokens d ++ rest) = Some (d, rest).
Proof.
  induction 1 as [|[k y] d Hy _ IH]; intros Hw fuel rest Hf;
    (destruct fuel as [|fuel]; [simpl in Hf; lia|]).
  - reflexivity.
  - simpl in Hw, Hy. apply andb_true_iff in Hw as [Hwy Hwd].
    cbn [more_members] in *. cbn [length] in Hf.
    rewrite length_app in Hf.
    change ((TComma :: TString k :: TColon
             :: tokens y ++ more_members tokens d) ++ rest)%list
      with (TComma :: TString k :: TColon
            :: (tokens y ++ more_members tokens d) ++ rest)%list.
    rewrite <- app_assoc. cbn [members].
    rewrite (Hy Hwy fuel _ ltac:(lia)).
    now rewrite (IH Hwd fuel rest ltac:(lia)).
Qed.

Lemma distinct_NoDup (keys : list string) :
  distinct keys = true -> NoDup keys.
Proof.
  induction keys as [|k keys IH]; simpl; intros H; constructor;
    apply andb_true_iff in H as [Hk Hrest]; [|now apply IH].
  intros Hin. apply negb_true_iff in Hk.
  assert (Ht : existsb (String.eqb k) keys = true).
  { apply existsb_exists. exists k. split; [exact Hin|].
    apply String.eqb_refl. }
  congruence.
Qed.

Lemma put_fresh {A : Type} (k : string) (x : A) (m : list (string * A)) :
  ~ In k (map fst m) -> put k x m = (m ++ [(k, x)])%list.
Proof.
  induction m as [|[k' y] m IH]; simpl; intros H; [reflexivity|].
  destruct (k' =? k) eqn:E.
  - apply String.eqb_eq in E. destruct H. now left.
  - rewrite IH; [reflexivity|]. intros Hin. apply H. now right.
Qed.

Lemma fold_put_distinct (pairs acc : list (string * json)) :
  NoDup (map fst (acc ++ pairs)) ->
  fold_left (fun d kv => put (fst kv) (snd kv) d) pairs acc
  = (acc ++ pairs)%list.
Proof.
  revert acc. induction pairs as [|[k x] pairs IH]; intros acc H; simpl.
  - now rewrite app_nil_r.
  - rewrite put_fresh.
    + rewrite IH; rewrite <- app_assoc; [reflexivity|exact H].
    + rewrite map_app in H. simpl in H. apply NoDup_remove_2 in H.
      intros Hin. apply H. apply in_or_app. now left.
Qed.

Lemma dict_of_pairs_distinct (d : list (string * json)) :
  distinct (map fst d) = true -> dict_of_pairs d = d.
Proof.
  intros H. unfold dict_of_pairs.
  now rewrite (fold_put_distinct d [] (distinct_NoDup _ H)).
Qed.

Lemma tokens_parse (v : json) : parsed v.
Proof.
  induction v as [|b|x|s|l Hl|d Hd] using json_induction;
    intros Hw fuel rest Hf.
  - destruct fuel; [simpl in Hf; lia|reflexivity].
  - destruct fuel; [destruct b; simpl in Hf; lia|now destruct b].
  - destruct fuel; [simpl in Hf; lia|reflexivity].
  - destruct fuel; [simpl in Hf; lia|reflexivity].
  - destruct l as [|x l];
      (destruct fuel as [|fuel]; [simpl in Hf; lia|]); [reflexivity|].
    inversion Hl as [|? ? Hx Hrest]; subst.
    simpl in Hw. apply andb_true_iff in Hw as [Hwx Hwl].
    cbn [tokens] in *. cbn [length] in Hf. rewrite length_app in Hf.
    change ((TLBracket :: tokens x ++ more_elements tokens l) ++ rest)%list
      with (TLBracket :: (tokens x ++ more_elements tokens l) ++ rest)%list.
    rewrite <- app_assoc.
    rewrite parse_list_step by (intros rest'; apply tokens_head).
    rewrite (Hx Hwx fuel _ ltac:(lia)).
    now rewrite (elements_more l Hrest Hwl fuel rest ltac:(lia)).
  - destruct d as [|[k x] d];
      (destruct fuel as [|fuel]; [simpl in Hf; lia|]); [reflexivity|].
    inversion Hd as [|? ? Hx Hrest]; subst. simpl in Hx.
    pose proof Hw as Hkeys.
    cbn [well_keyed] in Hw. apply andb_true_iff in Hw as [Hdist Hw].
    cbn [forallb snd] in Hw. apply andb_true_iff in Hw as [Hwx Hwd].
    cbn [tokens] in *. cbn [length] in Hf. rewrite length_app in Hf.
    change ((TLBrace :: TString k :: TColon
             :: tokens x ++ more_members tokens d) ++ rest)%list
      with (TLBrace :: TString k :: TColon
            :: (tokens x ++ more_members tokens d) ++ rest)%list.
    rewrite <- app_assoc. cbn [parse].
    rewrite (Hx Hwx fuel _ ltac:(lia)).
    rewrite (members_more d Hrest Hwd fuel rest ltac:(lia)).
    now rewrite (dict_of_pairs_distinct ((k, x) :: d) Hdist).
Qed.

Lemma SFeqb_refl (f : spec_float) : is_nan f = false -> SFeqb f f = true.
Proof.
  destruct f as [s|s| |s m e]; try discriminate; intros _;
    unfold SFeqb, SFcompare.
  - reflexivity.
  - now destruct s.
  - destruct s; rewrite Z.compare_refl;
      change (Pos.compare_cont Eq m m) with (Pos.compare m m);
      now rewrite Pos.compare_refl.
Qed.

Lemma py_eqb_refl (x : number) : storable x = true -> py_eqb x x = true.
Proof.
  destruct x as [z|f]; simpl; intros H.
  - apply Z.eqb_refl.
  - apply SFeqb_refl. now apply negb_true_iff.
Qed.

Lemma get_distinct {A : Type} (k : string) (x : A) (m : list (string * A)) :
  NoDup (map fst m) -> In (k, x) m -> get k m = Some x.
Proof.
  induction m as [|[k' y] m IH]; simpl; intros Hn Hin; [destruct Hin|].
  inversion Hn as [|? ? Hk Hrest]; subst.
  destruct Hin as [Heq|Hin].
  - injection Heq as -> ->. now rewrite String.eqb_refl.
  - destruct (k' =? k) eqn:E; [|now apply IH].
    apply String.eqb_eq in E. subst k'. destruct Hk.
    apply in_map_iff. now exists (k, x).
Qed.

(** A value without NaN is equal to itself. *)
Lemma json_eqb_refl (v : json) :
  well_keyed v = true -> all_storable v = true -> json_eqb v v = true.
Proof.
  induction v as [|b|x|s|l Hl|d Hd] using json_induction; intros Hw Hs.
  - reflexivity.
  - now destruct b.
  - now apply py_eqb_refl.
  - apply String.eqb_refl.
  - cbn [json_eqb well_keyed all_storable] in *.
    induction Hl as [|y l Hy _ IH]; [reflexivity|].
    simpl in Hw, Hs. apply andb_true_iff in Hw as [Hwy Hwl].
    apply andb_true_iff in Hs as [Hsy Hsl].
    simpl. now rewrite (Hy Hwy Hsy), (IH Hwl Hsl).
  - cbn [json_eqb well_keyed all_storable] in *.
    apply andb_true_iff in Hw as [Hdist Hw].
    rewrite Nat.eqb_refl. cbn [andb].
    apply distinct_NoDup in Hdist.
    assert (Hall : forall d0, incl d0 d ->
                     members_eqb json_eqb d d0 = true).
    { induction d0 as [|[k x] d0 IH]; intros Hincl; [reflexivity|].
      cbn [members_eqb].
      assert (Hin : In (k, x) d) by (apply Hincl; now left).
      rewrite (get_distinct k x d Hdist Hin).
      rewrite IH by (intros kv Hkv; apply Hincl; now right).
      rewrite andb_true_r.
      apply (proj1 (Forall_forall _ _) Hd (k, x) Hin).
      - apply (proj1 (forallb_forall _ _) Hw (k, x) Hin).
      - apply (proj1 (forallb_forall _ _) Hs (k, x) Hin). }
    apply Hall, incl_refl.
Qed.

(** C9.  For every JSON value with distinct keys in each dictionary, in
    particular every store, whose numbers are floats other than NaN and
    integers of at most 4300 digits: loading the file that [save_data]
    wrote gives the value back, and the loaded value is equal to the
    saved one under Python's [==]. *)
Theorem data_file_round_trip (v : json) :
  well_keyed v = true -> all_storable v = true ->
  exists loaded,
    load_data (Some (save_data v)) = Some loaded /\
    loaded = v /\
    json_eqb loaded v = true.
Proof.
  intros Hw Hs. exists v. split; [|split; [reflexivity|]].
  - unfold load_data, save_data.
    pose proof (tokens_parse v Hw (length (tokens v)) [] (le_n _)) as H.
    rewrite app_nil_r in H. now rewrite H.
  - now apply json_eqb_refl.
Qed.

Lemma data_file_round_trip_witness :
  is_store (coding_store (PFloat two_fifths)) = true /\
  exists loaded,
    load_data (Some (save_data (coding_store (PFloat two_fifths))))
    = Some loaded /\
    loaded = coding_store (PFloat two_fifths) /\
    json_eqb loaded (coding_store (PFloat two_fifths)) = true.
Proof.
  split; [reflexivity|].
  apply (data_file_round_trip (coding_store (PFloat two_fifths)));
    reflexivity.
Defined.

(** A store with a NaN is written and read without an error, and the
    loaded store is not equal to it. *)
Example nan_store_round_trip :
  load_data (Some (save_data nan_store)) = Some nan_store /\
  json_eqb nan_store nan_store = false.
Proof. split; vm_compute; reflexivity. Qed.

Lemma round_trip_counterexample : ~ round_trip_as_stated.
Proof.
  intros H.
  assert (Hs : is_store nan_store = true) by (vm_compute; reflexivity).
  assert (Hw : well_keyed nan_store = true) by (vm_compute; reflexivity).
  destruct (H nan_store Hs Hw) as (loaded & Hl & He).
  vm_compute in Hl. injection Hl as <-. vm_compute in He. discriminate.
Qed.

End JsonFacts.
